(** * Session lifecycle and scheduling of the peer-tutoring platform

    A shallow embedding of [routes/sessions.js] (booking, rescheduling,
    cancelling, starting and ending sessions, the conflict detector, the
    availability checker, the recurrence expander and the reminder sweep)
    together with the parts of [models/Session.js] and [models/User.js]
    those handlers read and write, the reading routes of the same file,
    the learning streaks of [routes/analytics.js] and the submission,
    voting and reporting of [routes/feedback.js].

    Conventions of the model:
    - a JavaScript [Date] is its time value, an integer number of
      milliseconds since the Unix epoch ([Z]);
    - the server's local zone is UTC, so moment's local calendar arithmetic
      ([format], [add]) is UTC calendar arithmetic;
    - Mongo object ids are natural numbers; the session collection is a
      list and the id of a session is its position (sessions are appended
      and never deleted by the application);
    - every [new Date()] evaluated by a handler reads a clock; a handler
      takes a function [clk] whose value at [k] is the result of the
      [k]-th read of that invocation;
    - a string is a sequence of characters with codes below 256, one
      UTF-16 code unit each, so that [String.length] is the [length] of
      the JavaScript string and the length [isLength] checks; text with
      other characters is outside the model;
    - requests are served one at a time: a handler runs from its first
      statement to its answer before the next one starts. *)

From Stdlib Require Import ZArith QArith String Ascii List Lia Bool.
From Stdlib Require Import DecimalString Sorted.
From stdpp Require Import base option list gmap strings.

Local Open Scope Z_scope.

(** ** Time-window utilities *)

Module Dates.

Definition msPerMinute : Z := 1000 * 60.
Definition msPerHour : Z := 1000 * 60 * 60.
Definition msPerDay : Z := 24 * 60 * 60 * 1000.

(** Day number since 1970-01-01 and time within the day. *)
Definition epochDay (t : Z) : Z := t / msPerDay.
Definition msOfDay (t : Z) : Z := t mod msPerDay.

Definition isLeapYear (y : Z) : bool :=
  ((y mod 4 =? 0) && negb (y mod 100 =? 0)) || (y mod 400 =? 0).

(** moment's [daysInMonth(year, month)]: [month] is a 0-based index that
    may overflow past 11, in which case the year is advanced. *)
Definition daysInMonth (year month : Z) : Z :=
  let modMonth := month mod 12 in
  let year := year + (month - modMonth) / 12 in
  if modMonth =? 1 then (if isLeapYear year then 29 else 28)
  else 31 - ((modMonth mod 7) mod 2).

(** Day number of a civil date of the proleptic Gregorian calendar
    ([MakeDay] of ECMAScript): 0-based [month], which may be 12 or more. *)
Definition days_of_civil (year month day : Z) : Z :=
  let y := year + month / 12 in
  let m := month mod 12 + 1 in
  let y := if m <=? 2 then y - 1 else y in
  let era := y / 400 in
  let yoe := y - era * 400 in
  let doy := (153 * (if 2 <? m then m - 3 else m + 9) + 2) / 5 + day - 1 in
  let doe := yoe * 365 + yoe / 4 - yoe / 100 + doy in
  era * 146097 + doe - 719468.

(** The civil date (year, 0-based month, day of month) of a day number. *)
Definition civil_of_days (z : Z) : Z * Z * Z :=
  let z := z + 719468 in
  let era := z / 146097 in
  let doe := z - era * 146097 in
  let yoe := (doe - doe / 1460 + doe / 36524 - doe / 146096) / 365 in
  let y := yoe + era * 400 in
  let doy := doe - (365 * yoe + yoe / 4 - yoe / 100) in
  let mp := (5 * doy + 2) / 153 in
  let d := doy - (153 * mp + 2) / 5 + 1 in
  let m := if mp <? 10 then mp + 3 else mp - 9 in
  ((if m <=? 2 then y + 1 else y), m - 1, d).

(** A UTC instant from its civil fields. *)
Definition utc (year month1 day hour minute : Z) : Z :=
  days_of_civil year (month1 - 1) day * msPerDay
  + hour * msPerHour + minute * msPerMinute.

(** [moment(t).add(n, "days")] and [add(n, "weeks")]. *)
Definition add_days (n : Z) (t : Z) : Z := t + n * msPerDay.
Definition add_weeks (n : Z) (t : Z) : Z := add_days (7 * n) t.

(** The day number reached by [add(1, "month")]: the month index is
    advanced and the day of month is clamped to the length of the target
    month (moment's [setMonth]). *)
Definition add_month_days (z : Z) : Z :=
  let '(y, m, d) := civil_of_days z in
  let date := if d <? 29 then d else Z.min d (daysInMonth y (m + 1)) in
  days_of_civil y (m + 1) date.

(** [moment(t).add(1, "month")]: the time of day is kept. *)
Definition add_month (t : Z) : Z :=
  add_month_days (epochDay t) * msPerDay + msOfDay t.

(** [moment(t).format("dddd").toLowerCase()]. *)
Definition dayNames : list string :=
  ["sunday"; "monday"; "tuesday"; "wednesday"; "thursday"; "friday";
   "saturday"]%string.

Definition dayOfWeek (t : Z) : string :=
  nth (Z.to_nat ((epochDay t + 4) mod 7)) dayNames ""%string.

(** [moment(t).format("HH:mm")]. *)
Definition digit (n : Z) : ascii := ascii_of_nat (48 + Z.to_nat n).

Definition two_digits (n : Z) : string :=
  String (digit (n / 10)) (String (digit (n mod 10)) EmptyString).

Definition hours (t : Z) : Z := msOfDay t / msPerHour.
Definition minutes (t : Z) : Z := (msOfDay t mod msPerHour) / msPerMinute.

Definition textHHmm (h m : Z) : string :=
  (two_digits h ++ ":" ++ two_digits m)%string.

Definition formatHHmm (t : Z) : string := textHHmm (hours t) (minutes t).

End Dates.

Import Dates.

(** ** Data model ([models/Session.js], [models/User.js]) *)

Inductive Status :=
  scheduled | confirmed | ongoing | completed | cancelled | no_show.

Inductive SessionType := online | offline.

Inductive Frequency := weekly | biweekly | monthly.

Inductive Role := role_student | role_tutor | role_both.

#[global] Instance Status_eq_dec : EqDecision Status.
Proof. solve_decision. Defined.
#[global] Instance SessionType_eq_dec : EqDecision SessionType.
Proof. solve_decision. Defined.
#[global] Instance Frequency_eq_dec : EqDecision Frequency.
Proof. solve_decision. Defined.
#[global] Instance Role_eq_dec : EqDecision Role.
Proof. solve_decision. Defined.

Record Location := {
  locDetails : option string;
  meetingLink : option string;
  address : option string }.

Record Notes := {
  notesStudent : option string;
  notesTutor : option string;
  notesAdmin : option string }.

Record Reminders := { sent : bool; sentAt : option Z }.

Record Recurring := {
  isRecurring : bool;
  frequency : option Frequency;
  endDate : option Z;
  parentSession : option nat }.

Record Cancellation := {
  cancelledBy : nat;
  cancelledAt : Z;
  reason : string }.

(** A session document.  [materials] and the timestamps maintained by
    mongoose are read by none of the handlers and are left out. *)
Record Session := {
  student : nat;
  tutor : nat;
  subject : string;
  description : option string;
  scheduledStart : Z;
  scheduledEnd : Z;
  actualStart : option Z;
  actualEnd : option Z;
  status : Status;
  sessionType : SessionType;
  location : Location;
  price : option Z;
  notes : Notes;
  reminders : Reminders;
  recurring : Recurring;
  cancellation : option Cancellation }.

(** The schema defaults of a new document. *)
Definition noLocation : Location :=
  {| locDetails := None; meetingLink := None; address := None |}.
Definition noNotes : Notes :=
  {| notesStudent := None; notesTutor := None; notesAdmin := None |}.
Definition noReminder : Reminders := {| sent := false; sentAt := None |}.
Definition notRecurring : Recurring :=
  {| isRecurring := false; frequency := None; endDate := None;
     parentSession := None |}.

(** Assignments to the paths of a document. *)
Definition set_window (a b : Z) (s : Session) : Session :=
  {| student := student s; tutor := tutor s; subject := subject s;
     description := description s;
     scheduledStart := a; scheduledEnd := b;
     actualStart := actualStart s; actualEnd := actualEnd s;
     status := status s; sessionType := sessionType s;
     location := location s; price := price s; notes := notes s;
     reminders := reminders s; recurring := recurring s;
     cancellation := cancellation s |}.

Definition set_status (v : Status) (s : Session) : Session :=
  {| student := student s; tutor := tutor s; subject := subject s;
     description := description s;
     scheduledStart := scheduledStart s; scheduledEnd := scheduledEnd s;
     actualStart := actualStart s; actualEnd := actualEnd s;
     status := v; sessionType := sessionType s;
     location := location s; price := price s; notes := notes s;
     reminders := reminders s; recurring := recurring s;
     cancellation := cancellation s |}.

Definition set_actualStart (v : Z) (s : Session) : Session :=
  {| student := student s; tutor := tutor s; subject := subject s;
     description := description s;
     scheduledStart := scheduledStart s; scheduledEnd := scheduledEnd s;
     actualStart := Some v; actualEnd := actualEnd s;
     status := status s; sessionType := sessionType s;
     location := location s; price := price s; notes := notes s;
     reminders := reminders s; recurring := recurring s;
     cancellation := cancellation s |}.

Definition set_actualEnd (v : Z) (s : Session) : Session :=
  {| student := student s; tutor := tutor s; subject := subject s;
     description := description s;
     scheduledStart := scheduledStart s; scheduledEnd := scheduledEnd s;
     actualStart := actualStart s; actualEnd := Some v;
     status := status s; sessionType := sessionType s;
     location := location s; price := price s; notes := notes s;
     reminders := reminders s; recurring := recurring s;
     cancellation := cancellation s |}.

Definition set_notes (v : Notes) (s : Session) : Session :=
  {| student := student s; tutor := tutor s; subject := subject s;
     description := description s;
     scheduledStart := scheduledStart s; scheduledEnd := scheduledEnd s;
     actualStart := actualStart s; actualEnd := actualEnd s;
     status := status s; sessionType := sessionType s;
     location := location s; price := price s; notes := v;
     reminders := reminders s; recurring := recurring s;
     cancellation := cancellation s |}.

Definition set_reminders (v : Reminders) (s : Session) : Session :=
  {| student := student s; tutor := tutor s; subject := subject s;
     description := description s;
     scheduledStart := scheduledStart s; scheduledEnd := scheduledEnd s;
     actualStart := actualStart s; actualEnd := actualEnd s;
     status := status s; sessionType := sessionType s;
     location := location s; price := price s; notes := notes s;
     reminders := v; recurring := recurring s;
     cancellation := cancellation s |}.

Definition set_cancellation (v : Cancellation) (s : Session) : Session :=
  {| student := student s; tutor := tutor s; subject := subject s;
     description := description s;
     scheduledStart := scheduledStart s; scheduledEnd := scheduledEnd s;
     actualStart := actualStart s; actualEnd := actualEnd s;
     status := status s; sessionType := sessionType s;
     location := location s; price := price s; notes := notes s;
     reminders := reminders s; recurring := recurring s;
     cancellation := Some v |}.

Definition set_meetingLink (v : string) (s : Session) : Session :=
  {| student := student s; tutor := tutor s; subject := subject s;
     description := description s;
     scheduledStart := scheduledStart s; scheduledEnd := scheduledEnd s;
     actualStart := actualStart s; actualEnd := actualEnd s;
     status := status s; sessionType := sessionType s;
     location := {| locDetails := locDetails (location s);
                    meetingLink := Some v;
                    address := address (location s) |};
     price := price s; notes := notes s;
     reminders := reminders s; recurring := recurring s;
     cancellation := cancellation s |}.

(** One slot of a tutor's weekly availability: a day name and two
    strings; the schema only requires them to be present. *)
Record Slot := { day : string; startTime : string; endTime : string }.

(** The statistics the [End] handler accumulates.  The source adds the
    duration in hours, a floating-point quotient; the model keeps the
    numerator, in milliseconds. *)
Record Stats := {
  totalSessions : Z;
  completedSessions : Z;
  msLearning : Z;
  msTeaching : Z }.

Record User := {
  role : Role;
  availability : list Slot;
  stats : Stats }.

(** Mail handed to the notification sender, in order. *)
Inductive Event :=
  | BookingNotice (session : nat)
  | RescheduleNotice (session : nat) (rescheduledBy : nat)
  | CancellationNotice (session : nat) (cancelledBy : nat)
  | ReminderNotice (session : nat).

#[global] Instance Event_eq_dec : EqDecision Event.
Proof. solve_decision. Defined.

(** The two collections and the outgoing mail. *)
Record State := {
  sessions : list Session;
  users : gmap nat User;
  outbox : list Event }.

Definition with_sessions (l : list Session) (st : State) : State :=
  {| sessions := l; users := users st; outbox := outbox st |}.
Definition with_users (u : gmap nat User) (st : State) : State :=
  {| sessions := sessions st; users := u; outbox := outbox st |}.
Definition send (e : Event) (st : State) : State :=
  {| sessions := sessions st; users := users st;
     outbox := outbox st ++ [e] |}.

(** [Session.find(query)]: the documents, each with its id, that
    satisfy the query, in collection order. *)
Definition find (query : nat * Session -> bool) (coll : list Session)
  : list (nat * Session) :=
  List.filter query (imap pair coll).

(** ** Conflict detector *)

Definition excluded (excludeSessionId : option nat) (id : nat) : bool :=
  match excludeSessionId with
  | Some e => bool_decide (id = e)
  | None => false
  end.

(** The query document of [checkSchedulingConflicts]. *)
Definition conflictQuery (studentId tutorId : nat) (start end_ : Z)
    (excludeSessionId : option nat) (doc : nat * Session) : bool :=
  let '(id, s) := doc in
  ((bool_decide (student s = studentId) || bool_decide (tutor s = tutorId))
   && bool_decide (status s ∈ [scheduled; confirmed; ongoing])
   && ((scheduledStart s <? end_) && (start <? scheduledEnd s)))
  && negb (excluded excludeSessionId id).

Definition checkSchedulingConflicts (coll : list Session)
    (studentId tutorId : nat) (start end_ : Z)
    (excludeSessionId : option nat) : list (nat * Session) :=
  find (conflictQuery studentId tutorId start end_ excludeSessionId) coll.

(** ** Availability checker *)

(** The predicate passed to [tutor.availability.find]; [<=] and [>=] on
    JavaScript strings compare code units lexicographically. *)
Definition slotCovers (dayOfWeek startTime' endTime' : string) (slot : Slot)
  : bool :=
  String.eqb (day slot) dayOfWeek
  && String.leb (startTime slot) startTime'
  && String.leb endTime' (endTime slot).

Definition checkTutorAvailability (directory : gmap nat User)
    (tutorId : nat) (start end_ : Z) : bool :=
  match directory !! tutorId with
  | None => false
  | Some tutor =>
      let dayOfWeek := dayOfWeek start in
      let startTime := formatHHmm start in
      let endTime := formatHHmm end_ in
      match List.find (slotCovers dayOfWeek startTime endTime)
                      (availability tutor) with
      | Some _ => true
      | None => false
      end
  end.

(** ** Requests, replies and validators *)

(** The reply of a handler: the success body, or the status and message
    of the failure ([ValidationErrors] is the 400 reply that carries the
    express-validator error array). *)
Inductive Reply (A : Type) :=
  | Ok (body : A)
  | ValidationErrors
  | BadRequest (message : string)
  | Forbidden (message : string)
  | NotFound (message : string)
  | Conflict (message : string) (conflicts : list (nat * Session))
  | ServerError (message : string).

Arguments Ok {A} body.
Arguments ValidationErrors {A}.
Arguments BadRequest {A} message.
Arguments Forbidden {A} message.
Arguments NotFound {A} message.
Arguments Conflict {A} message conflicts.
Arguments ServerError {A} message.

Definition succeeded {A : Type} (r : Reply A) : bool :=
  match r with
  | Ok _ => true
  | _ => false
  end.

(** The white space of JavaScript (the class [\s], which [trim] strips)
    among the characters of the model: tab, line feed, vertical tab, form
    feed, carriage return, space and the no-break space U+00A0. *)
Definition isSpace (c : ascii) : bool :=
  let n := nat_of_ascii c in
  (Nat.eqb n 32 || (Nat.leb 9 n && Nat.leb n 13) || Nat.eqb n 160)%bool.

Fixpoint trimStart (l : list ascii) : list ascii :=
  match l with
  | c :: r => if isSpace c then trimStart r else l
  | [] => []
  end.

(** The [trim()] sanitizer. *)
Definition trim (s : string) : string :=
  string_of_list_ascii
    (rev (trimStart (rev (trimStart (list_ascii_of_string s))))).

Definition lengthBetween (lo hi : nat) (s : string) : bool :=
  (Nat.leb lo (String.length s) && Nat.leb (String.length s) hi)%bool.

Record RecurringReq := {
  reqIsRecurring : bool;
  reqFrequency : option Frequency;
  reqEndDate : Z }.

(** The body of [POST /book]; [isMongoId], [isISO8601] and [isIn] hold of
    every value of these types. *)
Record BookReq := {
  reqTutor : nat;
  reqSubject : string;
  reqDescription : option string;
  reqScheduledStart : Z;
  reqScheduledEnd : Z;
  reqType : SessionType;
  reqLocation : option Location;
  reqPrice : option Z;
  reqRecurring : option RecurringReq }.

Record RescheduleReq := {
  newScheduledStart : Z;
  newScheduledEnd : Z;
  rescheduleReason : option string }.

(** What the replies expose of a session. *)
Record Summary := {
  sumId : nat;
  sumScheduledStart : Z;
  sumScheduledEnd : Z;
  sumStatus : Status }.

Record CancelBody := {
  cbId : nat;
  cbStatus : Status;
  cbCancellation : option Cancellation }.

Record StartBody := {
  sbId : nat;
  sbStatus : Status;
  sbActualStart : option Z }.

(** [duration] is [actualEnd - actualStart]; it is not a number ([None])
    when the document has no [actualStart]. *)
Record EndBody := {
  ebId : nat;
  ebStatus : Status;
  ebActualEnd : option Z;
  ebDuration : option Z }.

Definition summary (id : nat) (s : Session) : Summary :=
  {| sumId := id; sumScheduledStart := scheduledStart s;
     sumScheduledEnd := scheduledEnd s; sumStatus := status s |}.

(** ** Session store *)

(** [sessionData] of the booking handler. *)
Record SessionData := {
  dataStudent : nat;
  dataTutor : nat;
  dataSubject : string;
  dataDescription : option string;
  dataScheduledStart : Z;
  dataScheduledEnd : Z;
  dataType : SessionType;
  dataLocation : option Location;
  dataPrice : option Z }.

(** [new Session({...data, recurring})] with the schema defaults. *)
Definition newSession (data : SessionData) (start end_ : Z)
    (rec : Recurring) : Session :=
  {| student := dataStudent data; tutor := dataTutor data;
     subject := dataSubject data; description := dataDescription data;
     scheduledStart := start; scheduledEnd := end_;
     actualStart := None; actualEnd := None;
     status := scheduled; sessionType := dataType data;
     location := default noLocation (dataLocation data);
     price := dataPrice data; notes := noNotes;
     reminders := noReminder; recurring := rec;
     cancellation := None |}.

(** The schema validators that can reject a booking on [save()]:
    [description.maxlength] and [price.min]. *)
Definition validates (s : Session) : bool :=
  match description s with
  | Some d => Nat.leb (String.length d) 1000
  | None => true
  end
  && match price s with
     | Some p => 0 <=? p
     | None => true
     end.

(** [save()] of a new document: it is appended and its id is its
    position. *)
Definition insertSession (s : Session) (coll : list Session)
  : nat * list Session :=
  (length coll, coll ++ [s]).

(** [save()] of a loaded document after the assignments [f]. *)
Definition saveSession (id : nat) (f : Session -> Session) (st : State)
  : State :=
  with_sessions (alter f id (sessions st)) st.

(** ** Recurrence expander *)

(** The [switch (frequency)] of the loop; without a frequency no case
    applies and the date stays. *)
Definition advance (frequency : option Frequency) (currentDate : Z) : Z :=
  match frequency with
  | Some weekly => add_weeks 1 currentDate
  | Some biweekly => add_weeks 2 currentDate
  | Some monthly => add_month currentDate
  | None => currentDate
  end.

Definition childRecurring (frequency : option Frequency) (endDate' : Z)
    (parentId : nat) : Recurring :=
  {| isRecurring := true; frequency := frequency; endDate := Some endDate';
     parentSession := Some parentId |}.

Definition parentRecurring (frequency : option Frequency) (endDate' : Z)
  : Recurring :=
  {| isRecurring := true; frequency := frequency; endDate := Some endDate';
     parentSession := None |}.

(** The [while] loop of [createRecurringSessions]; [created] is the
    [sessions] array.  [None]: the loop is still running when the fuel
    is spent. *)
Fixpoint recurringLoop (fuel : nat) (data : SessionData)
    (frequency : option Frequency) (endMoment duration : Z) (parentId : nat)
    (currentDate : Z) (created : list (nat * Session)) (coll : list Session)
  : option (list (nat * Session) * list Session) :=
  match fuel with
  | O => None
  | S fuel =>
      if currentDate <? endMoment then
        let currentDate := advance frequency currentDate in
        if currentDate <? endMoment then
          let recurringSession :=
            newSession data currentDate (currentDate + duration)
              (childRecurring frequency endMoment parentId) in
          let '(id, coll) := insertSession recurringSession coll in
          recurringLoop fuel data frequency endMoment duration parentId
            currentDate (created ++ [(id, recurringSession)]) coll
        else
          recurringLoop fuel data frequency endMoment duration parentId
            currentDate created coll
      else Some (created, coll)
  end.

Definition createRecurringSessions (fuel : nat) (data : SessionData)
    (recurring' : RecurringReq) (coll : list Session)
  : option (list (nat * Session) * list Session) :=
  let frequency := reqFrequency recurring' in
  let endDate := reqEndDate recurring' in
  let currentDate := dataScheduledStart data in
  let duration := dataScheduledEnd data - dataScheduledStart data in
  let parentSession :=
    newSession data (dataScheduledStart data) (dataScheduledEnd data)
      (parentRecurring frequency endDate) in
  let '(parentId, coll) := insertSession parentSession coll in
  recurringLoop fuel data frequency endDate duration parentId currentDate
    [(parentId, parentSession)] coll.

(** ** Session lifecycle controller *)

(** The text of an object id.  The model renders ids in decimal;
    [slice(-8)] of the source keeps the last eight characters of the
    24-digit hexadecimal text. *)
Definition generateMeetingLink (id : nat) : string :=
  ("https://meet.example.com/meeting-"
   ++ NilZero.string_of_uint (Nat.to_uint id))%string.

(** The loop that gives every created session its meeting link and
    saves it again. *)
Fixpoint assignLinks (created : list (nat * Session)) (coll : list Session)
  : list (nat * Session) * list Session :=
  match created with
  | [] => ([], coll)
  | (id, session) :: rest =>
      let link := generateMeetingLink id in
      let coll := alter (set_meetingLink link) id coll in
      let '(rest, coll) := assignLinks rest coll in
      ((id, set_meetingLink link session) :: rest, coll)
  end.

Definition createSessions (fuel : nat) (data : SessionData)
    (recurring' : option RecurringReq) (coll : list Session)
  : option (list (nat * Session) * list Session) :=
  let single :=
    let session :=
      newSession data (dataScheduledStart data) (dataScheduledEnd data)
        notRecurring in
    let '(id, coll) := insertSession session coll in
    Some ([(id, session)], coll) in
  match recurring' with
  | Some r =>
      if reqIsRecurring r then createRecurringSessions fuel data r coll
      else single
  | None => single
  end.

(** [sessionData] of a request; the subject has been trimmed by its
    validator. *)
Definition sessionDataOf (studentId : nat) (req : BookReq) : SessionData :=
  {| dataStudent := studentId; dataTutor := reqTutor req;
     dataSubject := trim (reqSubject req);
     dataDescription := reqDescription req;
     dataScheduledStart := reqScheduledStart req;
     dataScheduledEnd := reqScheduledEnd req;
     dataType := reqType req; dataLocation := reqLocation req;
     dataPrice := reqPrice req |}.

(** [POST /book].  [None]: the recurrence loop does not end within the
    fuel.  The schema validators depend on the description and the
    price only, which all sessions of a booking share, so the first
    [save()] decides for all of them. *)
Definition book (fuel : nat) (clk : nat -> Z) (caller : nat) (req : BookReq)
    (st : State) : option (Reply (list Summary) * State) :=
  let subject := trim (reqSubject req) in
  if negb (Nat.leb 1 (String.length subject)) then
    Some (ValidationErrors, st)
  else
  let tutorId := reqTutor req in
  let studentId := caller in
  let start := reqScheduledStart req in
  let end_ := reqScheduledEnd req in
  let now := clk 0%nat in
  if end_ <=? start then
    Some (BadRequest "End time must be after start time", st)
  else if start <=? now then
    Some (BadRequest "Session must be scheduled for the future", st)
  else
  match users st !! tutorId with
  | None => Some (NotFound "Tutor not found", st)
  | Some tutor' =>
  if negb (bool_decide (role tutor' ∈ [role_tutor; role_both])) then
    Some (NotFound "Tutor not found", st)
  else
  let conflicts :=
    checkSchedulingConflicts (sessions st) studentId tutorId start end_ None in
  if Nat.ltb 0 (length conflicts) then
    Some (Conflict "Scheduling conflict detected" conflicts, st)
  else
  let isAvailable := checkTutorAvailability (users st) tutorId start end_ in
  if negb isAvailable then
    Some (BadRequest "Tutor is not available at the requested time", st)
  else
  let sessionData := sessionDataOf studentId req in
  if negb (validates (newSession sessionData start end_ notRecurring)) then
    Some (ServerError "Server error during booking", st)
  else
  match createSessions fuel sessionData (reqRecurring req) (sessions st) with
  | None => None
  | Some (created, coll) =>
      let '(created, coll) :=
        match reqType req with
        | online => assignLinks created coll
        | offline => (created, coll)
        end in
      let st := with_sessions coll st in
      let st :=
        match created with
        | (id, _) :: _ => send (BookingNotice id) st
        | [] => st
        end in
      Some (Ok (map (fun d => summary (fst d) (snd d)) created), st)
  end
  end.

Definition isParticipant (userId : nat) (session : Session) : bool :=
  bool_decide (student session = userId)
  || bool_decide (tutor session = userId).

Definition optionalMax (hi : nat) (field : option string) : bool :=
  match field with
  | Some v => Nat.leb (String.length (trim v)) hi
  | None => true
  end.

(** The assignments of the handlers to the loaded document. *)
Definition rescheduled (newStart newEnd : Z) (s : Session) : Session :=
  set_status scheduled (set_window newStart newEnd s).

(** [PUT /:id/reschedule]. *)
Definition reschedule (clk : nat -> Z) (userId sessionId : nat)
    (req : RescheduleReq) (st : State) : Reply Summary * State :=
  if negb (optionalMax 500 (rescheduleReason req)) then (ValidationErrors, st)
  else
  match sessions st !! sessionId with
  | None => (NotFound "Session not found", st)
  | Some session =>
  if negb (isParticipant userId session) then (Forbidden "Access denied", st)
  else if negb (bool_decide (status session ∈ [scheduled; confirmed])) then
    (BadRequest "Session cannot be rescheduled", st)
  else
  let newStart := newScheduledStart req in
  let newEnd := newScheduledEnd req in
  let now := clk 0%nat in
  if newEnd <=? newStart then
    (BadRequest "End time must be after start time", st)
  else if newStart <=? now then
    (BadRequest "Session must be scheduled for the future", st)
  else
  let conflicts :=
    checkSchedulingConflicts (sessions st) (student session) (tutor session)
      newStart newEnd (Some sessionId) in
  if Nat.ltb 0 (length conflicts) then
    (Conflict "Scheduling conflict detected" conflicts, st)
  else
  let st := saveSession sessionId (rescheduled newStart newEnd) st in
  let st := send (RescheduleNotice sessionId userId) st in
  (Ok (summary sessionId (rescheduled newStart newEnd session)), st)
  end.

(** A quotient of two integers as JavaScript computes it: the binary64
    number nearest to the exact quotient, ties to even.  For positive [p]
    and [q], [divDouble p q] is the significand [m] and the exponent [e]
    of that number, [m * 2 ^ e], with [2 ^ 52 <= m <= 2 ^ 53].  The
    quotients of time values are far from the limits of the exponent. *)
Definition shiftUp (x k : Z) : Z := x * 2 ^ Z.max 0 k.

Definition divDouble (p q : Z) : Z * Z :=
  let e0 := Z.log2 p - Z.log2 q in
  let e := if shiftUp p (- e0) <? shiftUp q e0 then e0 - 1 else e0 in
  let num := shiftUp p (52 - e) in
  let den := shiftUp q (e - 52) in
  let m := num / den in
  let r := num mod den in
  let m :=
    if 2 * r <? den then m
    else if den <? 2 * r then m + 1
    else if Z.even m then m else m + 1 in
  (m, e - 52).

(** [2 ^ j * q <= p], for an exponent [j] of either sign. *)
Definition scaledLe (j q p : Z) : Prop := shiftUp q j <= shiftUp p (- j).

(** [p < 2 ^ j * q]. *)
Definition scaledLt (j p q : Z) : Prop := shiftUp p (- j) < shiftUp q j.

(** [toFixed(1)] of the number [x = m * 2 ^ e], not negative and below
    [1e21]: with [n] the integer for which [n / 10] is nearest to [x],
    the larger one of two, the digits of [n] with a point before the
    last; a negative number is printed as its sign and its absolute
    value, also when [n] is 0. *)
Definition tenths (m e : Z) : Z :=
  (shiftUp (20 * m) e + shiftUp 1 (- e)) / shiftUp 2 (- e).

Definition digits (n : Z) : string :=
  NilZero.string_of_uint (N.to_uint (Z.to_N n)).

Definition toFixed1 (negative : bool) (m e : Z) : string :=
  let n := tenths m e in
  ((if negative then "-" else "")
   ++ digits (n / 10) ++ "." ++ digits (n mod 10))%string.

(** [(ms / (1000 * 60 * 60)).toFixed(1)]. *)
Definition hoursToFixed1 (ms : Z) : string :=
  if ms =? 0 then "0.0"%string
  else
    let '(m, e) := divDouble (Z.abs ms) (1000 * 60 * 60) in
    toFixed1 (ms <? 0) m e.

(** The admin note of a late cancellation. *)
Definition lateCancellationNote (msUntilSession : Z) : string :=
  ("Late cancellation (" ++ hoursToFixed1 msUntilSession
   ++ " hours notice)")%string.

Definition set_adminNote (v : string) (s : Session) : Session :=
  set_notes {| notesStudent := notesStudent (notes s);
               notesTutor := notesTutor (notes s);
               notesAdmin := Some v |} s.

Definition cancelledWith (userId : nat) (reason' : string)
    (msUntilSession cancelledAt' : Z) (s : Session) : Session :=
  let annotated :=
    if msUntilSession <? 24 * msPerHour
    then set_adminNote (lateCancellationNote msUntilSession) s
    else s in
  set_cancellation
    {| cancelledBy := userId; cancelledAt := cancelledAt';
       reason := reason' |}
    (set_status cancelled annotated).

(** [PUT /:id/cancel]. *)
Definition cancel (clk : nat -> Z) (userId sessionId : nat)
    (reason' : string) (st : State) : Reply CancelBody * State :=
  let reason' := trim reason' in
  if negb (lengthBetween 1 500 reason') then (ValidationErrors, st)
  else
  match sessions st !! sessionId with
  | None => (NotFound "Session not found", st)
  | Some session =>
  if negb (isParticipant userId session) then (Forbidden "Access denied", st)
  else if negb (bool_decide (status session ∈ [scheduled; confirmed])) then
    (BadRequest "Session cannot be cancelled", st)
  else
  let msUntilSession := scheduledStart session - clk 0%nat in
  let assign := cancelledWith userId reason' msUntilSession (clk 1%nat) in
  let st := saveSession sessionId assign st in
  let st := send (CancellationNotice sessionId userId) st in
  (Ok {| cbId := sessionId; cbStatus := status (assign session);
         cbCancellation := cancellation (assign session) |}, st)
  end.

Definition started (actualStart' : Z) (s : Session) : Session :=
  set_actualStart actualStart' (set_status ongoing s).

(** [PUT /:id/start]. *)
Definition start (clk : nat -> Z) (userId sessionId : nat) (st : State)
  : Reply StartBody * State :=
  match sessions st !! sessionId with
  | None => (NotFound "Session not found", st)
  | Some session =>
  if negb (isParticipant userId session) then (Forbidden "Access denied", st)
  else if negb (bool_decide (status session ∈ [scheduled; confirmed])) then
    (BadRequest "Session cannot be started", st)
  else
  let msUntilSession := scheduledStart session - clk 0%nat in
  if 15 * msPerMinute <? msUntilSession then
    (BadRequest
       "Session can only be started within 15 minutes of scheduled time", st)
  else
  let assign := started (clk 1%nat) in
  let st := saveSession sessionId assign st in
  (Ok {| sbId := sessionId; sbStatus := status (assign session);
         sbActualStart := actualStart (assign session) |}, st)
  end.

(** [actualEnd - actualStart]. *)
Definition actualDuration (s : Session) : option Z :=
  match actualEnd s, actualStart s with
  | Some e, Some a => Some (e - a)
  | _, _ => None
  end.

Definition addStats (learning teaching : option Z) (u : User) : User :=
  {| role := role u; availability := availability u;
     stats :=
       {| totalSessions := totalSessions (stats u) + 1;
          completedSessions := completedSessions (stats u) + 1;
          msLearning := msLearning (stats u) + default 0 learning;
          msTeaching := msTeaching (stats u) + default 0 teaching |} |}.

(** [updateUserStats]: the student's record first, then the tutor's.  A
    duration that is not a number makes the update fail, which
    the function catches. *)
Definition updateUserStats (session : Session) (directory : gmap nat User)
  : gmap nat User :=
  match actualDuration session with
  | Some d =>
      alter (addStats None (Some d)) (tutor session)
        (alter (addStats (Some d) None) (student session) directory)
  | None => directory
  end.

Definition set_callerNote (asStudent : bool) (v : string) (s : Session)
  : Session :=
  if asStudent
  then set_notes {| notesStudent := Some v; notesTutor := notesTutor (notes s);
                    notesAdmin := notesAdmin (notes s) |} s
  else set_notes {| notesStudent := notesStudent (notes s);
                    notesTutor := Some v;
                    notesAdmin := notesAdmin (notes s) |} s.

(** [if (notes)] holds of a non-empty text. *)
Definition ended (actualEnd' : Z) (asStudent : bool) (notes' : option string)
    (s : Session) : Session :=
  let s := set_actualEnd actualEnd' (set_status completed s) in
  match notes' with
  | Some (String c r) => set_callerNote asStudent (String c r) s
  | _ => s
  end.

(** [PUT /:id/end]. *)
Definition endSession (clk : nat -> Z) (userId sessionId : nat)
    (notes' : option string) (st : State) : Reply EndBody * State :=
  if negb (optionalMax 1000 notes') then (ValidationErrors, st)
  else
  let notes' := trim <$> notes' in
  match sessions st !! sessionId with
  | None => (NotFound "Session not found", st)
  | Some session =>
  if negb (isParticipant userId session) then (Forbidden "Access denied", st)
  else if negb (bool_decide (status session = ongoing)) then
    (BadRequest "Session is not ongoing", st)
  else
  let assign :=
    ended (clk 0%nat) (bool_decide (student session = userId)) notes' in
  let st := saveSession sessionId assign st in
  let st := with_users (updateUserStats (assign session) (users st)) st in
  (Ok {| ebId := sessionId; ebStatus := status (assign session);
         ebActualEnd := actualEnd (assign session);
         ebDuration := actualDuration (assign session) |}, st)
  end.

(** ** Reminder scheduler *)

(** The query of the sweep. *)
Definition reminderQuery (now reminderTime : Z) (doc : nat * Session)
  : bool :=
  (now <=? scheduledStart (snd doc))
  && (scheduledStart (snd doc) <=? reminderTime)
  && bool_decide (status (snd doc) ∈ [scheduled; confirmed])
  && bool_decide (sent (reminders (snd doc)) = false).

(** The loop over [sessionsToRemind]; [k] is the index of the next clock
    read. *)
Fixpoint remindAll (clk : nat -> Z) (k : nat) (docs : list (nat * Session))
    (st : State) : State :=
  match docs with
  | [] => st
  | (id, _) :: rest =>
      let st := send (ReminderNotice id) st in
      let st :=
        saveSession id
          (set_reminders {| sent := true; sentAt := Some (clk k) |}) st in
      remindAll clk (S k) rest st
  end.

(** One run of the job scheduled every fifteen minutes. *)
Definition reminderSweep (clk : nat -> Z) (st : State) : State :=
  let reminderTime := clk 0%nat + 24 * 60 * 60 * 1000 in
  let sessionsToRemind :=
    find (reminderQuery (clk 1%nat) reminderTime) (sessions st) in
  remindAll clk 2 sessionsToRemind st.

(** ** Runs of the system *)

Inductive Op :=
  | OpBook (fuel : nat) (caller : nat) (req : BookReq)
  | OpReschedule (caller session : nat) (req : RescheduleReq)
  | OpCancel (caller session : nat) (reason : string)
  | OpStart (caller session : nat)
  | OpEnd (caller session : nat) (notes : option string)
  | OpSweep.

(** The state an operation leaves behind, whether it succeeds or not;
    [None] when it does not return. *)
Definition exec (clk : nat -> Z) (op : Op) (st : State) : option State :=
  match op with
  | OpBook fuel caller req => snd <$> book fuel clk caller req st
  | OpReschedule caller id req => Some (snd (reschedule clk caller id req st))
  | OpCancel caller id r => Some (snd (cancel clk caller id r st))
  | OpStart caller id => Some (snd (start clk caller id st))
  | OpEnd caller id n => Some (snd (endSession clk caller id n st))
  | OpSweep => Some (reminderSweep clk st)
  end.

Fixpoint run (ops : list ((nat -> Z) * Op)) (st : State) : option State :=
  match ops with
  | [] => Some st
  | (clk, op) :: rest =>
      match exec clk op st with
      | Some st => run rest st
      | None => None
      end
  end.

Definition initial (directory : gmap nat User) : State :=
  {| sessions := []; users := directory; outbox := [] |}.

(** ** The conflict detector as the specification words it

    A session is returned when either participant of the candidate
    appears in it in either role. *)
Definition specConflictQuery (participantA participantB : nat)
    (start end_ : Z) (excludeSessionId : option nat) (doc : nat * Session)
  : bool :=
  let '(id, s) := doc in
  ((bool_decide (student s = participantA)
    || bool_decide (tutor s = participantA)
    || bool_decide (student s = participantB)
    || bool_decide (tutor s = participantB))
   && bool_decide (status s ∈ [scheduled; confirmed; ongoing])
   && ((scheduledStart s <? end_) && (start <? scheduledEnd s)))
  && negb (excluded excludeSessionId id).

Definition specConflicts (coll : list Session)
    (participantA participantB : nat) (start end_ : Z)
    (excludeSessionId : option nat) : list (nat * Session) :=
  find (specConflictQuery participantA participantB start end_
          excludeSessionId) coll.

(** ** The availability rule as the specification words it

    A slot denotes, on its day of every week, the interval between its
    two times of day; a window fits when it lies within that interval
    of the day on which it starts. *)
Definition digitValue (c : ascii) : option Z :=
  let n := Z.of_nat (nat_of_ascii c) in
  if (48 <=? n) && (n <=? 57) then Some (n - 48) else None.

(** The hour and the minute of a text [HH:mm]. *)
Definition parseHHmm (s : string) : option (Z * Z) :=
  match s with
  | String h1 (String h0 (String ":" (String m1 (String m0 EmptyString)))) =>
      match digitValue h1, digitValue h0, digitValue m1, digitValue m0 with
      | Some a, Some b, Some c, Some d => Some (a * 10 + b, c * 10 + d)
      | _, _, _, _ => None
      end
  | _ => None
  end.

Definition wellFormedTime (s : string) : bool :=
  match parseHHmm s with
  | Some (h, m) => (h <? 24) && (m <? 60)
  | None => false
  end.

Definition wellFormedSlot (slot : Slot) : bool :=
  wellFormedTime (startTime slot) && wellFormedTime (endTime slot).

Definition windowWithinSlot (start end_ : Z) (slot : Slot) : bool :=
  let midnight := epochDay start * msPerDay in
  match parseHHmm (startTime slot), parseHHmm (endTime slot) with
  | Some (h, m), Some (h', m') =>
      String.eqb (day slot) (dayOfWeek start)
      && (midnight + (h * 60 + m) * msPerMinute <=? start)
      && (end_ <=? midnight + (h' * 60 + m') * msPerMinute)
  | _, _ => false
  end.

Definition windowWithinAvailability (directory : gmap nat User)
    (tutorId : nat) (start end_ : Z) : bool :=
  match directory !! tutorId with
  | Some tutor' => existsb (windowWithinSlot start end_) (availability tutor')
  | None => false
  end.

(** ** The series of a recurring booking

    [childrenFrom n firstId currentDate]: the [n] sessions that follow
    [currentDate], each one frequency step after the previous one, with
    consecutive ids from [firstId]. *)
Fixpoint childrenFrom (data : SessionData) (frequency : option Frequency)
    (endMoment duration : Z) (parentId : nat) (n : nat) (firstId : nat)
    (currentDate : Z) : list (nat * Session) :=
  match n with
  | O => []
  | S n =>
      let next := advance frequency currentDate in
      (firstId,
       newSession data next (next + duration)
         (childRecurring frequency endMoment parentId))
      :: childrenFrom data frequency endMoment duration parentId n
           (S firstId) next
  end.

(** Iterations after which the loop has ended: every step advances the
    date by a week at least. *)
Definition recurrenceFuel (start endMoment : Z) : nat :=
  Z.to_nat ((endMoment - start + 7 * msPerDay - 1) / (7 * msPerDay)) + 1.

(** ** What one operation may do to a stored session *)

(** The sweep: nothing but the reminder record changes, and a sent flag
    stays set. *)
Definition remindedOnly (s s' : Session) : Prop :=
  student s' = student s /\ tutor s' = tutor s /\ status s' = status s
  /\ scheduledStart s' = scheduledStart s
  /\ (sent (reminders s) = true -> sent (reminders s') = true).

(** Any operation: the participants stay, a sent flag stays set, and the
    status stays or moves along an edge of the handlers. *)
Definition transition (s s' : Session) : Prop :=
  student s' = student s /\ tutor s' = tutor s
  /\ (sent (reminders s) = true -> sent (reminders s') = true)
  /\ (status s' = status s
      \/ (status s ∈ [scheduled; confirmed]
          /\ status s' ∈ [scheduled; cancelled; ongoing])
      \/ (status s = ongoing /\ status s' = completed)).

(** A document as the handlers create it. *)
Definition fresh (s : Session) : Prop :=
  status s = scheduled /\ sent (reminders s) = false
  /\ actualStart s = None /\ actualEnd s = None.

(** The meeting link given to a session booked online. *)
Definition linked (sessionType' : SessionType) (doc : nat * Session)
  : nat * Session :=
  match sessionType' with
  | online =>
      (fst doc, set_meetingLink (generateMeetingLink (fst doc)) (snd doc))
  | offline => doc
  end.

(** The created documents carry consecutive ids from the end of the
    collection [base], and the collection has grown by them. *)
Definition numbered (base : list Session) (created : list (nat * Session))
    (coll : list Session) : Prop :=
  coll = base ++ map snd created
  /\ map fst created = seq (length base) (length created).

(** The state a booking that created [created] leaves. *)
Definition booked (ty : SessionType) (created : list (nat * Session))
    (st : State) : State :=
  {| sessions := sessions st ++ map snd (map (linked ty) created);
     users := users st;
     outbox := outbox st ++ [BookingNotice (length (sessions st))] |}.

(** How many reminders have been sent for a session. *)
Definition reminderCount (id : nat) (mail : list Event) : nat :=
  count_occ Event_eq_dec mail (ReminderNotice id).

(** At most one reminder has been sent for any session, and one has
    been sent only if its flag is set. *)
Definition remindedAtMostOnce (st : State) : Prop :=
  forall id,
    (reminderCount id (outbox st) <= 1)%nat
    /\ (reminderCount id (outbox st) = 1%nat ->
        exists s, sessions st !! id = Some s /\ sent (reminders s) = true).

(** ** Sample data *)

Module Sample.

Definition noStats : Stats :=
  {| totalSessions := 0; completedSessions := 0;
     msLearning := 0; msTeaching := 0 |}.

Definition mondays : Slot :=
  {| day := "monday"; startTime := "09:00"; endTime := "17:00" |}.

(** Users 1 (a student), 2 (a tutor free on Mondays from 09:00 to
    17:00) and 3 (both a student and a tutor, with the same hours). *)
Definition directory : gmap nat User :=
  {[ 1%nat := {| role := role_student; availability := []; stats := noStats |};
     2%nat := {| role := role_tutor; availability := [mondays];
                 stats := noStats |};
     3%nat := {| role := role_both; availability := [mondays];
                 stats := noStats |} ]}.

Definition session (student' tutor' : nat) (start end_ : Z) (st : Status)
    (reminded : bool) : Session :=
  {| student := student'; tutor := tutor'; subject := "Mathematics";
     description := None;
     scheduledStart := start; scheduledEnd := end_;
     actualStart := None; actualEnd := None;
     status := st; sessionType := offline;
     location := noLocation; price := None; notes := noNotes;
     reminders := {| sent := reminded; sentAt := None |};
     recurring := notRecurring; cancellation := None |}.

Definition store (l : list Session) : State :=
  {| sessions := l; users := directory; outbox := [] |}.

(** A clock that stands at the given instant. *)
Definition at_ (t : Z) : nat -> Z := fun _ => t.

Definition request (tutor' : nat) (start end_ : Z)
    (rec : option RecurringReq) : BookReq :=
  {| reqTutor := tutor'; reqSubject := "Mathematics";
     reqDescription := None;
     reqScheduledStart := start; reqScheduledEnd := end_;
     reqType := offline; reqLocation := None; reqPrice := Some 50;
     reqRecurring := rec |}.

End Sample.

(** ** Reading sessions *)


Inductive ListRole := as_student | as_tutor.

(** The query string of [GET /my-sessions]; [isIn] and [isInt] hold of
    every value of these types, the bounds of [isInt] are checked by
    [validPaging]. *)
Record ListReq := {
  qStatus : option Status;
  qRole : option ListRole;
  qPage : option Z;
  qLimit : option Z }.

Record Pagination := {
  pgCurrent : Z;
  pgPages : Z;
  pgTotal : Z;
  pgHasNext : bool;
  pgHasPrev : bool }.

Record Listing := {
  listed : list (nat * Session);
  pagination : Pagination }.

Definition validPaging (req : ListReq) : bool :=
  match qPage req with
  | Some page => 1 <=? page
  | None => true
  end
  && match qLimit req with
     | Some limit => (1 <=? limit) && (limit <=? 100)
     | None => true
     end.

(** The query document of the listing. *)
Definition listQuery (userId : nat) (role' : option ListRole)
    (status' : option Status) (doc : nat * Session) : bool :=
  match role' with
  | Some as_student => bool_decide (student (snd doc) = userId)
  | Some as_tutor => bool_decide (tutor (snd doc) = userId)
  | None =>
      bool_decide (student (snd doc) = userId)
      || bool_decide (tutor (snd doc) = userId)
  end
  && match status' with
     | Some v => bool_decide (status (snd doc) = v)
     | None => true
     end.

(** [sort({ scheduledStart: -1 })].  Documents with the same start are
    kept in collection order; the database leaves their order open. *)
Fixpoint insertByStart (d : nat * Session) (l : list (nat * Session))
  : list (nat * Session) :=
  match l with
  | [] => [d]
  | x :: r =>
      if scheduledStart (snd x) <=? scheduledStart (snd d) then d :: l
      else x :: insertByStart d r
  end.

Definition sortByStartDesc (l : list (nat * Session)) : list (nat * Session) :=
  foldr insertByStart [] l.

(** [GET /my-sessions]. *)
Definition mySessions (userId : nat) (req : ListReq) (st : State)
  : Reply Listing :=
  if negb (validPaging req) then ValidationErrors
  else
  let page := default 1 (qPage req) in
  let limit := default 20 (qLimit req) in
  let query := listQuery userId (qRole req) (qStatus req) in
  let skip := (page - 1) * limit in
  let sessions' :=
    take (Z.to_nat limit)
      (drop (Z.to_nat skip) (sortByStartDesc (find query (sessions st)))) in
  let total := Z.of_nat (length (find query (sessions st))) in
  Ok {| listed := sessions';
        pagination :=
          {| pgCurrent := page;
             pgPages := (total + limit - 1) / limit;
             pgTotal := total;
             pgHasNext := page * limit <? total;
             pgHasPrev := 1 <? page |} |}.

(** The virtual [scheduledDuration] of the schema ([actualDuration] is
    defined with the [End] handler). *)
Definition scheduledDuration (s : Session) : Z :=
  scheduledEnd s - scheduledStart s.

(** ** What the handlers assign to a stored session

    One operation leaves a stored session as it is or applies the
    assignments of one handler to it. *)
Inductive assigned : Session -> Session -> Prop :=
  | assigned_nothing (s : Session) : assigned s s
  | assigned_reschedule (a b : Z) (s : Session) :
      status s ∈ [scheduled; confirmed] -> a < b ->
      assigned s (rescheduled a b s)
  | assigned_cancel (u : nat) (r : string) (ms t : Z) (s : Session) :
      status s ∈ [scheduled; confirmed] ->
      assigned s (cancelledWith u r ms t s)
  | assigned_start (t : Z) (s : Session) :
      status s ∈ [scheduled; confirmed] -> assigned s (started t s)
  | assigned_end (t : Z) (b : bool) (n : option string) (s : Session) :
      status s = ongoing -> assigned s (ended t b n s)
  | assigned_reminder (t : Z) (s : Session) :
      assigned s (set_reminders {| sent := true; sentAt := Some t |} s).

(** A document as a booking stores it: a new session over a proper
    window, with its meeting link when the booking is online. *)
Definition stored_new (s : Session) : Prop :=
  exists data a b rec,
    a < b
    /\ (s = newSession data a b rec
        \/ exists link, s = set_meetingLink link (newSession data a b rec)).

(** The record of a session agrees with its status. *)
Definition recorded (s : Session) : Prop :=
  scheduledStart s < scheduledEnd s
  /\ status s ∈ [scheduled; ongoing; completed; cancelled]
  /\ (is_Some (actualStart s) <-> status s ∈ [ongoing; completed])
  /\ (is_Some (actualEnd s) <-> status s = completed)
  /\ (is_Some (cancellation s) <-> status s = cancelled).

(** ** Double booking *)

Definition active (s : Session) : Prop :=
  status s ∈ [scheduled; confirmed; ongoing].

Definition overlap (s t : Session) : Prop :=
  scheduledStart s < scheduledEnd t /\ scheduledStart t < scheduledEnd s.

(** No two active sessions with the same student, or with the same
    tutor, overlap. *)
Definition noDoubleBooking (coll : list Session) : Prop :=
  forall i j s t,
    i <> j -> coll !! i = Some s -> coll !! j = Some t ->
    active s -> active t ->
    student s = student t \/ tutor s = tutor t ->
    ~ overlap s t.

(** What an assignment may do to a session without opening the way to a
    double booking: it keeps the participants and the window, and
    activates nothing. *)
Definition sameBooking (s s' : Session) : Prop :=
  student s' = student s /\ tutor s' = tutor s
  /\ scheduledStart s' = scheduledStart s
  /\ scheduledEnd s' = scheduledEnd s
  /\ (active s' -> active s).

Definition oneOffReq (req : BookReq) : Prop :=
  match reqRecurring req with
  | Some r => reqIsRecurring r = false
  | None => True
  end.

(** An operation other than a recurring booking. *)
Definition oneOff (op : Op) : Prop :=
  match op with
  | OpBook _ _ req => oneOffReq req
  | _ => True
  end.

(** The checks of [POST /book], in the order the handler makes them. *)
Definition bookable (clk : nat -> Z) (caller : nat) (req : BookReq)
    (st : State) : Prop :=
  (1 <= String.length (trim (reqSubject req)))%nat
  /\ reqScheduledStart req < reqScheduledEnd req
  /\ clk 0%nat < reqScheduledStart req
  /\ (exists tutor',
        users st !! reqTutor req = Some tutor'
        /\ role tutor' ∈ [role_tutor; role_both])
  /\ checkSchedulingConflicts (sessions st) caller (reqTutor req)
       (reqScheduledStart req) (reqScheduledEnd req) None = []
  /\ checkTutorAvailability (users st) (reqTutor req) (reqScheduledStart req)
       (reqScheduledEnd req) = true
  /\ validates (newSession (sessionDataOf caller req) (reqScheduledStart req)
                  (reqScheduledEnd req) notRecurring) = true.

(** The session a one-off booking stores. *)
Definition bookedSession (caller : nat) (req : BookReq) (id : nat) : Session :=
  snd (linked (reqType req)
         (id, newSession (sessionDataOf caller req) (reqScheduledStart req)
                (reqScheduledEnd req) notRecurring)).

(** Whether an operation is answered with success, and the state it
    leaves; the sweep answers nobody and counts as a success. *)
Definition outcome (clk : nat -> Z) (op : Op) (st : State)
  : option (bool * State) :=
  match op with
  | OpBook fuel caller req =>
      (fun r => (succeeded (fst r), snd r)) <$> book fuel clk caller req st
  | OpReschedule caller id req =>
      let r := reschedule clk caller id req st in
      Some (succeeded (fst r), snd r)
  | OpCancel caller id reason' =>
      let r := cancel clk caller id reason' st in
      Some (succeeded (fst r), snd r)
  | OpStart caller id =>
      let r := start clk caller id st in Some (succeeded (fst r), snd r)
  | OpEnd caller id n =>
      let r := endSession clk caller id n st in
      Some (succeeded (fst r), snd r)
  | OpSweep => Some (true, reminderSweep clk st)
  end.

(** A status the lifecycle never leaves. *)
Definition closed (s : Session) : Prop :=
  status s ∈ [completed; cancelled; no_show].

(** ** Statistics *)



(** ** Learning streaks ([routes/analytics.js]) *)

(** [a.diff(b, "days")] of moment: the whole days from [b] to [a],
    truncated towards zero. *)
Definition diffDays (a b : Z) : Z := Z.quot (a - b) msPerDay.

(** [sort({ scheduledEnd: -1 })], on the ends themselves: the loop reads
    nothing else of the documents. *)
Fixpoint insertDesc (x : Z) (l : list Z) : list Z :=
  match l with
  | [] => [x]
  | y :: r => if y <=? x then x :: l else y :: insertDesc x r
  end.

Definition sortDesc (l : list Z) : list Z := foldr insertDesc [] l.

Record Streaks := {
  current : Z;
  longest : Z;
  lastSession : option Z }.

(** The [for] loop of [calculateLearningStreaks] over the sessions after
    the first. *)
Fixpoint streakLoop (rest : list Z)
    (lastSessionDate currentStreak longestStreak tempStreak : Z)
  : Z * Z * Z :=
  match rest with
  | [] => (currentStreak, longestStreak, tempStreak)
  | currentDate :: rest =>
      let daysDiff := diffDays lastSessionDate currentDate in
      if daysDiff <=? 7 then
        streakLoop rest currentDate
          (if 0 <? currentStreak then currentStreak + 1 else currentStreak)
          longestStreak (tempStreak + 1)
      else
        streakLoop rest currentDate 0 (Z.max longestStreak tempStreak) 1
  end.

(** The query of the streaks: the completed sessions of a student. *)
Definition streakQuery (userId : nat) (doc : nat * Session) : bool :=
  bool_decide (student (snd doc) = userId)
  && bool_decide (status (snd doc) = completed).

(** [calculateLearningStreaks(userId)], with the time [moment()] reads. *)
Definition calculateLearningStreaks (now : Z) (userId : nat)
    (coll : list Session) : Streaks :=
  let sessions' :=
    sortDesc
      (map (fun d => scheduledEnd (snd d)) (find (streakQuery userId) coll)) in
  match sessions' with
  | [] => {| current := 0; longest := 0; lastSession := None |}
  | first :: rest =>
      let currentStreak := if diffDays now first <=? 7 then 1 else 0 in
      let '(currentStreak, longestStreak, tempStreak) :=
        streakLoop rest first currentStreak 0 1 in
      {| current := currentStreak;
         longest := Z.max longestStreak tempStreak;
         lastSession := Some first |}
  end.

(** Every date of the list is within seven days of the one before it. *)
Fixpoint closeKnit (lastSessionDate : Z) (rest : list Z) : bool :=
  match rest with
  | [] => true
  | currentDate :: rest =>
      (diffDays lastSessionDate currentDate <=? 7)
      && closeKnit currentDate rest
  end.

(** ** Feedback ([routes/feedback.js], [models/Feedback.js])

    The feedback collection is a list, the id of a document its
    position.  [updateUserRating] writes only [rating.average] and
    [rating.count] of the reviewee, which the model of a user does not
    carry. *)

Module FeedbackRoutes.

Inductive FeedbackType := student_to_tutor | tutor_to_student.

Record Ratings := {
  overall : Q;
  communication : option Q;
  punctuality : option Q;
  knowledge : option Q;
  patience : option Q;
  preparation : option Q }.

Record Report := {
  user : nat;
  reason : string;
  reportedAt : Z }.

Record Feedback := {
  session : nat;
  reviewer : nat;
  reviewee : nat;
  type : FeedbackType;
  ratings : Ratings;
  comment : option string;
  tags : list string;
  isPublic : bool;
  helpfulVotes : Z;
  reportedBy : list Report }.

(** The body of [POST /submit]. *)
Record SubmitReq := {
  sessionId : nat;
  revieweeId : nat;
  reqRatings : Ratings;
  reqComment : option string;
  reqTags : option (list string);
  reqIsPublic : option bool }.

(** [isFloat({ min: 1, max: 5 })]. *)
Definition inRange (r : Q) : bool := Qle_bool 1 r && Qle_bool r 5.

Definition optionalInRange (r : option Q) : bool :=
  match r with
  | Some x => inRange x
  | None => true
  end.

Definition validRatings (r : Ratings) : bool :=
  inRange (overall r)
  && optionalInRange (communication r)
  && optionalInRange (punctuality r)
  && optionalInRange (knowledge r)
  && optionalInRange (patience r)
  && optionalInRange (preparation r).

(** The [enum] of the schema for [tags], checked on [save()]. *)
Definition tagNames : list string :=
  ["helpful"; "patient"; "knowledgeable"; "prepared"; "unprepared"; "late";
   "excellent"; "needs-improvement"]%string.

(** [Feedback.findOne({ session, reviewer })]. *)
Definition existingFeedback (sessionId' reviewerId : nat)
    (feedback : list Feedback) : option Feedback :=
  List.find
    (fun f =>
       bool_decide (session f = sessionId')
       && bool_decide (reviewer f = reviewerId))
    feedback.

(** [POST /submit]: the reply and the collection it leaves. *)
Definition submit (reviewerId : nat) (req : SubmitReq) (coll : list Session)
    (feedback : list Feedback) : Reply Feedback * list Feedback :=
  if negb (validRatings (reqRatings req)
           && optionalMax 1000 (reqComment req))
  then (ValidationErrors, feedback)
  else
  match coll !! sessionId req with
  | None => (NotFound "Session not found", feedback)
  | Some session' =>
  if negb (bool_decide (status session' = completed)) then
    (BadRequest "Can only provide feedback for completed sessions", feedback)
  else if negb (isParticipant reviewerId session') then
    (Forbidden "Access denied", feedback)
  else
  let expectedReviewee :=
    if bool_decide (student session' = reviewerId) then tutor session'
    else student session' in
  if negb (bool_decide (revieweeId req = expectedReviewee)) then
    (BadRequest "Invalid reviewee", feedback)
  else
  match existingFeedback (sessionId req) reviewerId feedback with
  | Some _ =>
      (BadRequest "Feedback already submitted for this session", feedback)
  | None =>
      let type' :=
        if bool_decide (student session' = reviewerId) then student_to_tutor
        else tutor_to_student in
      let feedback' :=
        {| session := sessionId req; reviewer := reviewerId;
           reviewee := revieweeId req; type := type';
           ratings := reqRatings req; comment := trim <$> reqComment req;
           tags := default [] (reqTags req);
           isPublic := default true (reqIsPublic req);
           helpfulVotes := 0; reportedBy := [] |} in
      if negb (forallb (fun t => bool_decide (t ∈ tagNames)) (tags feedback'))
      then (ServerError "Server error submitting feedback", feedback)
      else (Ok feedback', feedback ++ [feedback'])
  end
  end.

Definition voted (f : Feedback) : Feedback :=
  {| session := session f; reviewer := reviewer f; reviewee := reviewee f;
     type := type f; ratings := ratings f; comment := comment f;
     tags := tags f; isPublic := isPublic f;
     helpfulVotes := helpfulVotes f + 1; reportedBy := reportedBy f |}.

(** [PUT /:feedbackId/helpful]: the reply carries the new count. *)
Definition helpful (userId feedbackId : nat) (feedback : list Feedback)
  : Reply Z * list Feedback :=
  match feedback !! feedbackId with
  | None => (NotFound "Feedback not found", feedback)
  | Some f =>
      if negb (isPublic f) then
        (Forbidden "Cannot vote on private feedback", feedback)
      else if bool_decide (reviewer f = userId) then
        (BadRequest "Cannot vote on your own feedback", feedback)
      else
        (Ok (helpfulVotes (voted f)), alter voted feedbackId feedback)
  end.

Definition reported (r : Report) (f : Feedback) : Feedback :=
  {| session := session f; reviewer := reviewer f; reviewee := reviewee f;
     type := type f; ratings := ratings f; comment := comment f;
     tags := tags f; isPublic := isPublic f;
     helpfulVotes := helpfulVotes f; reportedBy := reportedBy f ++ [r] |}.

(** [POST /:feedbackId/report]. *)
Definition report (now : Z) (userId feedbackId : nat) (reason' : string)
    (feedback : list Feedback) : Reply unit * list Feedback :=
  let reason' := trim reason' in
  if negb (lengthBetween 10 500 reason') then (ValidationErrors, feedback)
  else
  match feedback !! feedbackId with
  | None => (NotFound "Feedback not found", feedback)
  | Some f =>
      match List.find (fun r => bool_decide (user r = userId))
                      (reportedBy f) with
      | Some _ =>
          (BadRequest "You have already reported this feedback", feedback)
      | None =>
          (Ok tt,
           alter (reported {| user := userId; reason := reason';
                              reportedAt := now |})
             feedbackId feedback)
      end
  end.

(** The requests of the feedback routes, with the session collection
    and the time at which each is served. *)
Inductive Request :=
  | OpSubmit (coll : list Session) (reviewerId : nat) (req : SubmitReq)
  | OpHelpful (userId feedbackId : nat)
  | OpReport (now : Z) (userId feedbackId : nat) (reason' : string).

Definition serve (op : Request) (feedback : list Feedback) : list Feedback :=
  match op with
  | OpSubmit coll reviewerId req => snd (submit reviewerId req coll feedback)
  | OpHelpful userId feedbackId => snd (helpful userId feedbackId feedback)
  | OpReport now userId feedbackId reason' =>
      snd (report now userId feedbackId reason' feedback)
  end.

Definition serveAll (ops : list Request) (feedback : list Feedback)
  : list Feedback :=
  foldl (fun fb op => serve op fb) feedback ops.


End FeedbackRoutes.

(** * Properties *)

(** ** The calendar *)

Ltac zdiv := Z.to_euclidean_division_equations; lia.

Lemma isLeapYear_true (y : Z) :
  isLeapYear y = true
  <-> (y mod 4 = 0 /\ (y mod 100 <> 0 \/ y mod 400 = 0)).
Proof.
  unfold isLeapYear.
  rewrite orb_true_iff, andb_true_iff, negb_true_iff, !Z.eqb_eq, Z.eqb_neq.
  zdiv.
Qed.

Lemma isLeapYear_cases (y : Z) :
  (isLeapYear y = true /\ y mod 4 = 0 /\ (y mod 100 <> 0 \/ y mod 400 = 0))
  \/ (isLeapYear y = false
      /\ ~ (y mod 4 = 0 /\ (y mod 100 <> 0 \/ y mod 400 = 0))).
Proof.
  destruct (isLeapYear y) eqn:E.
  - left. split; [reflexivity|]. now apply isLeapYear_true.
  - right. split; [reflexivity|]. rewrite <- isLeapYear_true. congruence.
Qed.

Lemma month_cases (m : Z) :
  0 <= m <= 11 ->
  m = 0 \/ m = 1 \/ m = 2 \/ m = 3 \/ m = 4 \/ m = 5 \/ m = 6
  \/ m = 7 \/ m = 8 \/ m = 9 \/ m = 10 \/ m = 11.
Proof. lia. Qed.

Ltac leap_cases :=
  try match goal with
      | |- context [isLeapYear ?a] =>
          destruct (isLeapYear_cases a) as [[-> ?]|[-> ?]]
      end.

(** The first of the next month is one month length after the first of
    this month. *)
Lemma days_of_civil_next_month (y m d d' : Z) :
  0 <= m <= 11 ->
  days_of_civil y (m + 1) d' - days_of_civil y m d = daysInMonth y m + d' - d.
Proof.
  intros Hm. apply month_cases in Hm.
  unfold days_of_civil, daysInMonth.
  decompose [or] Hm; subst m; simpl; leap_cases; zdiv.
Qed.

Lemma daysInMonth_range (y m : Z) : 28 <= daysInMonth y m <= 31.
Proof.
  unfold daysInMonth. destruct (_ =? 1); [destruct (isLeapYear _); lia|].
  zdiv.
Qed.

(** [civil_of_days] yields a date of the calendar, and [days_of_civil]
    takes it back to the day number. *)
Lemma civil_of_days_spec (z y m d : Z) :
  civil_of_days z = (y, m, d) ->
  0 <= m <= 11 /\ 1 <= d <= daysInMonth y m /\ days_of_civil y m d = z.
Proof.
  unfold civil_of_days.
  set (era := (z + 719468) / 146097).
  set (doe := z + 719468 - era * 146097).
  set (yoe := (doe - doe / 1460 + doe / 36524 - doe / 146096) / 365).
  set (doy := doe - (365 * yoe + yoe / 4 - yoe / 100)).
  set (mp := (5 * doy + 2) / 153).
  assert (Hdoe : 0 <= doe < 146097) by (subst doe era; zdiv).
  assert (Hyoe : 0 <= yoe <= 399 /\ 0 <= doy <= 365).
  { subst doy yoe. clearbody doe. zdiv. }
  assert (Hleap : doy = 365 ->
                  (yoe + 1) mod 4 = 0
                  /\ ((yoe + 1) mod 100 <> 0 \/ yoe = 399)).
  { subst doy yoe. clearbody doe. intros. zdiv. }
  assert (Hmp : 0 <= mp <= 11 /\ 153 * mp <= 5 * doy + 2 < 153 * mp + 153).
  { subst mp. clearbody doy. zdiv. }
  intros Heq.
  assert (Hz : z = era * 146097 + doe - 719468) by (subst doe; lia).
  assert (Hdoy : doe = 365 * yoe + yoe / 4 - yoe / 100 + doy)
    by (subst doy; lia).
  clearbody mp doy yoe doe era.
  destruct Hmp as [Hc Hmp]. apply month_cases in Hc.
  decompose [or] Hc; subst mp; simpl in Heq; inversion Heq; subst y m d;
    unfold days_of_civil, daysInMonth; simpl; leap_cases; zdiv.
Qed.

(** A month added to a day lands 28 to 31 days later. *)
Lemma add_month_days_bounds (z : Z) : z + 28 <= add_month_days z <= z + 31.
Proof.
  unfold add_month_days.
  destruct (civil_of_days z) as [[y m] d] eqn:Hc.
  apply civil_of_days_spec in Hc as (Hm & Hd & Hz).
  pose proof (days_of_civil_next_month y m d) as Hs.
  pose proof (daysInMonth_range y m).
  pose proof (daysInMonth_range y (m + 1)).
  destruct (Z.ltb_spec d 29).
  - specialize (Hs d Hm). lia.
  - specialize (Hs (Z.min d (daysInMonth y (m + 1))) Hm). lia.
Qed.

Lemma add_month_bounds (t : Z) :
  t + 28 * msPerDay <= add_month t <= t + 31 * msPerDay.
Proof.
  unfold add_month, epochDay, msOfDay.
  pose proof (add_month_days_bounds (t / msPerDay)) as H.
  pose proof (Z.div_mod t msPerDay) as Ht.
  unfold msPerDay in *. lia.
Qed.

(** The time of day is kept. *)
Lemma add_month_time_of_day (t : Z) : msOfDay (add_month t) = msOfDay t.
Proof.
  unfold add_month, msOfDay, epochDay.
  rewrite Z.add_comm, Z.mod_add by (unfold msPerDay; lia).
  apply Z.mod_mod. unfold msPerDay. lia.
Qed.

Example add_month_clamps_to_the_end_of_february :
  add_month (utc 2025 1 31 10 0) = utc 2025 2 28 10 0
  /\ add_month (utc 2024 1 31 10 0) = utc 2024 2 29 10 0
  /\ add_month (utc 2025 2 28 10 0) = utc 2025 3 28 10 0
  /\ add_month (utc 2024 12 15 10 0) = utc 2025 1 15 10 0.
Proof. repeat split; reflexivity. Qed.

Example monday_the_sixth :
  dayOfWeek (utc 2025 1 6 10 0) = "monday"%string
  /\ formatHHmm (utc 2025 1 6 10 5) = "10:05"%string
  /\ civil_of_days (epochDay (utc 2025 1 6 10 0)) = (2025, 0, 6).
Proof. repeat split; reflexivity. Qed.

(** ** Conflict detection *)

Lemma find_spec (query : nat * Session -> bool) (coll : list Session)
    (i : nat) (s : Session) :
  In (i, s) (find query coll) <-> coll !! i = Some s /\ query (i, s) = true.
Proof.
  unfold find. rewrite filter_In, <- list_elem_of_In, elem_of_lookup_imap.
  split.
  - intros [(j & x & Heq & Hj) Hq]. inversion Heq; subst. auto.
  - intros [Hi Hq]. split; [exists i, s; auto | exact Hq].
Qed.

Lemma excluded_false (excl : option nat) (i : nat) :
  excluded excl i = false <-> excl <> Some i.
Proof.
  destruct excl as [e|]; simpl.
  - rewrite bool_decide_eq_false. split; congruence.
  - split; [congruence | reflexivity].
Qed.

Lemma checkSchedulingConflicts_spec (coll : list Session)
    (studentId tutorId : nat) (start end_ : Z) (excl : option nat)
    (i : nat) (s : Session) :
  In (i, s) (checkSchedulingConflicts coll studentId tutorId start end_ excl)
  <-> coll !! i = Some s
      /\ (student s = studentId \/ tutor s = tutorId)
      /\ status s ∈ [scheduled; confirmed; ongoing]
      /\ (scheduledStart s < end_ /\ start < scheduledEnd s)
      /\ excl <> Some i.
Proof.
  unfold checkSchedulingConflicts. rewrite find_spec. unfold conflictQuery.
  rewrite !andb_true_iff, orb_true_iff, negb_true_iff, !bool_decide_eq_true,
    !Z.ltb_lt, excluded_false.
  tauto.
Qed.

Lemma specConflicts_spec (coll : list Session)
    (participantA participantB : nat) (start end_ : Z) (excl : option nat)
    (i : nat) (s : Session) :
  In (i, s) (specConflicts coll participantA participantB start end_ excl)
  <-> coll !! i = Some s
      /\ (student s = participantA \/ tutor s = participantA
          \/ student s = participantB \/ tutor s = participantB)
      /\ status s ∈ [scheduled; confirmed; ongoing]
      /\ (scheduledStart s < end_ /\ start < scheduledEnd s)
      /\ excl <> Some i.
Proof.
  unfold specConflicts. rewrite find_spec. unfold specConflictQuery.
  rewrite !andb_true_iff, !orb_true_iff, negb_true_iff, !bool_decide_eq_true,
    !Z.ltb_lt, excluded_false.
  tauto.
Qed.

(** Whatever the detector returns, the specification's detector returns
    too. *)
Lemma checkSchedulingConflicts_within_spec (coll : list Session)
    (studentId tutorId : nat) (start end_ : Z) (excl : option nat)
    (d : nat * Session) :
  In d (checkSchedulingConflicts coll studentId tutorId start end_ excl) ->
  In d (specConflicts coll studentId tutorId start end_ excl).
Proof.
  destruct d as [i s].
  rewrite checkSchedulingConflicts_spec, specConflicts_spec. tauto.
Qed.

(** The two detectors differ only on sessions in which a participant
    of the candidate appears in the other role. *)
Lemma checkSchedulingConflicts_agrees_with_spec (coll : list Session)
    (studentId tutorId : nat) (start end_ : Z) (excl : option nat) :
  (forall i s, coll !! i = Some s ->
     tutor s <> studentId /\ student s <> tutorId) ->
  checkSchedulingConflicts coll studentId tutorId start end_ excl
  = specConflicts coll studentId tutorId start end_ excl.
Proof.
  intros Hroles. unfold checkSchedulingConflicts, specConflicts, find.
  apply filter_ext_in. intros [i s] Hin.
  apply list_elem_of_In, elem_of_lookup_imap in Hin
    as (j & x & Heq & Hj).
  inversion Heq; subst j x. destruct (Hroles i s Hj) as [Ht Hs].
  unfold conflictQuery, specConflictQuery.
  rewrite (bool_decide_eq_false_2 _ Ht), (bool_decide_eq_false_2 _ Hs).
  rewrite !orb_false_r. reflexivity.
Qed.

(** The overlap test does not depend on which window is the stored one. *)
Lemma overlap_symmetric (a b c d : Z) :
  (a <? d) && (c <? b) = (c <? b) && (a <? d).
Proof. apply andb_comm. Qed.

(** C1.  The conflict check does not report every overlapping active
    session of the same participant.  From the empty store, user 3 books
    tutor 2 for Monday from 10:00 to 11:00, and user 1 books user 3, as
    tutor, from 12:00 to 13:00.  When user 3 then moves the second
    session to 10:30, the first session is a scheduled session of user 3
    that overlaps the new window: the specification's detector reports
    it, the check of the source reports nothing, and the move is
    accepted, so that user 3 has two sessions from 10:30 to 11:00. *)
Theorem conflict_check_skips_the_other_role :
  let clk := Sample.at_ (utc 2025 1 1 0 0) in
  let start := utc 2025 1 6 10 30 in
  let end_ := utc 2025 1 6 11 30 in
  let move :=
    {| newScheduledStart := start; newScheduledEnd := end_;
       rescheduleReason := None |} in
  exists (st st' : State) (learning teaching moved : Session)
         (body : Summary),
    run [ (clk, OpBook 1 3
                  (Sample.request 2 (utc 2025 1 6 10 0) (utc 2025 1 6 11 0)
                     None));
          (clk, OpBook 1 1
                  (Sample.request 3 (utc 2025 1 6 12 0) (utc 2025 1 6 13 0)
                     None)) ]
      (initial Sample.directory) = Some st
    /\ sessions st = [learning; teaching]
    /\ student learning = 3%nat /\ tutor teaching = 3%nat
    /\ status learning = scheduled
    /\ (scheduledStart learning < end_ /\ scheduledEnd learning > start)
    /\ specConflicts (sessions st) (student teaching) (tutor teaching) start
         end_ (Some 1%nat) = [(0%nat, learning)]
    /\ checkSchedulingConflicts (sessions st) (student teaching)
         (tutor teaching) start end_ (Some 1%nat) = []
    /\ reschedule clk 3 1 move st = (Ok body, st')
    /\ sessions st' = [learning; moved]
    /\ tutor moved = 3%nat /\ status moved = scheduled
    /\ scheduledStart moved = start /\ scheduledEnd moved = end_.
Proof.
  cbv zeta. do 6 eexists.
  split; [vm_compute; reflexivity|].
  split; [reflexivity|].
  repeat split; vm_compute; reflexivity.
Qed.

(** On the sessions the query compares, the check is as C1 words it.
    For a stored session whose student is the student of the candidate,
    or whose tutor is the tutor of the candidate, and which is not the
    excluded one, the conflict check of Book and Reschedule reports it
    exactly when its window overlaps the candidate window as a half-open
    interval and its status is scheduled, confirmed or ongoing; a stored
    session that ends when the candidate starts, or starts when the
    candidate ends, is never reported. *)
Theorem conflict_iff_overlap_and_active (coll : list Session)
    (studentId tutorId : nat) (start end_ : Z) (excl : option nat)
    (i : nat) (s : Session) :
  coll !! i = Some s ->
  student s = studentId \/ tutor s = tutorId ->
  excl <> Some i ->
  (In (i, s) (checkSchedulingConflicts coll studentId tutorId start end_ excl)
   <-> (scheduledStart s < end_ /\ scheduledEnd s > start)
       /\ status s ∈ [scheduled; confirmed; ongoing])
  /\ (scheduledEnd s = start \/ scheduledStart s = end_ ->
      ~ In (i, s)
          (checkSchedulingConflicts coll studentId tutorId start end_ excl)).
Proof.
  intros Hi Hp Hx. rewrite checkSchedulingConflicts_spec. split.
  - split.
    + intros (_ & _ & Ha & [Hs He] & _). split; [lia | exact Ha].
    + intros [[Hs He] Ha]. repeat split; auto; lia.
  - intros Htouch (_ & _ & _ & [Hs He] & _). lia.
Qed.

Lemma conflict_iff_overlap_and_active_witness :
  let a := Sample.session 1 2 (utc 2025 1 6 10 0) (utc 2025 1 6 11 0)
             confirmed false in
  (In (0%nat, a)
      (checkSchedulingConflicts [a] 1 5 (utc 2025 1 6 10 30)
         (utc 2025 1 6 11 30) None)
   <-> (scheduledStart a < utc 2025 1 6 11 30
        /\ scheduledEnd a > utc 2025 1 6 10 30)
       /\ status a ∈ [scheduled; confirmed; ongoing])
  /\ (scheduledEnd a = utc 2025 1 6 10 30
      \/ scheduledStart a = utc 2025 1 6 11 30 ->
      ~ In (0%nat, a)
          (checkSchedulingConflicts [a] 1 5 (utc 2025 1 6 10 30)
             (utc 2025 1 6 11 30) None)).
Proof.
  intros a.
  apply (conflict_iff_overlap_and_active [a] 1 5 (utc 2025 1 6 10 30)
           (utc 2025 1 6 11 30) None 0 a).
  - reflexivity.
  - left. reflexivity.
  - discriminate.
Defined.

(** Back-to-back sessions of the same tutor: the query returns nothing. *)
Example back_to_back_not_reported :
  checkSchedulingConflicts
    [Sample.session 1 2 (utc 2025 1 6 10 0) (utc 2025 1 6 11 0) scheduled
       false]
    4 2 (utc 2025 1 6 11 0) (utc 2025 1 6 12 0) None = [].
Proof. reflexivity. Qed.

(** C2.  The detector misses a session in which a participant of the
    candidate appears in the other role.  User 3 tutors session 0 from
    10:00 to 11:00; booking user 3 as the student of tutor 2 over the same
    hour, the specification's detector returns session 0, the query of
    the source returns nothing, and the booking is accepted. *)
Theorem conflicts_miss_participant_in_other_role :
  let taught :=
    Sample.session 1 3 (utc 2025 1 6 10 0) (utc 2025 1 6 11 0) scheduled
      false in
  let st := Sample.store [taught] in
  let req :=
    Sample.request 2 (utc 2025 1 6 10 0) (utc 2025 1 6 11 0) None in
  specConflicts (sessions st) 3 2 (utc 2025 1 6 10 0) (utc 2025 1 6 11 0) None
  = [(0%nat, taught)]
  /\ checkSchedulingConflicts (sessions st) 3 2 (utc 2025 1 6 10 0)
       (utc 2025 1 6 11 0) None = []
  /\ fst <$> book 1 (Sample.at_ (utc 2025 1 1 0 0)) 3 req st
     = Some (Ok [ {| sumId := 1; sumScheduledStart := utc 2025 1 6 10 0;
                     sumScheduledEnd := utc 2025 1 6 11 0;
                     sumStatus := scheduled |} ]).
Proof. vm_compute. auto. Qed.

(** ** The session store *)

Lemma lookup_saveSession_eq (id : nat) (f : Session -> Session) (st : State)
    (s : Session) :
  sessions st !! id = Some s ->
  sessions (saveSession id f st) !! id = Some (f s).
Proof. intros H. simpl. rewrite list_lookup_alter_eq, H. reflexivity. Qed.

Lemma lookup_saveSession_ne (id j : nat) (f : Session -> Session)
    (st : State) :
  j <> id -> sessions (saveSession id f st) !! j = sessions st !! j.
Proof. intros H. simpl. apply list_lookup_alter_ne. congruence. Qed.

Lemma sessions_send (e : Event) (st : State) :
  sessions (send e st) = sessions st.
Proof. reflexivity. Qed.

Lemma sessions_with_users (u : gmap nat User) (st : State) :
  sessions (with_users u st) = sessions st.
Proof. reflexivity. Qed.

(** ** Reschedule *)

(** C3 as the specification states it fails: a confirmed session whose
    reminder has been sent is rescheduled with success, and its
    reminder-sent flag is still set afterwards. *)
Lemma reschedule_leaves_reminder_flag_set :
  let reminded :=
    Sample.session 1 2 (utc 2025 1 6 10 0) (utc 2025 1 6 11 0) confirmed
      true in
  let req :=
    {| newScheduledStart := utc 2025 1 13 10 0;
       newScheduledEnd := utc 2025 1 13 11 0;
       rescheduleReason := None |} in
  exists body st' s',
    reschedule (Sample.at_ (utc 2025 1 5 12 0)) 1 0 req
      (Sample.store [reminded]) = (Ok body, st')
    /\ sessions st' !! 0%nat = Some s'
    /\ scheduledStart s' = utc 2025 1 13 10 0
    /\ status s' = scheduled
    /\ sent (reminders s') = true.
Proof. vm_compute. eauto 10. Qed.

(** C3, amended.  For a session with status scheduled or confirmed, a
    caller who is one of its participants, a reason that, trimmed, has
    at most 500 characters if one is given, and a valid future window
    without conflicts, Reschedule succeeds: it replaces the scheduled
    start and end by the new window and sets the status to scheduled.
    The reminder record (flag and time) is left as it was, and so is
    every other session. *)
Theorem reschedule_replaces_window_and_status (clk : nat -> Z)
    (userId sessionId : nat) (req : RescheduleReq) (st : State)
    (session : Session) :
  sessions st !! sessionId = Some session ->
  isParticipant userId session = true ->
  status session ∈ [scheduled; confirmed] ->
  optionalMax 500 (rescheduleReason req) = true ->
  newScheduledStart req < newScheduledEnd req ->
  clk 0%nat < newScheduledStart req ->
  checkSchedulingConflicts (sessions st) (student session) (tutor session)
    (newScheduledStart req) (newScheduledEnd req) (Some sessionId) = [] ->
  exists st' session',
    reschedule clk userId sessionId req st
    = (Ok {| sumId := sessionId;
             sumScheduledStart := newScheduledStart req;
             sumScheduledEnd := newScheduledEnd req;
             sumStatus := scheduled |}, st')
    /\ sessions st' !! sessionId = Some session'
    /\ scheduledStart session' = newScheduledStart req
    /\ scheduledEnd session' = newScheduledEnd req
    /\ status session' = scheduled
    /\ reminders session' = reminders session
    /\ (forall j, j <> sessionId -> sessions st' !! j = sessions st !! j).
Proof.
  intros Hs Hp Hst Hv Hw Hf Hc. unfold reschedule.
  rewrite Hv, Hs, Hp, Hc. simpl negb.
  rewrite bool_decide_eq_true_2 by exact Hst. simpl negb.
  destruct (Z.leb_spec (newScheduledEnd req) (newScheduledStart req)); [lia|].
  destruct (Z.leb_spec (newScheduledStart req) (clk 0%nat)); [lia|].
  cbv zeta. simpl Nat.ltb. cbv iota.
  eexists _, _. split; [reflexivity|].
  rewrite sessions_send.
  split; [apply lookup_saveSession_eq, Hs|].
  repeat split; try reflexivity.
  intros j Hj. apply lookup_saveSession_ne, Hj.
Qed.

Lemma reschedule_replaces_window_and_status_witness :
  let confirmed' :=
    Sample.session 1 2 (utc 2025 1 6 10 0) (utc 2025 1 6 11 0) confirmed
      true in
  let req :=
    {| newScheduledStart := utc 2025 1 13 10 0;
       newScheduledEnd := utc 2025 1 13 11 0;
       rescheduleReason := None |} in
  let st := Sample.store [confirmed'] in
  let clk := Sample.at_ (utc 2025 1 5 12 0) in
  exists st' session',
    reschedule clk 1 0 req st
    = (Ok {| sumId := 0;
             sumScheduledStart := newScheduledStart req;
             sumScheduledEnd := newScheduledEnd req;
             sumStatus := scheduled |}, st')
    /\ sessions st' !! 0%nat = Some session'
    /\ scheduledStart session' = newScheduledStart req
    /\ scheduledEnd session' = newScheduledEnd req
    /\ status session' = scheduled
    /\ reminders session' = reminders confirmed'
    /\ (forall j, j <> 0%nat -> sessions st' !! j = sessions st !! j).
Proof.
  intros confirmed' req st clk.
  apply (reschedule_replaces_window_and_status clk 1 0 req st confirmed').
  - reflexivity.
  - reflexivity.
  - vm_compute. apply list_elem_of_In. simpl. tauto.
  - reflexivity.
  - reflexivity.
  - reflexivity.
  - reflexivity.
Defined.

(** A reschedule that succeeds met every precondition. *)
Lemma reschedule_ok_inv (clk : nat -> Z) (userId sessionId : nat)
    (req : RescheduleReq) (st st' : State) (body : Summary) :
  reschedule clk userId sessionId req st = (Ok body, st') ->
  exists session,
    sessions st !! sessionId = Some session
    /\ isParticipant userId session = true
    /\ status session ∈ [scheduled; confirmed]
    /\ optionalMax 500 (rescheduleReason req) = true
    /\ newScheduledStart req < newScheduledEnd req
    /\ clk 0%nat < newScheduledStart req
    /\ checkSchedulingConflicts (sessions st) (student session)
         (tutor session) (newScheduledStart req) (newScheduledEnd req)
         (Some sessionId) = [].
Proof.
  unfold reschedule.
  destruct (optionalMax 500 _) eqn:Hv; simpl; [|discriminate].
  destruct (sessions st !! sessionId) as [session|] eqn:Hs; [|discriminate].
  destruct (isParticipant userId session) eqn:Hp; simpl; [|discriminate].
  case_bool_decide as Hst; simpl; [|discriminate].
  destruct (Z.leb_spec (newScheduledEnd req) (newScheduledStart req));
    [discriminate|].
  destruct (Z.leb_spec (newScheduledStart req) (clk 0%nat)); [discriminate|].
  destruct (checkSchedulingConflicts _ _ _ _ _ _) eqn:Hc; simpl;
    [|discriminate].
  intros _. exists session. repeat split; auto.
Qed.

(** ** Start *)

Lemma start_effect (clk : nat -> Z) (userId sessionId : nat) (st : State)
    (session : Session) :
  sessions st !! sessionId = Some session ->
  isParticipant userId session = true ->
  status session ∈ [scheduled; confirmed] ->
  start clk userId sessionId st
  = if 15 * msPerMinute <? scheduledStart session - clk 0%nat
    then (BadRequest
            "Session can only be started within 15 minutes of scheduled time",
          st)
    else (Ok {| sbId := sessionId; sbStatus := ongoing;
                sbActualStart := Some (clk 1%nat) |},
          saveSession sessionId (started (clk 1%nat)) st).
Proof.
  intros Hs Hp Hst. unfold start. rewrite Hs, Hp. simpl negb.
  rewrite bool_decide_eq_true_2 by exact Hst. reflexivity.
Qed.

(** C5.  For a session with status scheduled or confirmed and a caller
    who is one of its participants, Start fails exactly when the clock
    reads more than 15 minutes before the scheduled start.  In every other
    case, at exactly 15 minutes before and at any later time, it succeeds,
    sets the status to ongoing and sets the actual start to the time read
    at the assignment. *)
Theorem start_fails_iff_more_than_15_minutes_early (clk : nat -> Z)
    (userId sessionId : nat) (st : State) (session : Session) :
  sessions st !! sessionId = Some session ->
  isParticipant userId session = true ->
  status session ∈ [scheduled; confirmed] ->
  (succeeded (fst (start clk userId sessionId st)) = false
   <-> scheduledStart session - clk 0%nat > 15 * msPerMinute)
  /\ (scheduledStart session - clk 0%nat > 15 * msPerMinute ->
      snd (start clk userId sessionId st) = st)
  /\ (scheduledStart session - clk 0%nat <= 15 * msPerMinute ->
      exists st' session',
        start clk userId sessionId st
        = (Ok {| sbId := sessionId; sbStatus := ongoing;
                 sbActualStart := Some (clk 1%nat) |}, st')
        /\ sessions st' !! sessionId = Some session'
        /\ status session' = ongoing
        /\ actualStart session' = Some (clk 1%nat)
        /\ (forall j, j <> sessionId -> sessions st' !! j = sessions st !! j)).
Proof.
  intros Hs Hp Hst. rewrite (start_effect _ _ _ _ _ Hs Hp Hst).
  destruct (Z.ltb_spec (15 * msPerMinute) (scheduledStart session - clk 0%nat))
    as [Hearly|Hok]; simpl.
  - split; [split; [lia | reflexivity]|]. split; [reflexivity | lia].
  - split; [split; [discriminate | lia]|]. split; [lia|].
    intros _. eexists _, _. split; [reflexivity|].
    split; [apply lookup_saveSession_eq, Hs|].
    repeat split; try reflexivity.
    intros j Hj. apply lookup_saveSession_ne, Hj.
Qed.

(** At exactly fifteen minutes before the scheduled start. *)
Lemma start_fails_iff_more_than_15_minutes_early_witness :
  let s :=
    Sample.session 1 2 (utc 2025 1 6 10 0) (utc 2025 1 6 11 0) scheduled
      false in
  let st := Sample.store [s] in
  let clk := Sample.at_ (utc 2025 1 6 9 45) in
  (succeeded (fst (start clk 2 0 st)) = false
   <-> scheduledStart s - clk 0%nat > 15 * msPerMinute)
  /\ (scheduledStart s - clk 0%nat > 15 * msPerMinute ->
      snd (start clk 2 0 st) = st)
  /\ (scheduledStart s - clk 0%nat <= 15 * msPerMinute ->
      exists st' session',
        start clk 2 0 st
        = (Ok {| sbId := 0; sbStatus := ongoing;
                 sbActualStart := Some (clk 1%nat) |}, st')
        /\ sessions st' !! 0%nat = Some session'
        /\ status session' = ongoing
        /\ actualStart session' = Some (clk 1%nat)
        /\ (forall j, j <> 0%nat -> sessions st' !! j = sessions st !! j)).
Proof.
  intros s st clk.
  apply (start_fails_iff_more_than_15_minutes_early clk 2 0 st s).
  - reflexivity.
  - reflexivity.
  - vm_compute. apply list_elem_of_In. simpl. tauto.
Defined.

Example start_one_millisecond_too_early :
  fst (start (Sample.at_ (utc 2025 1 6 9 45 - 1)) 2 0
         (Sample.store
            [Sample.session 1 2 (utc 2025 1 6 10 0) (utc 2025 1 6 11 0)
               scheduled false]))
  = BadRequest
      "Session can only be started within 15 minutes of scheduled time".
Proof. reflexivity. Qed.

Example start_a_year_late :
  succeeded
    (fst (start (Sample.at_ (utc 2026 1 6 10 0)) 2 0
            (Sample.store
               [Sample.session 1 2 (utc 2025 1 6 10 0) (utc 2025 1 6 11 0)
                  confirmed false])))
  = true.
Proof. reflexivity. Qed.

(** ** End *)

Lemma ended_fields (t : Z) (b : bool) (notes' : option string)
    (s : Session) :
  status (ended t b notes' s) = completed
  /\ actualEnd (ended t b notes' s) = Some t
  /\ actualStart (ended t b notes' s) = actualStart s
  /\ reminders (ended t b notes' s) = reminders s
  /\ student (ended t b notes' s) = student s
  /\ tutor (ended t b notes' s) = tutor s.
Proof.
  unfold ended. destruct notes' as [[|c r]|]; try (repeat split; fail).
  destruct b; repeat split.
Qed.

Lemma endSession_effect (clk : nat -> Z) (userId sessionId : nat)
    (notes' : option string) (st : State) :
  endSession clk userId sessionId notes' st
  = if negb (optionalMax 1000 notes') then (ValidationErrors, st)
    else match sessions st !! sessionId with
         | None => (NotFound "Session not found", st)
         | Some session =>
             if negb (isParticipant userId session)
             then (Forbidden "Access denied", st)
             else if negb (bool_decide (status session = ongoing))
             then (BadRequest "Session is not ongoing", st)
             else
               let assign :=
                 ended (clk 0%nat) (bool_decide (student session = userId))
                   (trim <$> notes') in
               (Ok {| ebId := sessionId; ebStatus := completed;
                      ebActualEnd := Some (clk 0%nat);
                      ebDuration := actualDuration (assign session) |},
                with_users (updateUserStats (assign session) (users st))
                  (saveSession sessionId assign st))
         end.
Proof.
  unfold endSession.
  destruct (negb (optionalMax 1000 notes')); [reflexivity|].
  destruct (sessions st !! sessionId) as [session|]; [|reflexivity].
  destruct (negb (isParticipant userId session)); [reflexivity|].
  destruct (negb (bool_decide (status session = ongoing))); [reflexivity|].
  cbv zeta.
  destruct (ended_fields (clk 0%nat) (bool_decide (student session = userId))
              (trim <$> notes') session) as (-> & -> & _).
  reflexivity.
Qed.

(** ** Recurrence expander *)

Lemma advance_at_least_a_week (f : Frequency) (t : Z) :
  t + 7 * msPerDay <= advance (Some f) t.
Proof.
  destruct f; simpl; unfold add_weeks, add_days.
  - lia.
  - unfold msPerDay. lia.
  - pose proof (add_month_bounds t). unfold msPerDay in *. lia.
Qed.

Lemma recurrenceFuel_positive (cur endMoment : Z) :
  (1 <= recurrenceFuel cur endMoment)%nat.
Proof. unfold recurrenceFuel. lia. Qed.

Lemma recurrenceFuel_step (cur next endMoment : Z) :
  cur < endMoment ->
  cur + 7 * msPerDay <= next ->
  (S (recurrenceFuel next endMoment) <= recurrenceFuel cur endMoment)%nat.
Proof.
  unfold recurrenceFuel, msPerDay. intros Hc Hn.
  assert ((endMoment - next + 7 * (24 * 60 * 60 * 1000) - 1)
            / (7 * (24 * 60 * 60 * 1000)) + 1
          <= (endMoment - cur + 7 * (24 * 60 * 60 * 1000) - 1)
               / (7 * (24 * 60 * 60 * 1000))) by zdiv.
  assert (1 <= (endMoment - cur + 7 * (24 * 60 * 60 * 1000) - 1)
                 / (7 * (24 * 60 * 60 * 1000))) by zdiv.
  lia.
Qed.

Lemma recurringLoop_unfold (fuel : nat) (data : SessionData)
    (frequency : option Frequency) (endMoment duration : Z) (parentId : nat)
    (cur : Z) (created : list (nat * Session)) (coll : list Session) :
  recurringLoop (S fuel) data frequency endMoment duration parentId cur
    created coll
  = if cur <? endMoment then
      if advance frequency cur <? endMoment then
        recurringLoop fuel data frequency endMoment duration parentId
          (advance frequency cur)
          (created ++
           [(length coll,
             newSession data (advance frequency cur)
               (advance frequency cur + duration)
               (childRecurring frequency endMoment parentId))])
          (coll ++
           [newSession data (advance frequency cur)
              (advance frequency cur + duration)
              (childRecurring frequency endMoment parentId)])
      else
        recurringLoop fuel data frequency endMoment duration parentId
          (advance frequency cur) created coll
    else Some (created, coll).
Proof. reflexivity. Qed.

Section Expander.

Variable data : SessionData.
Variable f : Frequency.
Variable endMoment duration : Z.
Variable parentId : nat.

Let step := advance (Some f).
Let loop := fun fuel =>
  recurringLoop fuel data (Some f) endMoment duration parentId.
Let kids := childrenFrom data (Some f) endMoment duration parentId.

(** With enough fuel the loop ends, having appended the children whose
    starts lie before the end date, in order. *)
Lemma recurringLoop_spec (fuel : nat) :
  forall (cur : Z) (created : list (nat * Session)) (coll : list Session),
  (recurrenceFuel cur endMoment <= fuel)%nat ->
  exists n,
    loop fuel cur created coll
    = Some (created ++ kids n (length coll) cur,
            coll ++ map snd (kids n (length coll) cur))
    /\ (forall k, (1 <= k <= n)%nat -> Nat.iter k step cur < endMoment)
    /\ endMoment <= Nat.iter (S n) step cur.
Proof.
  subst loop kids step.
  induction fuel as [|fuel IH]; intros cur created coll Hfuel.
  - pose proof (recurrenceFuel_positive cur endMoment). lia.
  - pose proof (advance_at_least_a_week f cur) as Hstep.
    rewrite recurringLoop_unfold.
    destruct (Z.ltb_spec cur endMoment) as [Hlt|Hge].
    + pose proof (recurrenceFuel_step cur _ endMoment Hlt Hstep) as Hdec.
      destruct (Z.ltb_spec (advance (Some f) cur) endMoment) as [Hlt'|Hge'].
      * destruct (IH (advance (Some f) cur)
                    (created ++
                     [(length coll,
                       newSession data (advance (Some f) cur)
                         (advance (Some f) cur + duration)
                         (childRecurring (Some f) endMoment parentId))])
                    (coll ++
                     [newSession data (advance (Some f) cur)
                        (advance (Some f) cur + duration)
                        (childRecurring (Some f) endMoment parentId)]))
          as (n & Hrun & Hbefore & Hstop); [lia|].
        exists (S n). split; [|split].
        -- rewrite Hrun. rewrite length_app. simpl length.
           replace (length coll + 1)%nat with (S (length coll)) by lia.
           simpl childrenFrom. simpl map.
           rewrite <- !app_assoc. reflexivity.
        -- intros k Hk. destruct k as [|k]; [lia|].
           rewrite Nat.iter_succ_r.
           destruct k as [|k]; [exact Hlt'|]. apply Hbefore. lia.
        -- rewrite Nat.iter_succ_r. exact Hstop.
      * exists 0%nat. split; [|split].
        -- destruct fuel as [|fuel].
           { pose proof (recurrenceFuel_positive (advance (Some f) cur)
                           endMoment). lia. }
           rewrite recurringLoop_unfold.
           destruct (Z.ltb_spec (advance (Some f) cur) endMoment); [lia|].
           simpl. rewrite !app_nil_r. reflexivity.
        -- intros k Hk. lia.
        -- exact Hge'.
    + exists 0%nat.
      split; [simpl; rewrite !app_nil_r; reflexivity|].
      split; [intros; lia|].
      change (endMoment <= advance (Some f) cur).
      unfold msPerDay in Hstep. lia.
Qed.

Lemma childrenFrom_length (n firstId : nat) (cur : Z) :
  length (kids n firstId cur) = n.
Proof.
  subst kids. revert firstId cur.
  induction n as [|n IH]; intros; simpl; [reflexivity|].
  rewrite IH. reflexivity.
Qed.

Lemma childrenFrom_lookup (n : nat) :
  forall (firstId : nat) (cur : Z) (k : nat),
  (k < n)%nat ->
  kids n firstId cur !! k
  = Some ((firstId + k)%nat,
          newSession data (Nat.iter (S k) step cur)
            (Nat.iter (S k) step cur + duration)
            (childRecurring (Some f) endMoment parentId)).
Proof.
  subst kids step.
  induction n as [|n IH]; intros firstId cur k Hk; [lia|].
  destruct k as [|k].
  - rewrite Nat.add_0_r. reflexivity.
  - change (childrenFrom data (Some f) endMoment duration parentId (S n)
              firstId cur !! S k)
      with (childrenFrom data (Some f) endMoment duration parentId n
              (S firstId) (advance (Some f) cur) !! k).
    rewrite IH by lia. rewrite (Nat.iter_succ_r (S k)).
    replace (S firstId + k)%nat with (firstId + S k)%nat by lia.
    reflexivity.
Qed.

End Expander.

Lemma iter_add_weeks (w : Z) (k : nat) (t : Z) :
  Nat.iter k (add_weeks w) t = t + Z.of_nat k * (7 * w * msPerDay).
Proof.
  induction k as [|k IH]; [simpl; lia|].
  rewrite Nat.iter_succ, IH. unfold add_weeks, add_days. lia.
Qed.

(** The series the expander creates: the parent, then [n] children one
    frequency step apart, all before the end date, the next step not. *)
Lemma createRecurringSessions_series (data : SessionData) (f : Frequency)
    (endDate' : Z) (coll : list Session) (extra : nat) :
  let r := {| reqIsRecurring := true; reqFrequency := Some f;
              reqEndDate := endDate' |} in
  let start := dataScheduledStart data in
  let duration := dataScheduledEnd data - start in
  let parentId := length coll in
  let parent :=
    newSession data start (dataScheduledEnd data)
      (parentRecurring (Some f) endDate') in
  let nthStart k := Nat.iter k (advance (Some f)) start in
  exists n children,
    createRecurringSessions (recurrenceFuel start endDate' + extra) data r
      coll
    = Some ((parentId, parent) :: children,
            coll ++ parent :: map snd children)
    /\ length children = n
    /\ (forall k, (k < n)%nat ->
          children !! k
          = Some (S (parentId + k),
                  newSession data (nthStart (S k))
                    (nthStart (S k) + duration)
                    (childRecurring (Some f) endDate' parentId)))
    /\ (forall k, (1 <= k <= n)%nat -> nthStart k < endDate')
    /\ endDate' <= nthStart (S n).
Proof.
  intros r start duration parentId parent nthStart.
  unfold createRecurringSessions, insertSession. simpl reqFrequency.
  simpl reqEndDate.
  destruct (recurringLoop_spec data f endDate' duration parentId
              (recurrenceFuel start endDate' + extra) start
              [(parentId, parent)] (coll ++ [parent]))
    as (n & Hrun & Hbefore & Hstop); [lia|].
  exists n, (childrenFrom data (Some f) endDate' duration parentId n
               (length (coll ++ [parent])) start).
  split; [|split; [|split; [|split]]].
  - subst start duration parentId parent. rewrite Hrun.
    rewrite <- app_assoc. reflexivity.
  - apply childrenFrom_length.
  - intros k Hk. rewrite childrenFrom_lookup by exact Hk.
    rewrite length_app. simpl length. subst parentId.
    replace (length coll + 1 + k)%nat with (S (length coll + k)) by lia.
    reflexivity.
  - exact Hbefore.
  - exact Hstop.
Qed.

Lemma nthStart_closed_form (f : Frequency) (start : Z) (k : nat) :
  Nat.iter k (advance (Some f)) start
  = match f with
    | weekly => start + Z.of_nat k * (7 * msPerDay)
    | biweekly => start + Z.of_nat k * (14 * msPerDay)
    | monthly => Nat.iter k add_month start
    end.
Proof.
  destruct f.
  - change (advance (Some weekly)) with (add_weeks 1).
    rewrite iter_add_weeks. lia.
  - change (advance (Some biweekly)) with (add_weeks 2).
    rewrite iter_add_weeks. lia.
  - reflexivity.
Qed.

(** Without a frequency the date never moves: a series that starts
    before its end date is never finished. *)
Lemma recurringLoop_without_frequency (data : SessionData)
    (endMoment duration : Z) (parentId : nat) (cur : Z) (fuel : nat) :
  cur < endMoment ->
  forall (created : list (nat * Session)) (coll : list Session),
  recurringLoop fuel data None endMoment duration parentId cur created coll
  = None.
Proof.
  intros Hlt. induction fuel as [|fuel IH]; intros created coll;
    [reflexivity|].
  rewrite recurringLoop_unfold. simpl advance.
  destruct (Z.ltb_spec cur endMoment); [|lia]. apply IH.
Qed.


(** ** Book *)

Lemma numbered_snoc (base : list Session) (created : list (nat * Session))
    (coll : list Session) (s : Session) :
  numbered base created coll ->
  numbered base (created ++ [(length coll, s)]) (coll ++ [s]).
Proof.
  intros [-> Hids]. split.
  - rewrite map_app, app_assoc. reflexivity.
  - rewrite map_app, (length_app created), seq_app, Hids. simpl.
    rewrite length_app, length_map. reflexivity.
Qed.

Lemma newSession_fresh (data : SessionData) (a b : Z) (r : Recurring) :
  fresh (newSession data a b r).
Proof. repeat split. Qed.

Lemma recurringLoop_numbered (data : SessionData)
    (frequency : option Frequency) (endMoment duration : Z) (parentId : nat)
    (base : list Session) (fuel : nat) :
  forall (cur : Z) (created created' : list (nat * Session))
         (coll coll' : list Session),
  recurringLoop fuel data frequency endMoment duration parentId cur created
    coll = Some (created', coll') ->
  numbered base created coll ->
  Forall (fun d => fresh (snd d)) created ->
  numbered base created' coll'
  /\ Forall (fun d => fresh (snd d)) created'
  /\ exists more, created' = created ++ more.
Proof.
  induction fuel as [|fuel IH]; intros cur created created' coll coll' Hrun
    Hnum Hfresh; [discriminate|].
  rewrite recurringLoop_unfold in Hrun.
  destruct (cur <? endMoment).
  - destruct (advance frequency cur <? endMoment).
    + apply IH in Hrun as (Hn & Hf & more & ->).
      * split; [exact Hn|]. split; [exact Hf|].
        eexists. rewrite <- app_assoc. reflexivity.
      * apply numbered_snoc, Hnum.
      * apply Forall_app. split; [exact Hfresh|].
        constructor; [apply newSession_fresh | constructor].
    + apply IH in Hrun; assumption.
  - injection Hrun as <- <-. split; [exact Hnum|]. split; [exact Hfresh|].
    exists []. rewrite app_nil_r. reflexivity.
Qed.

Lemma numbered_single (base : list Session) (s : Session) :
  numbered base [(length base, s)] (base ++ [s]).
Proof. split; reflexivity. Qed.

(** What [createSessions] returns: at least one document, the first with
    the next free id. *)
Lemma createSessions_spec (fuel : nat) (data : SessionData)
    (rec : option RecurringReq) (base : list Session)
    (created : list (nat * Session)) (coll : list Session) :
  createSessions fuel data rec base = Some (created, coll) ->
  numbered base created coll
  /\ Forall (fun d => fresh (snd d)) created
  /\ exists first more, created = (length base, first) :: more.
Proof.
  unfold createSessions, createRecurringSessions, insertSession.
  assert (Hsingle :
    forall s, fresh s ->
      Some ([(length base, s)], base ++ [s]) = Some (created, coll) ->
      numbered base created coll
      /\ Forall (fun d => fresh (snd d)) created
      /\ exists first more, created = (length base, first) :: more).
  { intros s Hs Heq. injection Heq as <- <-.
    split; [apply numbered_single|].
    split; [constructor; [exact Hs | constructor]|]. eauto. }
  destruct rec as [r|]; [destruct (reqIsRecurring r)|].
  - intros Hrun.
    eapply recurringLoop_numbered in Hrun as (Hn & Hf & more & ->).
    + split; [exact Hn|]. split; [exact Hf|]. simpl. eauto.
    + apply numbered_single.
    + constructor; [apply newSession_fresh | constructor].
  - apply Hsingle, newSession_fresh.
  - apply Hsingle, newSession_fresh.
Qed.

Lemma assignLinks_spec (created : list (nat * Session)) :
  forall base : list Session,
  map fst created = seq (length base) (length created) ->
  assignLinks created (base ++ map snd created)
  = (map (linked online) created,
     base ++ map snd (map (linked online) created)).
Proof.
  induction created as [|[id s] rest IH]; intros base Hids; [reflexivity|].
  simpl in Hids. injection Hids as -> Hrest.
  simpl assignLinks.
  replace (alter (set_meetingLink (generateMeetingLink (length base)))
             (length base) (base ++ map snd ((length base, s) :: rest)))
    with ((base ++ [set_meetingLink (generateMeetingLink (length base)) s])
          ++ map snd rest).
  - rewrite IH.
    + simpl. rewrite <- app_assoc. reflexivity.
    + rewrite length_app. simpl length.
      replace (length base + 1)%nat with (S (length base)) by lia.
      exact Hrest.
  - rewrite <- app_assoc. simpl.
    replace (length base) with (length base + 0)%nat at 3 by lia.
    rewrite alter_app_r. reflexivity.
Qed.

Lemma linked_fresh (ty : SessionType) (d : nat * Session) :
  fresh (snd d) -> fresh (snd (linked ty d)).
Proof. destruct ty; intros H; exact H. Qed.

Lemma linked_fst (ty : SessionType) (d : nat * Session) :
  fst (linked ty d) = fst d.
Proof. destruct ty; reflexivity. Qed.

Lemma linked_summary (ty : SessionType) (d : nat * Session) :
  summary (fst (linked ty d)) (snd (linked ty d)) = summary (fst d) (snd d).
Proof. destruct ty; reflexivity. Qed.

(** A request that passes every check is answered by what
    [createSessions] produces. *)
Lemma book_accepted (fuel : nat) (clk : nat -> Z) (caller : nat)
    (req : BookReq) (st : State) (tutor' : User) :
  (1 <= String.length (trim (reqSubject req)))%nat ->
  reqScheduledStart req < reqScheduledEnd req ->
  clk 0%nat < reqScheduledStart req ->
  users st !! reqTutor req = Some tutor' ->
  role tutor' ∈ [role_tutor; role_both] ->
  checkSchedulingConflicts (sessions st) caller (reqTutor req)
    (reqScheduledStart req) (reqScheduledEnd req) None = [] ->
  checkTutorAvailability (users st) (reqTutor req) (reqScheduledStart req)
    (reqScheduledEnd req) = true ->
  validates (newSession (sessionDataOf caller req) (reqScheduledStart req)
               (reqScheduledEnd req) notRecurring) = true ->
  book fuel clk caller req st
  = match createSessions fuel (sessionDataOf caller req) (reqRecurring req)
            (sessions st) with
    | None => None
    | Some (created, _) =>
        Some (Ok (map (fun d => summary (fst d) (snd d)) created),
              booked (reqType req) created st)
    end.
Proof.
  intros Hsub Hwin Hfut Htutor Hrole Hconf Havail Hvalid. unfold book.
  apply Nat.leb_le in Hsub. rewrite Hsub. simpl negb. cbv zeta.
  destruct (Z.leb_spec (reqScheduledEnd req) (reqScheduledStart req));
    [lia|].
  destruct (Z.leb_spec (reqScheduledStart req) (clk 0%nat)); [lia|].
  rewrite Htutor, (bool_decide_eq_true_2 _ Hrole), Hconf, Havail, Hvalid.
  simpl negb. simpl Nat.ltb. cbv iota.
  destruct (createSessions _ _ _ _) as [[created coll]|] eqn:Hc;
    [|reflexivity].
  apply createSessions_spec in Hc as ([-> Hids] & _ & first & more & Hcr).
  assert (Hsum :
    map (fun d => summary (fst d) (snd d)) (map (linked online) created)
    = map (fun d => summary (fst d) (snd d)) created).
  { rewrite map_map. apply map_ext. intros d. apply linked_summary. }
  assert (Hoff : map (linked offline) created = created).
  { rewrite <- (map_id created) at 2. apply map_ext. reflexivity. }
  unfold booked. destruct (reqType req).
  - rewrite assignLinks_spec by exact Hids. cbv beta iota zeta.
    rewrite Hsum. subst created. reflexivity.
  - rewrite Hoff. subst created. reflexivity.
Qed.

(** Whatever a booking answers, it leaves the state as it was or appends
    fresh documents and one booking notice. *)
Lemma book_state (fuel : nat) (clk : nat -> Z) (caller : nat)
    (req : BookReq) (st st' : State) (reply : Reply (list Summary)) :
  book fuel clk caller req st = Some (reply, st') ->
  (succeeded reply = false /\ st' = st)
  \/ (succeeded reply = true
      /\ exists created,
           Forall (fun d => fresh (snd d)) created
           /\ st' = booked (reqType req) created st).
Proof.
  intros Hbook. generalize Hbook. unfold book at 1.
  destruct (negb (Nat.leb 1 _)) eqn:Hsub;
    [intros [= <- <-]; left; auto|].
  cbv zeta.
  destruct (Z.leb_spec (reqScheduledEnd req) (reqScheduledStart req));
    [intros [= <- <-]; left; auto|].
  destruct (Z.leb_spec (reqScheduledStart req) (clk 0%nat));
    [intros [= <- <-]; left; auto|].
  destruct (users st !! reqTutor req) as [tutor'|] eqn:Htutor;
    [|intros [= <- <-]; left; auto].
  case_bool_decide as Hrole; simpl negb; cbv iota;
    [|intros [= <- <-]; left; auto].
  destruct (checkSchedulingConflicts _ _ _ _ _ _) as [|c cs] eqn:Hconf;
    simpl Nat.ltb; cbv iota; [|intros [= <- <-]; left; auto].
  destruct (checkTutorAvailability _ _ _ _) eqn:Havail; simpl negb; cbv iota;
    [|intros [= <- <-]; left; auto].
  destruct (validates _) eqn:Hvalid; simpl negb; cbv iota;
    [|intros [= <- <-]; left; auto].
  intros _.
  apply negb_false_iff, Nat.leb_le in Hsub.
  rewrite (book_accepted fuel clk caller req st tutor') in Hbook
    by (assumption || lia).
  destruct (createSessions _ _ _ _) as [[created coll]|] eqn:Hc;
    [|discriminate].
  injection Hbook as <- <-. right. split; [reflexivity|].
  exists created. split; [|reflexivity].
  apply createSessions_spec in Hc as (_ & Hf & _). exact Hf.
Qed.

(** ** What the operations do to a stored session *)

Lemma transition_refl (s : Session) : transition s s.
Proof. repeat split; auto. Qed.

Lemma remindedOnly_refl (s : Session) : remindedOnly s s.
Proof. repeat split; auto. Qed.

Lemma remindedOnly_trans (a b c : Session) :
  remindedOnly a b -> remindedOnly b c -> remindedOnly a c.
Proof.
  intros (A1 & A2 & A3 & A4 & A5) (B1 & B2 & B3 & B4 & B5).
  repeat split; try congruence. auto.
Qed.

Lemma remindedOnly_transition (s s' : Session) :
  remindedOnly s s' -> transition s s'.
Proof. intros (A1 & A2 & A3 & A4 & A5). repeat split; auto. Qed.

Lemma in_scheduled_confirmed (v : Status) :
  v ∈ [scheduled; confirmed] <-> v = scheduled \/ v = confirmed.
Proof. rewrite !elem_of_cons, elem_of_nil. tauto. Qed.

Lemma rescheduled_transition (a b : Z) (s : Session) :
  status s ∈ [scheduled; confirmed] -> transition s (rescheduled a b s).
Proof.
  intros H. repeat split; auto. right. left. split; [exact H|].
  apply elem_of_cons. left. reflexivity.
Qed.

Lemma cancelledWith_transition (u : nat) (r : string) (ms t : Z)
    (s : Session) :
  status s ∈ [scheduled; confirmed] -> transition s (cancelledWith u r ms t s).
Proof.
  intros H. unfold cancelledWith.
  destruct (ms <? 24 * msPerHour); repeat split; auto; right; left;
    (split; [exact H|]); apply elem_of_cons; right; apply elem_of_cons; left;
    reflexivity.
Qed.

Lemma started_transition (t : Z) (s : Session) :
  status s ∈ [scheduled; confirmed] -> transition s (started t s).
Proof.
  intros H. repeat split; auto. right. left. split; [exact H|].
  do 2 (apply elem_of_cons; right). apply elem_of_cons. left. reflexivity.
Qed.

Lemma ended_transition (t : Z) (b : bool) (n : option string) (s : Session) :
  status s = ongoing -> transition s (ended t b n s).
Proof.
  intros H.
  destruct (ended_fields t b n s) as (E1 & E2 & E3 & E4 & E5 & E6).
  unfold transition. rewrite E1, E4, E5, E6.
  repeat split; auto.
Qed.

(** Saving the assignments [f] to document [id] moves that document
    along [f] and leaves the others. *)
Lemma saveSession_lookup (id : nat) (f : Session -> Session) (st : State)
    (j : nat) (s : Session) :
  sessions st !! j = Some s ->
  sessions (saveSession id f st) !! j = Some (if decide (id = j) then f s else s).
Proof.
  intros H. simpl. rewrite list_lookup_alter.
  destruct (decide (id = j)) as [->|]; [rewrite H; reflexivity | exact H].
Qed.

Lemma saveSession_lookup_None (id : nat) (f : Session -> Session)
    (st : State) (j : nat) :
  sessions st !! j = None -> sessions (saveSession id f st) !! j = None.
Proof.
  intros H. simpl. rewrite list_lookup_alter.
  destruct (decide (id = j)) as [->|]; [rewrite H; reflexivity | exact H].
Qed.

Lemma saveSession_transition (id : nat) (f : Session -> Session)
    (st : State) (session : Session) (j : nat) (s : Session) :
  sessions st !! id = Some session ->
  transition session (f session) ->
  sessions st !! j = Some s ->
  exists s', sessions (saveSession id f st) !! j = Some s' /\ transition s s'.
Proof.
  intros Hid Ht Hj. rewrite (saveSession_lookup _ _ _ _ _ Hj).
  eexists. split; [reflexivity|].
  destruct (decide (id = j)) as [->|]; [|apply transition_refl].
  rewrite Hid in Hj. injection Hj as <-. exact Ht.
Qed.

(** The state each handler leaves. *)
Lemma reschedule_state (clk : nat -> Z) (u id : nat) (req : RescheduleReq)
    (st : State) :
  (succeeded (fst (reschedule clk u id req st)) = false
   /\ snd (reschedule clk u id req st) = st)
  \/ exists session,
       sessions st !! id = Some session
       /\ status session ∈ [scheduled; confirmed]
       /\ snd (reschedule clk u id req st)
          = send (RescheduleNotice id u)
              (saveSession id
                 (rescheduled (newScheduledStart req) (newScheduledEnd req))
                 st).
Proof.
  unfold reschedule.
  destruct (negb (optionalMax 500 _)); [left; auto|].
  destruct (sessions st !! id) as [session|]; [|left; auto].
  destruct (negb (isParticipant u session)); [left; auto|].
  case_bool_decide as Hst; simpl negb; cbv iota; [|left; auto].
  cbv zeta.
  destruct (newScheduledEnd req <=? newScheduledStart req); [left; auto|].
  destruct (newScheduledStart req <=? clk 0%nat); [left; auto|].
  destruct (Nat.ltb 0 _); [left; auto|].
  right. exists session. auto.
Qed.

Lemma cancel_state (clk : nat -> Z) (u id : nat) (r : string) (st : State) :
  (succeeded (fst (cancel clk u id r st)) = false
   /\ snd (cancel clk u id r st) = st)
  \/ exists session,
       sessions st !! id = Some session
       /\ status session ∈ [scheduled; confirmed]
       /\ snd (cancel clk u id r st)
          = send (CancellationNotice id u)
              (saveSession id
                 (cancelledWith u (trim r)
                    (scheduledStart session - clk 0%nat) (clk 1%nat))
                 st).
Proof.
  unfold cancel. cbv zeta.
  destruct (negb (lengthBetween 1 500 _)); [left; auto|].
  destruct (sessions st !! id) as [session|]; [|left; auto].
  destruct (negb (isParticipant u session)); [left; auto|].
  case_bool_decide as Hst; simpl negb; cbv iota; [|left; auto].
  right. exists session. auto.
Qed.

Lemma start_state (clk : nat -> Z) (u id : nat) (st : State) :
  (succeeded (fst (start clk u id st)) = false
   /\ snd (start clk u id st) = st)
  \/ exists session,
       sessions st !! id = Some session
       /\ status session ∈ [scheduled; confirmed]
       /\ snd (start clk u id st) = saveSession id (started (clk 1%nat)) st.
Proof.
  unfold start.
  destruct (sessions st !! id) as [session|]; [|left; auto].
  destruct (negb (isParticipant u session)); [left; auto|].
  case_bool_decide as Hst; simpl negb; cbv iota; [|left; auto].
  cbv zeta.
  destruct (15 * msPerMinute <? _); [left; auto|].
  right. exists session. auto.
Qed.

Lemma endSession_state (clk : nat -> Z) (u id : nat) (n : option string)
    (st : State) :
  (succeeded (fst (endSession clk u id n st)) = false
   /\ snd (endSession clk u id n st) = st)
  \/ exists session,
       sessions st !! id = Some session
       /\ status session = ongoing
       /\ sessions (snd (endSession clk u id n st))
          = sessions
              (saveSession id
                 (ended (clk 0%nat) (bool_decide (student session = u))
                    (trim <$> n)) st)
       /\ outbox (snd (endSession clk u id n st)) = outbox st.
Proof.
  rewrite endSession_effect.
  destruct (negb (optionalMax 1000 _)); [left; auto|].
  destruct (sessions st !! id) as [session|]; [|left; auto].
  destruct (negb (isParticipant u session)); [left; auto|].
  case_bool_decide as Hst; simpl negb; cbv iota; [|left; auto].
  right. exists session. auto.
Qed.

(** ** The reminder sweep *)

Lemma find_NoDup (query : nat * Session -> bool) (coll : list Session) :
  NoDup (map fst (find query coll)).
Proof.
  unfold find.
  assert (Hsub : forall (l : list (nat * Session)),
             NoDup (map fst l) -> NoDup (map fst (List.filter query l))).
  { induction l as [|d l IH]; simpl; intros Hnd; [constructor|].
    apply NoDup_cons in Hnd as [Hnot Hnd].
    destruct (query d); simpl; [|auto].
    apply NoDup_cons. split; [|auto].
    intros Hin. apply Hnot.
    apply list_elem_of_In, in_map_iff in Hin as (x & Hx & Hin).
    apply filter_In in Hin as [Hin _].
    apply list_elem_of_In, in_map_iff. eauto. }
  apply Hsub.
  change (map fst (imap pair coll)) with (fst <$> imap pair coll).
  rewrite fmap_imap.
  rewrite (imap_ext _ (fun j _ => j)) by reflexivity.
  rewrite (imap_seq_0 coll (fun j => j)), list_fmap_id.
  apply NoDup_seq.
Qed.

Lemma remindAll_sessions (clk : nat -> Z) (docs : list (nat * Session)) :
  forall (k : nat) (st : State) (j : nat) (s : Session),
  sessions st !! j = Some s ->
  exists s',
    sessions (remindAll clk k docs st) !! j = Some s'
    /\ remindedOnly s s'
    /\ (In j (map fst docs) ->
        sent (reminders s') = true
        /\ exists n, (k <= n)%nat /\ sentAt (reminders s') = Some (clk n))
    /\ (~ In j (map fst docs) -> s' = s).
Proof.
  induction docs as [|[id x] rest IH]; intros k st j s Hj.
  - exists s. split; [exact Hj|]. split; [apply remindedOnly_refl|].
    split; [intros []|auto].
  - simpl remindAll.
    pose proof (saveSession_lookup id
                  (set_reminders {| sent := true; sentAt := Some (clk k) |})
                  (send (ReminderNotice id) st) j s Hj) as Hstep.
    destruct (IH (S k) _ j _ Hstep) as (s' & Hs' & Hro & Hin & Hout).
    exists s'. split; [exact Hs'|]. split; [|split].
    + eapply remindedOnly_trans; [|exact Hro].
      destruct (decide (id = j)); [repeat split; auto | apply remindedOnly_refl].
    + intros Hmem.
      destruct (in_dec Nat.eq_dec j (map fst rest)) as [Hr|Hr].
      * destruct (Hin Hr) as (Hsent & n & Hn & Hat).
        split; [exact Hsent|]. exists n. split; [lia | exact Hat].
      * rewrite (Hout Hr). destruct Hmem as [Heq|Hmem]; [|contradiction].
        simpl in Heq. subst j. destruct (decide (id = id)); [|congruence].
        split; [reflexivity|]. exists k. split; [lia | reflexivity].
    + intros Hnot. simpl in Hnot.
      rewrite Hout by tauto.
      destruct (decide (id = j)); [tauto | reflexivity].
Qed.

Lemma remindAll_sessions_None (clk : nat -> Z)
    (docs : list (nat * Session)) :
  forall (k : nat) (st : State) (j : nat),
  sessions st !! j = None ->
  sessions (remindAll clk k docs st) !! j = None.
Proof.
  induction docs as [|[id x] rest IH]; intros k st j Hj; [exact Hj|].
  simpl remindAll. apply IH, saveSession_lookup_None, Hj.
Qed.

Lemma remindAll_outbox (clk : nat -> Z) (docs : list (nat * Session)) :
  forall (k : nat) (st : State),
  outbox (remindAll clk k docs st)
  = outbox st ++ map (fun d => ReminderNotice (fst d)) docs
  /\ users (remindAll clk k docs st) = users st.
Proof.
  induction docs as [|[id x] rest IH]; intros k st.
  - simpl. rewrite app_nil_r. auto.
  - simpl remindAll. destruct (IH (S k)
      (saveSession id
         (set_reminders {| sent := true; sentAt := Some (clk k) |})
         (send (ReminderNotice id) st))) as [-> ->].
    simpl. rewrite <- app_assoc. auto.
Qed.

Lemma reminderQuery_spec (now reminderTime : Z) (i : nat) (s : Session) :
  reminderQuery now reminderTime (i, s) = true
  <-> now <= scheduledStart s <= reminderTime
      /\ status s ∈ [scheduled; confirmed]
      /\ sent (reminders s) = false.
Proof.
  unfold reminderQuery. simpl.
  rewrite !andb_true_iff, !Z.leb_le, !bool_decide_eq_true. tauto.
Qed.

Lemma reminderCount_app (id : nat) (l1 l2 : list Event) :
  reminderCount id (l1 ++ l2)
  = (reminderCount id l1 + reminderCount id l2)%nat.
Proof. apply count_occ_app. Qed.

Lemma reminderCount_notices (id : nat) (docs : list (nat * Session)) :
  reminderCount id (map (fun d => ReminderNotice (fst d)) docs)
  = count_occ Nat.eq_dec (map fst docs) id.
Proof.
  unfold reminderCount.
  induction docs as [|[j x] rest IH]; [reflexivity|].
  rewrite !map_cons. cbn [fst].
  destruct (Nat.eq_dec j id) as [->|Hne].
  - rewrite !count_occ_cons_eq by reflexivity. rewrite IH. reflexivity.
  - rewrite !count_occ_cons_neq by congruence. exact IH.
Qed.

Lemma reminderCount_selected (id : nat) (docs : list (nat * Session)) :
  NoDup (map fst docs) ->
  reminderCount id (map (fun d => ReminderNotice (fst d)) docs)
  = if bool_decide (id ∈ map fst docs) then 1%nat else 0%nat.
Proof.
  intros Hnd. rewrite reminderCount_notices.
  apply NoDup_ListNoDup in Hnd.
  case_bool_decide as Hin; rewrite list_elem_of_In in Hin.
  - pose proof (proj1 (List.NoDup_count_occ Nat.eq_dec _) Hnd id).
    pose proof (proj1 (count_occ_In Nat.eq_dec _ _) Hin). lia.
  - apply count_occ_not_In. exact Hin.
Qed.

(** ** Runs *)

Lemma booked_lookup_old (ty : SessionType) (created : list (nat * Session))
    (st : State) (j : nat) (s : Session) :
  sessions st !! j = Some s -> sessions (booked ty created st) !! j = Some s.
Proof. intros H. simpl. apply lookup_app_l_Some, H. Qed.

Lemma booked_lookup_new (ty : SessionType) (created : list (nat * Session))
    (st : State) (j : nat) (s' : Session) :
  Forall (fun d => fresh (snd d)) created ->
  sessions st !! j = None ->
  sessions (booked ty created st) !! j = Some s' ->
  fresh s'.
Proof.
  intros Hf Hnone Hsome. simpl in Hsome.
  apply lookup_app_Some in Hsome as [Hold|[_ Hnew]]; [congruence|].
  apply list_elem_of_lookup_2, list_elem_of_In in Hnew.
  apply in_map_iff in Hnew as (d' & <- & Hd').
  apply in_map_iff in Hd' as (d & <- & Hd).
  apply linked_fresh. rewrite Forall_forall in Hf. apply Hf.
  apply list_elem_of_In, Hd.
Qed.

(** One operation moves every stored session along [transition]. *)
Lemma exec_transition (clk : nat -> Z) (op : Op) (st st' : State) (j : nat)
    (s : Session) :
  exec clk op st = Some st' ->
  sessions st !! j = Some s ->
  exists s', sessions st' !! j = Some s' /\ transition s s'.
Proof.
  intros Hexec Hj. destruct op as [fuel u req|u id req|u id r|u id|u id n|];
    simpl in Hexec.
  - destruct (book fuel clk u req st) as [[reply st0]|] eqn:Hb;
      [|discriminate]. injection Hexec as ->.
    apply book_state in Hb as [[_ ->]|(_ & created & _ & ->)].
    + exists s. split; [exact Hj | apply transition_refl].
    + exists s. split; [apply booked_lookup_old, Hj | apply transition_refl].
  - injection Hexec as <-.
    destruct (reschedule_state clk u id req st)
      as [[_ ->]|(session & Hid & Hst & ->)].
    + exists s. split; [exact Hj | apply transition_refl].
    + rewrite sessions_send.
      eapply saveSession_transition; eauto using rescheduled_transition.
  - injection Hexec as <-.
    destruct (cancel_state clk u id r st)
      as [[_ ->]|(session & Hid & Hst & ->)].
    + exists s. split; [exact Hj | apply transition_refl].
    + rewrite sessions_send.
      eapply saveSession_transition; eauto using cancelledWith_transition.
  - injection Hexec as <-.
    destruct (start_state clk u id st)
      as [[_ ->]|(session & Hid & Hst & ->)].
    + exists s. split; [exact Hj | apply transition_refl].
    + eapply saveSession_transition; eauto using started_transition.
  - injection Hexec as <-.
    destruct (endSession_state clk u id n st)
      as [[_ ->]|(session & Hid & Hst & -> & _)].
    + exists s. split; [exact Hj | apply transition_refl].
    + eapply saveSession_transition; eauto using ended_transition.
  - injection Hexec as <-. unfold reminderSweep.
    destruct (remindAll_sessions clk
                (find (reminderQuery (clk 1%nat)
                         (clk 0%nat + 24 * 60 * 60 * 1000)) (sessions st))
                2 st j s Hj) as (s' & Hs' & Hro & _).
    exists s'. split; [exact Hs' | apply remindedOnly_transition, Hro].
Qed.

(** A session that one operation brings into the store is fresh. *)
Lemma exec_fresh (clk : nat -> Z) (op : Op) (st st' : State) (j : nat)
    (s' : Session) :
  exec clk op st = Some st' ->
  sessions st !! j = None ->
  sessions st' !! j = Some s' ->
  fresh s'.
Proof.
  intros Hexec Hnone Hsome.
  destruct op as [fuel u req|u id req|u id r|u id|u id n|]; simpl in Hexec.
  - destruct (book fuel clk u req st) as [[reply st0]|] eqn:Hb;
      [|discriminate]. injection Hexec as ->.
    apply book_state in Hb as [[_ ->]|(_ & created & Hf & ->)];
      [congruence|].
    eapply booked_lookup_new; eauto.
  - injection Hexec as <-.
    destruct (reschedule_state clk u id req st)
      as [[_ Heq]|(session & Hid & Hst & Heq)]; rewrite Heq in Hsome;
      [congruence|].
    rewrite sessions_send, saveSession_lookup_None in Hsome by exact Hnone.
    discriminate.
  - injection Hexec as <-.
    destruct (cancel_state clk u id r st)
      as [[_ Heq]|(session & Hid & Hst & Heq)]; rewrite Heq in Hsome;
      [congruence|].
    rewrite sessions_send, saveSession_lookup_None in Hsome by exact Hnone.
    discriminate.
  - injection Hexec as <-.
    destruct (start_state clk u id st)
      as [[_ Heq]|(session & Hid & Hst & Heq)]; rewrite Heq in Hsome;
      [congruence|].
    rewrite saveSession_lookup_None in Hsome by exact Hnone. discriminate.
  - injection Hexec as <-.
    destruct (endSession_state clk u id n st)
      as [[_ Heq]|(session & Hid & Hst & Heq & _)]; rewrite Heq in Hsome;
      [congruence|].
    rewrite saveSession_lookup_None in Hsome by exact Hnone. discriminate.
  - injection Hexec as <-. unfold reminderSweep in Hsome.
    rewrite remindAll_sessions_None in Hsome by exact Hnone. discriminate.
Qed.

Lemma reminderCount_snoc_other (id : nat) (mail : list Event) (e : Event) :
  e <> ReminderNotice id ->
  reminderCount id (mail ++ [e]) = reminderCount id mail.
Proof.
  intros He. rewrite reminderCount_app. unfold reminderCount at 2.
  rewrite count_occ_cons_neq by exact He. simpl. lia.
Qed.

(** One operation sends at most one reminder for a session, and only
    the sweep does, for a session whose flag it finds cleared and leaves
    set. *)
Lemma exec_reminders (clk : nat -> Z) (op : Op) (st st' : State) (id : nat) :
  exec clk op st = Some st' ->
  reminderCount id (outbox st') = reminderCount id (outbox st)
  \/ (reminderCount id (outbox st') = S (reminderCount id (outbox st))
      /\ exists s s',
           sessions st !! id = Some s /\ sent (reminders s) = false
           /\ sessions st' !! id = Some s' /\ sent (reminders s') = true).
Proof.
  intros Hexec.
  destruct op as [fuel u req|u j req|u j r|u j|u j n|]; simpl in Hexec.
  - destruct (book fuel clk u req st) as [[reply st0]|] eqn:Hb;
      [|discriminate]. injection Hexec as ->.
    apply book_state in Hb as [[_ ->]|(_ & created & _ & ->)];
      [left; reflexivity|].
    left. simpl. apply reminderCount_snoc_other. discriminate.
  - injection Hexec as <-.
    destruct (reschedule_state clk u j req st)
      as [[_ ->]|(session & Hid & Hst & ->)]; [left; reflexivity|].
    left. simpl. apply reminderCount_snoc_other. discriminate.
  - injection Hexec as <-.
    destruct (cancel_state clk u j r st)
      as [[_ ->]|(session & Hid & Hst & ->)]; [left; reflexivity|].
    left. simpl. apply reminderCount_snoc_other. discriminate.
  - injection Hexec as <-.
    destruct (start_state clk u j st)
      as [[_ ->]|(session & Hid & Hst & ->)]; left; reflexivity.
  - injection Hexec as <-.
    destruct (endSession_state clk u j n st)
      as [[_ ->]|(session & Hid & Hst & _ & ->)]; left; reflexivity.
  - injection Hexec as <-. unfold reminderSweep.
    set (docs := find (reminderQuery (clk 1%nat)
                         (clk 0%nat + 24 * 60 * 60 * 1000)) (sessions st)).
    destruct (remindAll_outbox clk docs 2 st) as [-> _].
    rewrite reminderCount_app,
      (reminderCount_selected id docs (find_NoDup _ _)).
    case_bool_decide as Hin; [right | left; lia].
    split; [lia|].
    apply list_elem_of_In in Hin as Hin'.
    apply in_map_iff in Hin' as ([i s] & Hfst & Hdoc). simpl in Hfst. subst i.
    apply find_spec in Hdoc as [Hs Hq].
    apply reminderQuery_spec in Hq as (_ & _ & Hflag).
    destruct (remindAll_sessions clk docs 2 st id s Hs)
      as (s' & Hs' & _ & Hset & _).
    exists s, s'. repeat split; auto.
    apply Hset, list_elem_of_In, Hin.
Qed.

(** A property of a session that no [transition] undoes holds for good. *)
Lemma run_stable (P : Session -> Prop) :
  (forall s s', transition s s' -> P s -> P s') ->
  forall (ops : list ((nat -> Z) * Op)) (st st' : State) (j : nat)
         (s : Session),
  run ops st = Some st' ->
  sessions st !! j = Some s -> P s ->
  exists s', sessions st' !! j = Some s' /\ P s'.
Proof.
  intros Hstable ops.
  induction ops as [|[clk op] rest IH]; intros st st' j s Hrun Hj HP.
  - injection Hrun as <-. eauto.
  - simpl in Hrun. destruct (exec clk op st) as [st1|] eqn:Hexec;
      [|discriminate].
    destruct (exec_transition _ _ _ _ _ _ Hexec Hj) as (s1 & Hj1 & Ht).
    eapply IH; eauto.
Qed.

Lemma completed_stable (s s' : Session) :
  transition s s' -> status s = completed -> status s' = completed.
Proof.
  intros (_ & _ & _ & [Heq|[[Hin _]|[Hon _]]]) Hc.
  - congruence.
  - rewrite Hc in Hin. apply in_scheduled_confirmed in Hin as [|];
      discriminate.
  - congruence.
Qed.

Lemma reminded_stable (s s' : Session) :
  transition s s' -> sent (reminders s) = true -> sent (reminders s') = true.
Proof. intros (_ & _ & H & _). exact H. Qed.

Lemma confirmed_not_assigned (s s' : Session) :
  transition s s' -> status s' = confirmed -> status s = confirmed.
Proof.
  intros (_ & _ & _ & [Heq|[[_ Hin]|[_ Hc]]]) Hconf.
  - congruence.
  - rewrite Hconf in Hin.
    rewrite !elem_of_cons, elem_of_nil in Hin.
    destruct Hin as [|[|[|[]]]]; discriminate.
  - congruence.
Qed.

(** The lifecycle operations refuse a completed session. *)
Lemma completed_refused (st : State) (id : nat) (s : Session) :
  sessions st !! id = Some s ->
  status s = completed ->
  forall (clk : nat -> Z) (u : nat) (req : RescheduleReq) (r : string)
         (n : option string),
    (succeeded (fst (reschedule clk u id req st)) = false
     /\ snd (reschedule clk u id req st) = st)
    /\ (succeeded (fst (cancel clk u id r st)) = false
        /\ snd (cancel clk u id r st) = st)
    /\ (succeeded (fst (start clk u id st)) = false
        /\ snd (start clk u id st) = st)
    /\ (succeeded (fst (endSession clk u id n st)) = false
        /\ snd (endSession clk u id n st) = st).
Proof.
  intros Hs Hc clk u req r n.
  assert (Hnot : ~ status s ∈ [scheduled; confirmed]).
  { rewrite Hc, in_scheduled_confirmed. intros [|]; discriminate. }
  split; [|split; [|split]].
  - destruct (reschedule_state clk u id req st)
      as [H|(session & Hid & Hst & _)]; [exact H|].
    rewrite Hs in Hid. injection Hid as <-. contradiction.
  - destruct (cancel_state clk u id r st)
      as [H|(session & Hid & Hst & _)]; [exact H|].
    rewrite Hs in Hid. injection Hid as <-. contradiction.
  - destruct (start_state clk u id st)
      as [H|(session & Hid & Hst & _)]; [exact H|].
    rewrite Hs in Hid. injection Hid as <-. contradiction.
  - destruct (endSession_state clk u id n st)
      as [H|(session & Hid & Hst & _)]; [exact H|].
    rewrite Hs in Hid. injection Hid as <-. congruence.
Qed.

(** C6.  End fails, changing nothing, unless the status is ongoing.  On
    an ongoing session End succeeds for its student or its tutor when
    the note passes the validator.  A successful End leaves the session
    completed with its actual end set to the time read, and reports the
    duration actual end minus actual start.  Completed is final: after
    any further run of operations the session is still completed, and
    Reschedule, Cancel, Start and End all fail on it. *)
Theorem end_requires_ongoing_and_completed_is_final :
  (forall (clk : nat -> Z) (u id : nat) (n : option string) (st : State)
          (s : Session),
     sessions st !! id = Some s ->
     status s <> ongoing ->
     succeeded (fst (endSession clk u id n st)) = false
     /\ snd (endSession clk u id n st) = st)
  /\ (forall (clk : nat -> Z) (u id : nat) (n : option string) (st : State)
             (s : Session),
        sessions st !! id = Some s ->
        status s = ongoing ->
        isParticipant u s = true ->
        optionalMax 1000 n = true ->
        exists (body : EndBody) (st' : State) (s' : Session),
          endSession clk u id n st = (Ok body, st')
          /\ sessions st' !! id = Some s'
          /\ status s' = completed
          /\ actualEnd s' = Some (clk 0%nat)
          /\ ebDuration body = actualDuration s'
          /\ (forall a, actualStart s = Some a ->
                ebDuration body = Some (clk 0%nat - a))
          /\ forall (ops : list ((nat -> Z) * Op)) (st'' : State),
               run ops st' = Some st'' ->
               (exists s'',
                  sessions st'' !! id = Some s'' /\ status s'' = completed)
               /\ forall (clk' : nat -> Z) (v : nat) (req : RescheduleReq)
                         (r : string) (n' : option string),
                    succeeded (fst (reschedule clk' v id req st'')) = false
                    /\ succeeded (fst (cancel clk' v id r st'')) = false
                    /\ succeeded (fst (start clk' v id st'')) = false
                    /\ succeeded (fst (endSession clk' v id n' st'')) = false)
  /\ (forall (clk : nat -> Z) (u id : nat) (n : option string)
             (st st' : State) (body : EndBody),
        endSession clk u id n st = (Ok body, st') ->
        exists s s',
          sessions st !! id = Some s /\ status s = ongoing
          /\ sessions st' !! id = Some s'
          /\ status s' = completed
          /\ actualEnd s' = Some (clk 0%nat)
          /\ actualStart s' = actualStart s
          /\ ebStatus body = completed
          /\ ebActualEnd body = actualEnd s'
          /\ ebDuration body = actualDuration s'
          /\ (forall a, actualStart s = Some a ->
                ebDuration body = Some (clk 0%nat - a)))
  /\ (forall (st : State) (id : nat) (s : Session),
        sessions st !! id = Some s ->
        status s = completed ->
        forall (ops : list ((nat -> Z) * Op)) (st' : State),
          run ops st = Some st' ->
          (exists s', sessions st' !! id = Some s' /\ status s' = completed)
          /\ forall (clk : nat -> Z) (u : nat) (req : RescheduleReq)
                    (r : string) (n : option string),
               succeeded (fst (reschedule clk u id req st')) = false
               /\ succeeded (fst (cancel clk u id r st')) = false
               /\ succeeded (fst (start clk u id st')) = false
               /\ succeeded (fst (endSession clk u id n st')) = false).
Proof.
  assert (Hfinal :
            forall (st : State) (id : nat) (s : Session),
              sessions st !! id = Some s ->
              status s = completed ->
              forall (ops : list ((nat -> Z) * Op)) (st' : State),
                run ops st = Some st' ->
                (exists s',
                   sessions st' !! id = Some s' /\ status s' = completed)
                /\ forall (clk : nat -> Z) (u : nat) (req : RescheduleReq)
                          (r : string) (n : option string),
                     succeeded (fst (reschedule clk u id req st')) = false
                     /\ succeeded (fst (cancel clk u id r st')) = false
                     /\ succeeded (fst (start clk u id st')) = false
                     /\ succeeded (fst (endSession clk u id n st')) = false).
  { intros st id s Hs Hc ops st' Hrun.
    destruct (run_stable (fun x => status x = completed) completed_stable
                ops st st' id s Hrun Hs Hc) as (s' & Hs' & Hc').
    split; [eauto|]. intros clk u req r n.
    destruct (completed_refused st' id s' Hs' Hc' clk u req r n)
      as ([H1 _] & [H2 _] & [H3 _] & [H4 _]).
    auto. }
  split; [|split; [|split; [|exact Hfinal]]].
  - intros clk u id n st s Hs Hst.
    destruct (endSession_state clk u id n st)
      as [H|(session & Hid & Hon & _)]; [exact H|].
    rewrite Hs in Hid. injection Hid as <-. contradiction.
  - intros clk u id n st s Hs Hon Hp Hn.
    rewrite endSession_effect, Hn, Hs, Hp.
    rewrite (bool_decide_eq_true_2 _ Hon). simpl negb. cbv iota zeta.
    destruct (ended_fields (clk 0%nat) (bool_decide (student s = u))
                (trim <$> n) s) as (E1 & E2 & E3 & _).
    set (assign := ended (clk 0%nat) (bool_decide (student s = u))
                     (trim <$> n)) in *.
    assert (Hs' : sessions
                    (with_users (updateUserStats (assign s) (users st))
                       (saveSession id assign st)) !! id
                  = Some (assign s)).
    { rewrite sessions_with_users. apply lookup_saveSession_eq, Hs. }
    eexists _, _, (assign s). split; [reflexivity|].
    split; [exact Hs'|]. split; [exact E1|]. split; [exact E2|].
    split; [reflexivity|]. split.
    + intros a Ha. simpl. unfold actualDuration. rewrite E2, E3, Ha.
      reflexivity.
    + intros ops st'' Hrun. exact (Hfinal _ id (assign s) Hs' E1 ops st'' Hrun).
  - intros clk u id n st st' body Hend.
    rewrite endSession_effect in Hend.
    destruct (negb (optionalMax 1000 n)); [discriminate|].
    destruct (sessions st !! id) as [s|] eqn:Hs; [|discriminate].
    destruct (negb (isParticipant u s)); [discriminate|].
    case_bool_decide as Hon; simpl negb in Hend; cbv iota in Hend;
      [|discriminate].
    cbv zeta in Hend. injection Hend as <- <-.
    destruct (ended_fields (clk 0%nat) (bool_decide (student s = u))
                (trim <$> n) s) as (E1 & E2 & E3 & _).
    eexists s, _. split; [reflexivity|]. split; [exact Hon|].
    split; [rewrite sessions_with_users; apply lookup_saveSession_eq, Hs|].
    repeat split; auto.
    intros a Ha. simpl. unfold actualDuration. rewrite E2, E3, Ha.
    reflexivity.
Qed.

(** A session is booked, started a minute early, ended after an hour,
    and then refuses every further operation. *)
Example lifecycle_of_one_session :
  let req :=
    Sample.request 2 (utc 2025 1 6 10 0) (utc 2025 1 6 11 0) None in
  let ops :=
    [ (Sample.at_ (utc 2025 1 1 0 0), OpBook 1 1 req);
      (Sample.at_ (utc 2025 1 6 9 59), OpStart 2 0);
      (Sample.at_ (utc 2025 1 6 10 59), OpEnd 2 0 (Some "well done")) ] in
  exists st' s',
    run ops (initial Sample.directory) = Some st'
    /\ sessions st' !! 0%nat = Some s'
    /\ status s' = completed
    /\ actualDuration s' = Some (60 * msPerMinute)
    /\ notesTutor (notes s') = Some "well done"%string
    /\ fst (start (Sample.at_ (utc 2025 1 6 11 0)) 2 0 st')
       = BadRequest "Session cannot be started"
    /\ fst (cancel (Sample.at_ (utc 2025 1 6 11 0)) 1 0 "too late" st')
       = BadRequest "Session cannot be cancelled"
    /\ fst (endSession (Sample.at_ (utc 2025 1 6 11 0)) 1 0 None st')
       = BadRequest "Session is not ongoing".
Proof.
  eexists _, _. split; [vm_compute; reflexivity|].
  split; [vm_compute; reflexivity|].
  repeat split; vm_compute; reflexivity.
Qed.

(** ** Reminders *)

Lemma run_reminded (ops : list ((nat -> Z) * Op)) :
  forall (st st' : State) (id : nat) (s : Session),
  run ops st = Some st' ->
  sessions st !! id = Some s ->
  sent (reminders s) = true ->
  reminderCount id (outbox st') = reminderCount id (outbox st).
Proof.
  induction ops as [|[clk op] rest IH]; intros st st' id s Hrun Hs Hflag.
  - injection Hrun as <-. reflexivity.
  - simpl in Hrun. destruct (exec clk op st) as [st1|] eqn:Hexec;
      [|discriminate].
    destruct (exec_transition _ _ _ _ _ _ Hexec Hs) as (s1 & Hs1 & Ht).
    rewrite (IH _ _ _ _ Hrun Hs1 (reminded_stable _ _ Ht Hflag)).
    destruct (exec_reminders _ _ _ _ id Hexec)
      as [Heq|(_ & s0 & _ & Hs0 & Hclear & _)]; [exact Heq|].
    congruence.
Qed.

Lemma exec_remindedAtMostOnce (clk : nat -> Z) (op : Op) (st st' : State) :
  exec clk op st = Some st' ->
  remindedAtMostOnce st -> remindedAtMostOnce st'.
Proof.
  intros Hexec Hinv id. destruct (Hinv id) as [Hle Hone].
  destruct (exec_reminders _ _ _ _ id Hexec)
    as [Heq|(Hsucc & s & s' & Hs & Hclear & Hs' & Hset)].
  - rewrite Heq. split; [exact Hle|]. intros H1.
    destruct (Hone H1) as (s & Hs & Hflag).
    destruct (exec_transition _ _ _ _ _ _ Hexec Hs) as (s' & Hs' & Ht).
    exists s'. split; [exact Hs' | exact (reminded_stable _ _ Ht Hflag)].
  - assert (reminderCount id (outbox st) = 0%nat) as Hzero.
    { destruct (reminderCount id (outbox st)) as [|[|k]]; [reflexivity| |lia].
      destruct (Hone eq_refl) as (s0 & Hs0 & Hflag). congruence. }
    rewrite Hsucc, Hzero. split; [lia|]. intros _. eauto.
Qed.

Lemma run_remindedAtMostOnce (ops : list ((nat -> Z) * Op)) :
  forall st st' : State,
  run ops st = Some st' ->
  remindedAtMostOnce st -> remindedAtMostOnce st'.
Proof.
  induction ops as [|[clk op] rest IH]; intros st st' Hrun Hinv.
  - injection Hrun as <-. exact Hinv.
  - simpl in Hrun. destruct (exec clk op st) as [st1|] eqn:Hexec;
      [|discriminate].
    eapply IH; eauto using exec_remindedAtMostOnce.
Qed.

(** C8.  One run of the sweep sends a reminder exactly for the sessions
    whose scheduled start lies between the time read for the query and 24
    hours after the time read first, whose status is scheduled or
    confirmed and whose reminder-sent flag is false; it sets the flag of
    each of them with a time stamp and leaves the other sessions alone.
    Once the flag of a session is set, no run of operations sends a
    reminder for it again, and from the empty store no session is ever
    reminded twice. *)
Theorem reminder_sweep_selects_marks_and_never_repeats :
  (forall (clk : nat -> Z) (st : State),
     let selected :=
       find (reminderQuery (clk 1%nat) (clk 0%nat + 24 * 60 * 60 * 1000))
         (sessions st) in
     outbox (reminderSweep clk st)
     = outbox st ++ map (fun d => ReminderNotice (fst d)) selected
     /\ (forall id s,
           In (id, s) selected
           <-> sessions st !! id = Some s
               /\ clk 1%nat <= scheduledStart s <= clk 0%nat + 24 * msPerHour
               /\ status s ∈ [scheduled; confirmed]
               /\ sent (reminders s) = false)
     /\ (forall id s,
           In (id, s) selected ->
           exists s' n,
             sessions (reminderSweep clk st) !! id = Some s'
             /\ sent (reminders s') = true
             /\ sentAt (reminders s') = Some (clk n) /\ (2 <= n)%nat)
     /\ (forall id s,
           sessions st !! id = Some s ->
           ~ In id (map fst selected) ->
           sessions (reminderSweep clk st) !! id = Some s)
     /\ (forall id,
           (reminderCount id (outbox (reminderSweep clk st))
            <= S (reminderCount id (outbox st)))%nat))
  /\ (forall (st : State) (id : nat) (s : Session),
        sessions st !! id = Some s ->
        sent (reminders s) = true ->
        forall (ops : list ((nat -> Z) * Op)) (st' : State),
          run ops st = Some st' ->
          reminderCount id (outbox st') = reminderCount id (outbox st))
  /\ (forall (directory : gmap nat User) (ops : list ((nat -> Z) * Op))
             (st' : State) (id : nat),
        run ops (initial directory) = Some st' ->
        (reminderCount id (outbox st') <= 1)%nat).
Proof.
  split; [|split].
  - intros clk st selected.
    assert (Hcount :
      forall id,
        (reminderCount id (outbox (reminderSweep clk st))
         <= S (reminderCount id (outbox st)))%nat).
    { intros id.
      destruct (exec_reminders clk OpSweep st (reminderSweep clk st) id
                  eq_refl) as [Heq|[Heq _]]; rewrite Heq; lia. }
    unfold reminderSweep in *. fold selected in Hcount |- *.
    split; [apply remindAll_outbox|]. split; [|split; [|split]].
    + intros id s. subst selected.
      rewrite find_spec, reminderQuery_spec. unfold msPerHour.
      replace (24 * (1000 * 60 * 60)) with (24 * 60 * 60 * 1000) by lia.
      tauto.
    + intros id s Hin.
      assert (Hs : sessions st !! id = Some s)
        by (apply find_spec in Hin as [Hs _]; exact Hs).
      destruct (remindAll_sessions clk selected 2 st id s Hs)
        as (s' & Hs' & _ & Hset & _).
      destruct Hset as (Hflag & n & Hn & Hat).
      { apply in_map_iff. exists (id, s). auto. }
      exists s', n. auto.
    + intros id s Hs Hnot.
      destruct (remindAll_sessions clk selected 2 st id s Hs)
        as (s' & Hs' & _ & _ & Hsame).
      rewrite Hs', (Hsame Hnot). reflexivity.
    + exact Hcount.
  - intros st id s Hs Hflag ops st' Hrun.
    exact (run_reminded ops st st' id s Hrun Hs Hflag).
  - intros directory ops st' id Hrun.
    apply (run_remindedAtMostOnce ops (initial directory) st' Hrun).
    intros id'. unfold reminderCount. simpl. split; [lia | discriminate].
Qed.

(** Two sweeps in a row: the second one sends nothing for the session
    the first one reminded. *)
Example second_sweep_is_silent :
  let st :=
    Sample.store
      [Sample.session 1 2 (utc 2025 1 6 10 0) (utc 2025 1 6 11 0) scheduled
         false] in
  let clk := Sample.at_ (utc 2025 1 5 12 0) in
  outbox (reminderSweep clk st) = [ReminderNotice 0]
  /\ outbox (reminderSweep clk (reminderSweep clk st)) = [ReminderNotice 0]
  /\ (reminders <$> sessions (reminderSweep clk st) !! 0%nat)
     = Some {| sent := true; sentAt := Some (utc 2025 1 5 12 0) |}.
Proof. repeat split; vm_compute; reflexivity. Qed.

(** ** The confirmed status *)

Lemma run_unconfirmed (ops : list ((nat -> Z) * Op)) :
  forall st st' : State,
  run ops st = Some st' ->
  (forall id s, sessions st !! id = Some s -> status s <> confirmed) ->
  forall id s', sessions st' !! id = Some s' -> status s' <> confirmed.
Proof.
  induction ops as [|[clk op] rest IH]; intros st st' Hrun Hinv.
  - injection Hrun as <-. exact Hinv.
  - simpl in Hrun. destruct (exec clk op st) as [st1|] eqn:Hexec;
      [|discriminate].
    apply (IH st1 st' Hrun). intros id s1 Hs1 Hconf.
    destruct (sessions st !! id) as [s|] eqn:Hs.
    + destruct (exec_transition _ _ _ _ _ _ Hexec Hs) as (s1' & Hs1' & Ht).
      rewrite Hs1 in Hs1'. injection Hs1' as <-.
      exact (Hinv id s Hs (confirmed_not_assigned _ _ Ht Hconf)).
    + destruct (exec_fresh _ _ _ _ _ _ Hexec Hs Hs1) as (Hsch & _).
      congruence.
Qed.

(** C9.  No operation assigns the status confirmed: a session that is
    confirmed after an operation was confirmed before it, so from the
    empty store no session is ever confirmed.  Book creates sessions as
    scheduled, Reschedule sets scheduled, Cancel sets cancelled, Start
    sets ongoing and End sets completed.  The guards of Reschedule,
    Cancel and Start nevertheless accept a confirmed session. *)
Theorem no_operation_assigns_confirmed :
  (forall (clk : nat -> Z) (op : Op) (st st' : State) (id : nat)
          (s' : Session),
     exec clk op st = Some st' ->
     sessions st' !! id = Some s' ->
     status s' = confirmed ->
     exists s, sessions st !! id = Some s /\ status s = confirmed)
  /\ (forall (directory : gmap nat User) (ops : list ((nat -> Z) * Op))
             (st' : State) (id : nat) (s' : Session),
        run ops (initial directory) = Some st' ->
        sessions st' !! id = Some s' ->
        status s' <> confirmed)
  /\ (forall (fuel : nat) (clk : nat -> Z) (u : nat) (req : BookReq)
             (st st' : State) (reply : Reply (list Summary)) (id : nat)
             (s' : Session),
        book fuel clk u req st = Some (reply, st') ->
        sessions st !! id = None ->
        sessions st' !! id = Some s' ->
        status s' = scheduled)
  /\ (forall (clk : nat -> Z) (u id : nat) (st : State) (s' : Session),
        (forall req,
           succeeded (fst (reschedule clk u id req st)) = true ->
           sessions (snd (reschedule clk u id req st)) !! id = Some s' ->
           status s' = scheduled)
        /\ (forall r,
              succeeded (fst (cancel clk u id r st)) = true ->
              sessions (snd (cancel clk u id r st)) !! id = Some s' ->
              status s' = cancelled)
        /\ (succeeded (fst (start clk u id st)) = true ->
            sessions (snd (start clk u id st)) !! id = Some s' ->
            status s' = ongoing)
        /\ (forall n,
              succeeded (fst (endSession clk u id n st)) = true ->
              sessions (snd (endSession clk u id n st)) !! id = Some s' ->
              status s' = completed))
  /\ (let st :=
        Sample.store
          [Sample.session 1 2 (utc 2025 1 6 10 0) (utc 2025 1 6 11 0)
             confirmed false] in
      let clk := Sample.at_ (utc 2025 1 6 9 50) in
      succeeded
        (fst (reschedule clk 1 0
                {| newScheduledStart := utc 2025 1 13 10 0;
                   newScheduledEnd := utc 2025 1 13 11 0;
                   rescheduleReason := None |} st)) = true
      /\ succeeded (fst (cancel clk 1 0 "ill" st)) = true
      /\ succeeded (fst (start clk 1 0 st)) = true).
Proof.
  split; [|split; [|split; [|split]]].
  - intros clk op st st' id s' Hexec Hs' Hconf.
    destruct (sessions st !! id) as [s|] eqn:Hs.
    + destruct (exec_transition _ _ _ _ _ _ Hexec Hs) as (s1 & Hs1 & Ht).
      rewrite Hs' in Hs1. injection Hs1 as <-.
      exists s. split; [reflexivity|].
      exact (confirmed_not_assigned _ _ Ht Hconf).
    + destruct (exec_fresh _ _ _ _ _ _ Hexec Hs Hs') as (Hsch & _).
      congruence.
  - intros directory ops st' id s' Hrun Hs'.
    apply (run_unconfirmed ops (initial directory) st' Hrun) with (id := id);
      [|exact Hs'].
    intros j s Hj. simpl in Hj. rewrite lookup_nil in Hj. discriminate.
  - intros fuel clk u req st st' reply id s' Hbook Hnone Hs'.
    assert (Hexec : exec clk (OpBook fuel u req) st = Some st')
      by (simpl; rewrite Hbook; reflexivity).
    destruct (exec_fresh _ _ _ _ _ _ Hexec Hnone Hs') as (Hsch & _).
    exact Hsch.
  - intros clk u id st s'. split; [|split; [|split]].
    + intros req Hok Hs'.
      destruct (reschedule_state clk u id req st)
        as [[Hfail _]|(session & Hid & _ & Heq)]; [congruence|].
      rewrite Heq, sessions_send,
        (lookup_saveSession_eq _ _ _ _ Hid) in Hs'.
      injection Hs' as <-. reflexivity.
    + intros r Hok Hs'.
      destruct (cancel_state clk u id r st)
        as [[Hfail _]|(session & Hid & _ & Heq)]; [congruence|].
      rewrite Heq, sessions_send,
        (lookup_saveSession_eq _ _ _ _ Hid) in Hs'.
      injection Hs' as <-. unfold cancelledWith.
      destruct (_ <? _); reflexivity.
    + intros Hok Hs'.
      destruct (start_state clk u id st)
        as [[Hfail _]|(session & Hid & _ & Heq)]; [congruence|].
      rewrite Heq, (lookup_saveSession_eq _ _ _ _ Hid) in Hs'.
      injection Hs' as <-. reflexivity.
    + intros n Hok Hs'.
      destruct (endSession_state clk u id n st)
        as [[Hfail _]|(session & Hid & _ & Heq & _)]; [congruence|].
      rewrite Heq, (lookup_saveSession_eq _ _ _ _ Hid) in Hs'.
      injection Hs' as <-. apply ended_fields.
  - repeat split; vm_compute; reflexivity.
Qed.

(** ** Availability: the comparison of times as texts *)

Lemma digit_cases (x : Z) :
  0 <= x <= 9 ->
  x = 0 \/ x = 1 \/ x = 2 \/ x = 3 \/ x = 4 \/ x = 5 \/ x = 6 \/ x = 7
  \/ x = 8 \/ x = 9.
Proof. lia. Qed.

(** Digits compare as characters the way they compare as numbers. *)
Lemma digit_compare (x y : Z) :
  0 <= x <= 9 -> 0 <= y <= 9 ->
  Ascii.compare (digit x) (digit y) = (x ?= y).
Proof.
  intros Hx Hy. apply digit_cases in Hx. apply digit_cases in Hy.
  decompose [or] Hx; decompose [or] Hy; subst; reflexivity.
Qed.

Lemma digitValue_digit (c : ascii) (a : Z) :
  digitValue c = Some a -> c = digit a /\ 0 <= a <= 9.
Proof.
  unfold digitValue, digit. cbv zeta.
  destruct (Z.leb_spec 48 (Z.of_nat (nat_of_ascii c))); cbn [andb];
    [|discriminate].
  destruct (Z.leb_spec (Z.of_nat (nat_of_ascii c)) 57); [|discriminate].
  intros [= <-]. split; [|lia].
  assert (Hn : (48 + Z.to_nat (Z.of_nat (nat_of_ascii c) - 48))%nat
               = nat_of_ascii c) by lia.
  rewrite Hn. symmetry. apply ascii_nat_embedding.
Qed.

Lemma two_digits_of_digits (a b : Z) :
  0 <= a <= 9 -> 0 <= b <= 9 ->
  two_digits (a * 10 + b)
  = String (digit a) (String (digit b) EmptyString).
Proof.
  intros Ha Hb. unfold two_digits.
  replace ((a * 10 + b) / 10) with a by zdiv.
  replace ((a * 10 + b) mod 10) with b by zdiv.
  reflexivity.
Qed.

Lemma parseHHmm_text (s : string) (h m : Z) :
  parseHHmm s = Some (h, m) ->
  s = textHHmm h m /\ 0 <= h <= 99 /\ 0 <= m <= 99.
Proof.
  unfold parseHHmm.
  destruct s as [|h1 [|h0 [|sep [|m1 [|m0 [|x r]]]]]]; try discriminate;
    destruct sep as [[] [] [] [] [] [] [] []]; try discriminate.
  destruct (digitValue h1) as [a|] eqn:Ha; [|intros [=]].
  destruct (digitValue h0) as [b|] eqn:Hb; [|intros [=]].
  destruct (digitValue m1) as [c'|] eqn:Hc; [|intros [=]].
  destruct (digitValue m0) as [d|] eqn:Hd; [|intros [=]].
  intros [= <- <-].
  apply digitValue_digit in Ha as [-> Ha], Hb as [-> Hb], Hc as [-> Hc],
    Hd as [-> Hd].
  unfold textHHmm. rewrite !two_digits_of_digits by assumption.
  split; [reflexivity | lia].
Qed.

Lemma textHHmm_chars (h m : Z) :
  textHHmm h m
  = String (digit (h / 10))
      (String (digit (h mod 10))
         (String ":"
            (String (digit (m / 10))
               (String (digit (m mod 10)) EmptyString)))).
Proof. reflexivity. Qed.

(** Two-digit hours and minutes compare as texts the way the pairs
    compare, hour first. *)
Lemma textHHmm_leb (h m h' m' : Z) :
  0 <= h <= 99 -> 0 <= m <= 99 -> 0 <= h' <= 99 -> 0 <= m' <= 99 ->
  String.leb (textHHmm h m) (textHHmm h' m')
  = (h <? h') || ((h =? h') && (m <=? m')).
Proof.
  intros Hh Hm Hh' Hm'. rewrite !textHHmm_chars. unfold String.leb.
  cbn [String.compare].
  rewrite !digit_compare by zdiv.
  change (Ascii.compare ":" ":") with Eq.
  destruct (Z.compare_spec (h / 10) (h' / 10));
    destruct (Z.compare_spec (h mod 10) (h' mod 10));
    destruct (Z.compare_spec (m / 10) (m' / 10));
    destruct (Z.compare_spec (m mod 10) (m' mod 10));
    destruct (Z.ltb_spec h h'); destruct (Z.eqb_spec h h');
    destruct (Z.leb_spec m m'); try reflexivity; exfalso; zdiv.
Qed.

Lemma formatHHmm_text (t : Z) :
  formatHHmm t = textHHmm (hours t) (minutes t)
  /\ 0 <= hours t <= 23 /\ 0 <= minutes t <= 59
  /\ msOfDay t / msPerMinute = hours t * 60 + minutes t.
Proof.
  split; [reflexivity|].
  unfold hours, minutes, msOfDay, msPerHour, msPerMinute, msPerDay. zdiv.
Qed.

(** A window that lies within a well-formed slot is accepted by the
    predicate of the source. *)
Lemma windowWithinSlot_covered (start end_ : Z) (slot : Slot) :
  start < end_ ->
  wellFormedSlot slot = true ->
  windowWithinSlot start end_ slot = true ->
  slotCovers (dayOfWeek start) (formatHHmm start) (formatHHmm end_) slot
  = true.
Proof.
  intros Hwin Hwf Hin. unfold wellFormedSlot, wellFormedTime in Hwf.
  unfold windowWithinSlot in Hin. unfold slotCovers.
  destruct (parseHHmm (startTime slot)) as [[h m]|] eqn:Hs; [|discriminate].
  destruct (parseHHmm (endTime slot)) as [[h' m']|] eqn:He; [|discriminate].
  apply parseHHmm_text in Hs as (-> & Hh & Hm), He as (-> & Hh' & Hm').
  rewrite !andb_true_iff, !Z.ltb_lt in Hwf.
  rewrite !andb_true_iff, !Z.leb_le in Hin.
  destruct Hwf as [[Hh24 Hm60] [Hh24' Hm60']].
  destruct Hin as [[-> Hlo] Hhi].
  destruct (formatHHmm_text start) as (-> & Hhs & Hms & Hs).
  destruct (formatHHmm_text end_) as (-> & Hhe & Hme & He).
  rewrite !textHHmm_leb by lia.
  assert (Hday : epochDay end_ = epochDay start
                 /\ h * 60 + m <= msOfDay start / msPerMinute
                 /\ msOfDay end_ / msPerMinute <= h' * 60 + m').
  { unfold epochDay, msOfDay, msPerDay, msPerMinute in *. zdiv. }
  destruct Hday as (_ & Hlo' & Hhi'). rewrite Hs in Hlo'. rewrite He in Hhi'.
  rewrite !andb_true_iff, !orb_true_iff, !andb_true_iff, !Z.ltb_lt,
    !Z.eqb_eq, !Z.leb_le.
  split; [split; [reflexivity|]|]; lia.
Qed.

(** The availability check never refuses a window that lies within a
    well-formed slot of the tutor: what it gets wrong is accepting too
    much. *)
Lemma window_within_availability_is_accepted (directory : gmap nat User)
    (tutorId : nat) (start end_ : Z) (tutor' : User) :
  directory !! tutorId = Some tutor' ->
  Forall (fun slot => wellFormedSlot slot = true) (availability tutor') ->
  start < end_ ->
  windowWithinAvailability directory tutorId start end_ = true ->
  checkTutorAvailability directory tutorId start end_ = true.
Proof.
  intros Htutor Hwf Hwin. unfold windowWithinAvailability,
    checkTutorAvailability. rewrite Htutor. intros Hex.
  apply existsb_exists in Hex as (slot & Hslot & Hin).
  rewrite Forall_forall in Hwf.
  pose proof (windowWithinSlot_covered start end_ slot Hwin
                (Hwf slot (proj2 (list_elem_of_In _ _) Hslot)) Hin) as Hcov.
  destruct (List.find _ (availability tutor')) eqn:Hfind; [reflexivity|].
  pose proof (find_none _ _ Hfind slot Hslot) as Hnone. congruence.
Qed.

(** ** The checks of a booking *)

(** A request that passes the validators, the window checks and the
    tutor lookup is answered with the conflicts of its own window, if
    there are any. *)
Lemma book_rejects_conflict (fuel : nat) (clk : nat -> Z) (caller : nat)
    (req : BookReq) (st : State) (tutor' : User) :
  (1 <= String.length (trim (reqSubject req)))%nat ->
  reqScheduledStart req < reqScheduledEnd req ->
  clk 0%nat < reqScheduledStart req ->
  users st !! reqTutor req = Some tutor' ->
  role tutor' ∈ [role_tutor; role_both] ->
  checkSchedulingConflicts (sessions st) caller (reqTutor req)
    (reqScheduledStart req) (reqScheduledEnd req) None <> [] ->
  book fuel clk caller req st
  = Some (Conflict "Scheduling conflict detected"
            (checkSchedulingConflicts (sessions st) caller (reqTutor req)
               (reqScheduledStart req) (reqScheduledEnd req) None), st).
Proof.
  intros Hsub Hwin Hfut Htutor Hrole Hconf. unfold book.
  apply Nat.leb_le in Hsub. rewrite Hsub. simpl negb. cbv zeta.
  destruct (Z.leb_spec (reqScheduledEnd req) (reqScheduledStart req));
    [lia|].
  destruct (Z.leb_spec (reqScheduledStart req) (clk 0%nat)); [lia|].
  rewrite Htutor, (bool_decide_eq_true_2 _ Hrole). simpl negb. cbv iota.
  destruct (checkSchedulingConflicts _ _ _ _ _ _); [congruence|].
  reflexivity.
Qed.

Lemma book_rejects_unavailable (fuel : nat) (clk : nat -> Z) (caller : nat)
    (req : BookReq) (st : State) (tutor' : User) :
  (1 <= String.length (trim (reqSubject req)))%nat ->
  reqScheduledStart req < reqScheduledEnd req ->
  clk 0%nat < reqScheduledStart req ->
  users st !! reqTutor req = Some tutor' ->
  role tutor' ∈ [role_tutor; role_both] ->
  checkSchedulingConflicts (sessions st) caller (reqTutor req)
    (reqScheduledStart req) (reqScheduledEnd req) None = [] ->
  checkTutorAvailability (users st) (reqTutor req) (reqScheduledStart req)
    (reqScheduledEnd req) = false ->
  book fuel clk caller req st
  = Some (BadRequest "Tutor is not available at the requested time", st).
Proof.
  intros Hsub Hwin Hfut Htutor Hrole Hconf Havail. unfold book.
  apply Nat.leb_le in Hsub. rewrite Hsub. simpl negb. cbv zeta.
  destruct (Z.leb_spec (reqScheduledEnd req) (reqScheduledStart req));
    [lia|].
  destruct (Z.leb_spec (reqScheduledStart req) (clk 0%nat)); [lia|].
  rewrite Htutor, (bool_decide_eq_true_2 _ Hrole), Hconf, Havail.
  reflexivity.
Qed.

(** Reschedule answers with the conflicts of the new window, the
    session itself excluded. *)
Lemma reschedule_rejects_conflict (clk : nat -> Z) (userId sessionId : nat)
    (req : RescheduleReq) (st : State) (session : Session) :
  sessions st !! sessionId = Some session ->
  isParticipant userId session = true ->
  status session ∈ [scheduled; confirmed] ->
  optionalMax 500 (rescheduleReason req) = true ->
  newScheduledStart req < newScheduledEnd req ->
  clk 0%nat < newScheduledStart req ->
  checkSchedulingConflicts (sessions st) (student session) (tutor session)
    (newScheduledStart req) (newScheduledEnd req) (Some sessionId) <> [] ->
  reschedule clk userId sessionId req st
  = (Conflict "Scheduling conflict detected"
       (checkSchedulingConflicts (sessions st) (student session)
          (tutor session) (newScheduledStart req) (newScheduledEnd req)
          (Some sessionId)), st).
Proof.
  intros Hs Hp Hst Hv Hw Hf Hc. unfold reschedule.
  rewrite Hv, Hs, Hp. simpl negb.
  rewrite bool_decide_eq_true_2 by exact Hst. simpl negb.
  destruct (Z.leb_spec (newScheduledEnd req) (newScheduledStart req)); [lia|].
  destruct (Z.leb_spec (newScheduledStart req) (clk 0%nat)); [lia|].
  cbv zeta.
  destruct (checkSchedulingConflicts _ _ _ _ _ _); [congruence|].
  reflexivity.
Qed.

(** C7.  The availability check accepts windows that are not contained
    in any slot of the tutor.  Tutor 2 is free on Mondays from 09:00 to
    17:00.  A window from Monday 10:00 to Tuesday 11:00, and a window from
    Monday 16:00 to 59 seconds past 17:00, lie in no slot, yet the check
    answers that the tutor is available and the session is booked. *)
Theorem booking_accepts_window_that_leaves_the_slot :
  let overnight :=
    Sample.request 2 (utc 2025 1 6 10 0) (utc 2025 1 7 11 0) None in
  let overrun :=
    Sample.request 2 (utc 2025 1 6 16 0) (utc 2025 1 6 17 0 + 59000) None in
  let st := initial Sample.directory in
  let clk := Sample.at_ (utc 2025 1 1 0 0) in
  (windowWithinAvailability (users st) 2 (utc 2025 1 6 10 0)
     (utc 2025 1 7 11 0) = false
   /\ checkTutorAvailability (users st) 2 (utc 2025 1 6 10 0)
        (utc 2025 1 7 11 0) = true
   /\ fst <$> book 1 clk 1 overnight st
      = Some (Ok [ {| sumId := 0; sumScheduledStart := utc 2025 1 6 10 0;
                      sumScheduledEnd := utc 2025 1 7 11 0;
                      sumStatus := scheduled |} ]))
  /\ (windowWithinAvailability (users st) 2 (utc 2025 1 6 16 0)
        (utc 2025 1 6 17 0 + 59000) = false
      /\ checkTutorAvailability (users st) 2 (utc 2025 1 6 16 0)
           (utc 2025 1 6 17 0 + 59000) = true
      /\ fst <$> book 1 clk 1 overrun st
         = Some (Ok [ {| sumId := 0; sumScheduledStart := utc 2025 1 6 16 0;
                         sumScheduledEnd := utc 2025 1 6 17 0 + 59000;
                         sumStatus := scheduled |} ])).
Proof. repeat split; vm_compute; reflexivity. Qed.

(** A window inside the slot is accepted, one on another day or outside
    the hours is refused. *)
Example availability_of_the_sample_tutor :
  checkTutorAvailability Sample.directory 2 (utc 2025 1 6 9 0)
    (utc 2025 1 6 17 0) = true
  /\ checkTutorAvailability Sample.directory 2 (utc 2025 1 6 8 59)
       (utc 2025 1 6 10 0) = false
  /\ checkTutorAvailability Sample.directory 2 (utc 2025 1 6 16 0)
       (utc 2025 1 6 17 1) = false
  /\ checkTutorAvailability Sample.directory 2 (utc 2025 1 7 10 0)
       (utc 2025 1 7 11 0) = false
  /\ checkTutorAvailability Sample.directory 1 (utc 2025 1 6 10 0)
       (utc 2025 1 6 11 0) = false.
Proof. repeat split; vm_compute; reflexivity. Qed.

(** ** Recurring bookings *)

(** C10.  For a recurring booking that passes the validators, the
    window checks and the tutor lookup, the conflict check and the
    availability check look at the base window only: a conflict of the
    base window or an unavailable base window rejects the booking, and
    otherwise whatever the expander creates is persisted as it is.  With
    enough fuel that is the parent and all its children.  A child that
    overlaps an active session of the tutor, and a child on a day on
    which the tutor has no slot, are persisted all the same. *)
Theorem recurring_children_are_not_checked :
  (forall (fuel : nat) (clk : nat -> Z) (caller : nat) (req : BookReq)
          (st : State) (rec : RecurringReq) (tutor' : User),
     reqRecurring req = Some rec ->
     reqIsRecurring rec = true ->
     (1 <= String.length (trim (reqSubject req)))%nat ->
     reqScheduledStart req < reqScheduledEnd req ->
     clk 0%nat < reqScheduledStart req ->
     users st !! reqTutor req = Some tutor' ->
     role tutor' ∈ [role_tutor; role_both] ->
     validates (newSession (sessionDataOf caller req) (reqScheduledStart req)
                  (reqScheduledEnd req) notRecurring) = true ->
     let conflicts :=
       checkSchedulingConflicts (sessions st) caller (reqTutor req)
         (reqScheduledStart req) (reqScheduledEnd req) None in
     let available :=
       checkTutorAvailability (users st) (reqTutor req)
         (reqScheduledStart req) (reqScheduledEnd req) in
     (conflicts <> [] ->
      book fuel clk caller req st
      = Some (Conflict "Scheduling conflict detected" conflicts, st))
     /\ (conflicts = [] -> available = false ->
         book fuel clk caller req st
         = Some (BadRequest "Tutor is not available at the requested time",
                 st))
     /\ (conflicts = [] -> available = true ->
         book fuel clk caller req st
         = match createRecurringSessions fuel (sessionDataOf caller req) rec
                   (sessions st) with
           | None => None
           | Some (created, _) =>
               Some (Ok (map (fun d => summary (fst d) (snd d)) created),
                     booked (reqType req) created st)
           end)
     /\ (conflicts = [] -> available = true ->
         forall (f : Frequency) (endDate' : Z) (extra : nat),
           rec = {| reqIsRecurring := true; reqFrequency := Some f;
                    reqEndDate := endDate' |} ->
           fuel = (recurrenceFuel (reqScheduledStart req) endDate' + extra)%nat ->
           exists created st',
             createRecurringSessions fuel (sessionDataOf caller req) rec
               (sessions st)
             = Some (created, sessions st ++ map snd created)
             /\ book fuel clk caller req st
                = Some (Ok (map (fun d => summary (fst d) (snd d)) created),
                        st')
             /\ sessions st'
                = sessions st ++ map snd (map (linked (reqType req)) created)))
  /\ (let clk := Sample.at_ (utc 2025 1 1 0 0) in
      let taken :=
        Sample.session 4 2 (utc 2025 1 13 10 0) (utc 2025 1 13 11 0)
          scheduled false in
      let weekly' :=
        Sample.request 2 (utc 2025 1 6 10 0) (utc 2025 1 6 11 0)
          (Some {| reqIsRecurring := true; reqFrequency := Some weekly;
                   reqEndDate := utc 2025 1 27 0 0 |}) in
      let monthly' :=
        Sample.request 2 (utc 2025 1 6 10 0) (utc 2025 1 6 11 0)
          (Some {| reqIsRecurring := true; reqFrequency := Some monthly;
                   reqEndDate := utc 2025 3 1 0 0 |}) in
      (checkSchedulingConflicts [taken] 1 2 (utc 2025 1 13 10 0)
         (utc 2025 1 13 11 0) None = [(0%nat, taken)]
       /\ (fun r => map (fun s => (scheduledStart s, status s))
                      (sessions (snd r)))
          <$> book 10 clk 1 weekly' (Sample.store [taken])
          = Some [ (utc 2025 1 13 10 0, scheduled);
                   (utc 2025 1 6 10 0, scheduled);
                   (utc 2025 1 13 10 0, scheduled);
                   (utc 2025 1 20 10 0, scheduled) ])
      /\ (checkTutorAvailability Sample.directory 2 (utc 2025 2 6 10 0)
            (utc 2025 2 6 11 0) = false
          /\ (fun r => map (fun s => (scheduledStart s, status s))
                         (sessions (snd r)))
             <$> book 10 clk 1 monthly' (initial Sample.directory)
             = Some [ (utc 2025 1 6 10 0, scheduled);
                      (utc 2025 2 6 10 0, scheduled) ])).
Proof.
  split; [|repeat split; vm_compute; reflexivity].
  intros fuel clk caller req st rec tutor' Hrec Hon Hsub Hwin Hfut Htutor
    Hrole Hvalid conflicts available.
  assert (Hcreate :
    createSessions fuel (sessionDataOf caller req) (reqRecurring req)
      (sessions st)
    = createRecurringSessions fuel (sessionDataOf caller req) rec
        (sessions st)).
  { unfold createSessions. rewrite Hrec, Hon. reflexivity. }
  split; [|split; [|split]].
  - intros Hc. eapply book_rejects_conflict; eauto.
  - intros Hc Ha. eapply book_rejects_unavailable; eauto.
  - intros Hc Ha.
    rewrite (book_accepted fuel clk caller req st tutor') by assumption.
    rewrite Hcreate. reflexivity.
  - intros Hc Ha f endDate' extra -> ->.
    rewrite (book_accepted _ clk caller req st tutor') by assumption.
    rewrite Hcreate.
    destruct (createRecurringSessions_series (sessionDataOf caller req) f
                endDate' (sessions st) extra)
      as (n & children & Hrun & _).
    simpl dataScheduledStart in Hrun. rewrite Hrun.
    match type of Hrun with _ = Some (?c, _) => exists c end.
    eexists. split; [reflexivity|]. split; reflexivity.
Qed.

(** * Further properties *)

(** ** The quotient of two integers as a double *)

Lemma shiftUp_nonneg (x k : Z) : 0 <= k -> shiftUp x k = x * 2 ^ k.
Proof. intros H. unfold shiftUp. rewrite Z.max_r by lia. reflexivity. Qed.

Lemma shiftUp_neg (x k : Z) : k <= 0 -> shiftUp x k = x.
Proof. intros H. unfold shiftUp. rewrite Z.max_l by lia. simpl. lia. Qed.

Lemma scaledLe_shift (j d q p : Z) :
  0 < q -> 0 < p -> 0 <= d ->
  scaledLe j q p -> shiftUp (2 ^ d * q) (j - d) <= shiftUp p (d - j).
Proof.
  intros Hq Hp Hd. unfold scaledLe.
  assert (Hpow : forall a b, 0 <= a -> 0 <= b -> 2 ^ (a + b) = 2 ^ a * 2 ^ b)
    by (intros; apply Z.pow_add_r; lia).
  assert (Hpos : forall a, 0 <= a -> 0 < 2 ^ a)
    by (intros; apply Z.pow_pos_nonneg; lia).
  destruct (Z.le_gt_cases 0 j) as [Hj|Hj].
  - rewrite (shiftUp_nonneg q j), (shiftUp_neg p (- j)) by lia. intros H.
    destruct (Z.le_gt_cases d j) as [Hdj|Hdj].
    + rewrite (shiftUp_nonneg (2 ^ d * q)), (shiftUp_neg p) by lia.
      replace j with (d + (j - d)) in H by lia.
      rewrite Hpow in H by lia. lia.
    + rewrite (shiftUp_neg (2 ^ d * q)), (shiftUp_nonneg p) by lia.
      replace d with (j + (d - j)) at 1 by lia.
      rewrite Hpow by lia.
      pose proof (Hpos (d - j) ltac:(lia)). nia.
  - rewrite (shiftUp_neg q j), (shiftUp_nonneg p (- j)) by lia. intros H.
    rewrite (shiftUp_neg (2 ^ d * q)), (shiftUp_nonneg p) by lia.
    replace (d - j) with (d + - j) by lia. rewrite Hpow by lia.
    pose proof (Hpos d Hd). nia.
Qed.

Lemma scaledLt_shift (j d q p : Z) :
  0 < q -> 0 < p -> 0 <= d ->
  scaledLt j p q -> shiftUp p (d - j) < shiftUp (2 ^ d * q) (j - d).
Proof.
  intros Hq Hp Hd. unfold scaledLt.
  assert (Hpow : forall a b, 0 <= a -> 0 <= b -> 2 ^ (a + b) = 2 ^ a * 2 ^ b)
    by (intros; apply Z.pow_add_r; lia).
  assert (Hpos : forall a, 0 <= a -> 0 < 2 ^ a)
    by (intros; apply Z.pow_pos_nonneg; lia).
  destruct (Z.le_gt_cases 0 j) as [Hj|Hj].
  - rewrite (shiftUp_nonneg q j), (shiftUp_neg p (- j)) by lia. intros H.
    destruct (Z.le_gt_cases d j) as [Hdj|Hdj].
    + rewrite (shiftUp_nonneg (2 ^ d * q)), (shiftUp_neg p) by lia.
      replace j with (d + (j - d)) in H by lia.
      rewrite Hpow in H by lia. lia.
    + rewrite (shiftUp_neg (2 ^ d * q)), (shiftUp_nonneg p) by lia.
      replace d with (j + (d - j)) at 2 by lia.
      rewrite Hpow by lia.
      pose proof (Hpos (d - j) ltac:(lia)). nia.
  - rewrite (shiftUp_neg q j), (shiftUp_nonneg p (- j)) by lia. intros H.
    rewrite (shiftUp_neg (2 ^ d * q)), (shiftUp_nonneg p) by lia.
    replace (d - j) with (d + - j) by lia. rewrite Hpow by lia.
    pose proof (Hpos d Hd). nia.
Qed.

(** The exponent [divDouble] chooses brackets the quotient. *)
Lemma divDouble_exponent (p q : Z) :
  0 < p -> 0 < q ->
  let e0 := Z.log2 p - Z.log2 q in
  let e := if shiftUp p (- e0) <? shiftUp q e0 then e0 - 1 else e0 in
  scaledLe e q p /\ scaledLt (e + 1) p q.
Proof.
  intros Hp Hq e0 e.
  destruct (Z.log2_spec p Hp) as [Hp1 Hp2].
  destruct (Z.log2_spec q Hq) as [Hq1 Hq2].
  pose proof (Z.log2_nonneg p) as Hlp. pose proof (Z.log2_nonneg q) as Hlq.
  set (lp := Z.log2 p) in *. set (lq := Z.log2 q) in *.
  assert (Hpow : forall a b, 0 <= a -> 0 <= b -> 2 ^ (a + b) = 2 ^ a * 2 ^ b)
    by (intros; apply Z.pow_add_r; lia).
  assert (Hpos : forall a, 0 <= a -> 0 < 2 ^ a)
    by (intros; apply Z.pow_pos_nonneg; lia).
  rewrite (Z.pow_succ_r 2 lp) in Hp2 by lia.
  rewrite (Z.pow_succ_r 2 lq) in Hq2 by lia.
  assert (Hlow : scaledLe (e0 - 1) q p).
  { unfold scaledLe. subst e0.
    destruct (Z.le_gt_cases 0 (lp - lq - 1)) as [Hj|Hj].
    - rewrite shiftUp_nonneg, shiftUp_neg by lia.
      replace lp with (lq + 1 + (lp - lq - 1)) in Hp1 by lia.
      rewrite Hpow, Hpow in Hp1 by lia. change (2 ^ 1) with 2 in Hp1.
      pose proof (Hpos (lp - lq - 1) Hj). nia.
    - rewrite shiftUp_neg, shiftUp_nonneg by lia.
      replace (lq + 1) with (lp + - (lp - lq - 1)) in Hq2 by lia.
      assert (Hq3 : q < 2 ^ lp * 2 ^ (- (lp - lq - 1))).
      { rewrite <- Hpow by lia.
        replace (lp + - (lp - lq - 1)) with (Z.succ lq) by lia.
        rewrite Z.pow_succ_r by lia. lia. }
      pose proof (Hpos (- (lp - lq - 1)) ltac:(lia)). nia. }
  assert (Hhigh : scaledLt (e0 + 1) p q).
  { unfold scaledLt. subst e0.
    destruct (Z.le_gt_cases 0 (lp - lq + 1)) as [Hj|Hj].
    - rewrite shiftUp_neg, shiftUp_nonneg by lia.
      assert (Hp3 : p < 2 ^ lq * 2 ^ (lp - lq + 1)).
      { rewrite <- Hpow by lia.
        replace (lq + (lp - lq + 1)) with (Z.succ lp) by lia.
        rewrite Z.pow_succ_r by lia. lia. }
      pose proof (Hpos (lp - lq + 1) Hj). nia.
    - rewrite shiftUp_nonneg, shiftUp_neg by lia.
      replace lq with (lp + 1 + - (lp - lq + 1)) in Hq1 by lia.
      rewrite Hpow, Hpow in Hq1 by lia. change (2 ^ 1) with 2 in Hq1.
      pose proof (Hpos (- (lp - lq + 1)) ltac:(lia)). nia. }
  subst e. destruct (Z.ltb_spec (shiftUp p (- e0)) (shiftUp q e0)) as [Hlt|Hge].
  - split; [exact Hlow|]. unfold scaledLt.
    replace (e0 - 1 + 1) with e0 by lia. exact Hlt.
  - split; [exact Hge | exact Hhigh].
Qed.

(** [divDouble p q] is a double: its significand has 53 bits, it is a
    number nearest to the quotient among those with its exponent, and
    where two are equally near it is the one with the even
    significand. *)
Lemma divDouble_nearest (p q m e : Z) :
  0 < p -> 0 < q ->
  divDouble p q = (m, e) ->
  2 ^ 52 <= m <= 2 ^ 53
  /\ 2 * Z.abs (m * shiftUp q e - shiftUp p (- e)) <= shiftUp q e
  /\ (2 * Z.abs (m * shiftUp q e - shiftUp p (- e)) = shiftUp q e ->
      Z.even m = true).
Proof.
  intros Hp Hq. unfold divDouble.
  destruct (divDouble_exponent p q Hp Hq) as [Hlow Hhigh].
  cbv zeta in Hlow, Hhigh.
  set (e' := if shiftUp p (- (Z.log2 p - Z.log2 q))
                <? shiftUp q (Z.log2 p - Z.log2 q)
             then Z.log2 p - Z.log2 q - 1 else Z.log2 p - Z.log2 q) in *.
  cbv zeta. intros Heq. apply pair_equal_spec in Heq as [Hm He]. subst e.
  replace (- (e' - 52)) with (52 - e') by lia.
  set (num := shiftUp p (52 - e')) in *.
  set (den := shiftUp q (e' - 52)) in *.
  assert (Hden : 0 < den).
  { subst den. unfold shiftUp.
    pose proof (Z.pow_pos_nonneg 2 (Z.max 0 (e' - 52)) ltac:(lia) ltac:(lia)).
    nia. }
  assert (Hlo : 2 ^ 52 * den <= num).
  { pose proof (scaledLe_shift e' 52 q p Hq Hp ltac:(lia) Hlow) as H.
    subst num den. unfold shiftUp in H |- *. lia. }
  assert (Hhi : num < 2 ^ 53 * den).
  { pose proof (scaledLt_shift (e' + 1) 53 q p Hq Hp ltac:(lia) Hhigh) as H.
    replace (53 - (e' + 1)) with (52 - e') in H by lia.
    replace (e' + 1 - 53) with (e' - 52) in H by lia.
    subst num den. unfold shiftUp in H |- *. lia. }
  pose proof (Z.div_mod num den ltac:(lia)) as Hdm.
  pose proof (Z.mod_pos_bound num den Hden) as Hr.
  set (m0 := num / den) in *. set (r := num mod den) in *.
  assert (Hm0 : 2 ^ 52 <= m0 < 2 ^ 53).
  { split.
    - apply Z.div_le_lower_bound; lia.
    - apply Z.div_lt_upper_bound; lia. }
  destruct (Z.ltb_spec (2 * r) den) as [H1|H1].
  - subst m. split; [lia|]. split; [lia|]. intros Htie. lia.
  - destruct (Z.ltb_spec den (2 * r)) as [H2|H2].
    + subst m. split; [lia|]. split; [lia|]. intros Htie. lia.
    + destruct (Z.even m0) eqn:Hev.
      * subst m. split; [lia|]. split; [lia|]. intros _. exact Hev.
      * subst m. split; [lia|]. split; [lia|]. intros _.
        rewrite Z.even_add, Hev. reflexivity.
Qed.

(** [tenths m e] is the integer [n] of [toFixed(1)]: with [x = m * 2 ^ e],
    [n <= 10 * x + 1 / 2 < n + 1], so [n / 10] is nearest to [x] and the
    larger one of two that are equally near. *)
Lemma tenths_nearest (m e : Z) :
  0 <= m ->
  let n := tenths m e in
  2 * n * shiftUp 1 (- e) <= shiftUp (20 * m) e + shiftUp 1 (- e)
  /\ shiftUp (20 * m) e + shiftUp 1 (- e) < 2 * (n + 1) * shiftUp 1 (- e).
Proof.
  intros Hm n. subst n. unfold tenths.
  assert (Hd : 0 < shiftUp 1 (- e)).
  { unfold shiftUp.
    pose proof (Z.pow_pos_nonneg 2 (Z.max 0 (- e)) ltac:(lia) ltac:(lia)).
    lia. }
  assert (H2 : shiftUp 2 (- e) = 2 * shiftUp 1 (- e))
    by (unfold shiftUp; lia).
  rewrite H2.
  set (d := shiftUp 1 (- e)) in *. set (x := shiftUp (20 * m) e + d).
  pose proof (Z.div_mod x (2 * d) ltac:(lia)) as Hdm.
  pose proof (Z.mod_pos_bound x (2 * d) ltac:(lia)) as Hr.
  nia.
Qed.

(** ** The handlers, case by case *)

(** A reply other than [Ok] is a failure. *)
Lemma book_cases (fuel : nat) (clk : nat -> Z) (caller : nat)
    (req : BookReq) (st st' : State) (reply : Reply (list Summary)) :
  book fuel clk caller req st = Some (reply, st') ->
  (succeeded reply = false /\ st' = st /\ ~ bookable clk caller req st)
  \/ (bookable clk caller req st
      /\ exists created coll,
           createSessions fuel (sessionDataOf caller req) (reqRecurring req)
             (sessions st) = Some (created, coll)
           /\ reply = Ok (map (fun d => summary (fst d) (snd d)) created)
           /\ st' = booked (reqType req) created st).
Proof.
  intros Hbook. generalize Hbook. unfold book at 1. unfold bookable.
  destruct (Nat.leb_spec 1 (String.length (trim (reqSubject req))));
    simpl negb; cbv iota;
    [|intros [= <- <-]; left; repeat split; auto; intros (? & _); lia].
  cbv zeta.
  destruct (Z.leb_spec (reqScheduledEnd req) (reqScheduledStart req));
    [intros [= <- <-]; left; repeat split; auto; intros (_ & ? & _); lia|].
  destruct (Z.leb_spec (reqScheduledStart req) (clk 0%nat));
    [intros [= <- <-]; left; repeat split; auto; intros (_ & _ & ? & _); lia|].
  destruct (users st !! reqTutor req) as [tutor'|] eqn:Htutor;
    [|intros [= <- <-]; left; repeat split; auto;
      intros (_ & _ & _ & (? & ? & _) & _); discriminate].
  case_bool_decide as Hrole; simpl negb; cbv iota;
    [|intros [= <- <-]; left; repeat split; auto;
      intros (_ & _ & _ & (? & [= <-] & ?) & _); contradiction].
  destruct (checkSchedulingConflicts _ _ _ _ _ _) as [|c cs] eqn:Hconf;
    simpl Nat.ltb; cbv iota;
    [|intros [= <- <-]; left; repeat split; auto;
      intros (_ & _ & _ & _ & ? & _); discriminate].
  destruct (checkTutorAvailability _ _ _ _) eqn:Havail; simpl negb; cbv iota;
    [|intros [= <- <-]; left; repeat split; auto;
      intros (_ & _ & _ & _ & _ & ? & _); discriminate].
  destruct (validates _) eqn:Hvalid; simpl negb; cbv iota;
    [|intros [= <- <-]; left; repeat split; auto;
      intros (_ & _ & _ & _ & _ & _ & ?); discriminate].
  intros _.
  rewrite (book_accepted fuel clk caller req st tutor') in Hbook
    by (assumption || lia).
  destruct (createSessions _ _ _ _) as [[created coll]|] eqn:Hc;
    [|discriminate].
  injection Hbook as <- <-. right.
  split; [repeat split; eauto|]. eauto.
Qed.

(** A booking that passes the checks returns when its expansion does. *)
Lemma book_bookable (fuel : nat) (clk : nat -> Z) (caller : nat)
    (req : BookReq) (st : State) :
  bookable clk caller req st ->
  book fuel clk caller req st
  = match createSessions fuel (sessionDataOf caller req) (reqRecurring req)
            (sessions st) with
    | None => None
    | Some (created, _) =>
        Some (Ok (map (fun d => summary (fst d) (snd d)) created),
              booked (reqType req) created st)
    end.
Proof.
  intros (H1 & H2 & H3 & (tutor' & H4 & H5) & H6 & H7 & H8).
  eapply book_accepted; eauto.
Qed.

(** A booking that fails a check is answered without the expansion. *)
Lemma book_not_bookable (fuel : nat) (clk : nat -> Z) (caller : nat)
    (req : BookReq) (st : State) :
  ~ bookable clk caller req st ->
  exists reply,
    book fuel clk caller req st = Some (reply, st)
    /\ succeeded reply = false.
Proof.
  intros Hnot. unfold book.
  destruct (Nat.leb_spec 1 (String.length (trim (reqSubject req))));
    simpl negb; cbv iota; [|eauto].
  cbv zeta.
  destruct (Z.leb_spec (reqScheduledEnd req) (reqScheduledStart req));
    [eauto|].
  destruct (Z.leb_spec (reqScheduledStart req) (clk 0%nat)); [eauto|].
  destruct (users st !! reqTutor req) as [tutor'|] eqn:Htutor; [|eauto].
  case_bool_decide as Hrole; simpl negb; cbv iota; [|eauto].
  destruct (checkSchedulingConflicts _ _ _ _ _ _) as [|c cs] eqn:Hconf;
    simpl Nat.ltb; cbv iota; [|eauto].
  destruct (checkTutorAvailability _ _ _ _) eqn:Havail; simpl negb; cbv iota;
    [|eauto].
  destruct (validates _) eqn:Hvalid; simpl negb; cbv iota; [|eauto].
  exfalso. apply Hnot. repeat split; eauto; lia.
Qed.

Lemma createSessions_oneOff (fuel : nat) (data : SessionData)
    (rec : option RecurringReq) (coll : list Session) :
  match rec with
  | Some r => reqIsRecurring r = false
  | None => True
  end ->
  createSessions fuel data rec coll
  = Some ([(length coll,
            newSession data (dataScheduledStart data) (dataScheduledEnd data)
              notRecurring)],
          coll ++ [newSession data (dataScheduledStart data)
                     (dataScheduledEnd data) notRecurring]).
Proof.
  unfold createSessions, insertSession.
  destruct rec as [r|]; [intros ->|]; reflexivity.
Qed.

Lemma reschedule_cases (clk : nat -> Z) (u id : nat) (req : RescheduleReq)
    (st : State) :
  (succeeded (fst (reschedule clk u id req st)) = false
   /\ snd (reschedule clk u id req st) = st)
  \/ exists session,
       sessions st !! id = Some session
       /\ isParticipant u session = true
       /\ status session ∈ [scheduled; confirmed]
       /\ newScheduledStart req < newScheduledEnd req
       /\ clk 0%nat < newScheduledStart req
       /\ checkSchedulingConflicts (sessions st) (student session)
            (tutor session) (newScheduledStart req) (newScheduledEnd req)
            (Some id) = []
       /\ reschedule clk u id req st
          = (Ok (summary id
                   (rescheduled (newScheduledStart req) (newScheduledEnd req)
                      session)),
             send (RescheduleNotice id u)
               (saveSession id
                  (rescheduled (newScheduledStart req) (newScheduledEnd req))
                  st)).
Proof.
  unfold reschedule.
  destruct (negb (optionalMax 500 _)); [left; auto|].
  destruct (sessions st !! id) as [session|]; [|left; auto].
  destruct (isParticipant u session) eqn:Hp; simpl negb; cbv iota;
    [|left; auto].
  case_bool_decide as Hst; simpl negb; cbv iota; [|left; auto].
  cbv zeta.
  destruct (Z.leb_spec (newScheduledEnd req) (newScheduledStart req));
    [left; auto|].
  destruct (Z.leb_spec (newScheduledStart req) (clk 0%nat)); [left; auto|].
  destruct (checkSchedulingConflicts _ _ _ _ _ _) eqn:Hc; simpl Nat.ltb;
    cbv iota; [|left; auto].
  right. exists session. repeat split; auto.
Qed.

Lemma cancel_cases (clk : nat -> Z) (u id : nat) (r : string) (st : State) :
  (succeeded (fst (cancel clk u id r st)) = false
   /\ snd (cancel clk u id r st) = st)
  \/ exists session,
       sessions st !! id = Some session
       /\ isParticipant u session = true
       /\ status session ∈ [scheduled; confirmed]
       /\ lengthBetween 1 500 (trim r) = true
       /\ cancel clk u id r st
          = (let assign :=
               cancelledWith u (trim r) (scheduledStart session - clk 0%nat)
                 (clk 1%nat) in
             (Ok {| cbId := id; cbStatus := status (assign session);
                    cbCancellation := cancellation (assign session) |},
              send (CancellationNotice id u) (saveSession id assign st))).
Proof.
  unfold cancel. cbv zeta.
  destruct (lengthBetween 1 500 _) eqn:Hl; simpl negb; cbv iota;
    [|left; auto].
  destruct (sessions st !! id) as [session|]; [|left; auto].
  destruct (isParticipant u session) eqn:Hp; simpl negb; cbv iota;
    [|left; auto].
  case_bool_decide as Hst; simpl negb; cbv iota; [|left; auto].
  right. exists session. repeat split; auto.
Qed.

Lemma start_cases (clk : nat -> Z) (u id : nat) (st : State) :
  (succeeded (fst (start clk u id st)) = false
   /\ snd (start clk u id st) = st)
  \/ exists session,
       sessions st !! id = Some session
       /\ isParticipant u session = true
       /\ status session ∈ [scheduled; confirmed]
       /\ scheduledStart session - clk 0%nat <= 15 * msPerMinute
       /\ start clk u id st
          = (Ok {| sbId := id; sbStatus := ongoing;
                   sbActualStart := Some (clk 1%nat) |},
             saveSession id (started (clk 1%nat)) st).
Proof.
  unfold start.
  destruct (sessions st !! id) as [session|]; [|left; auto].
  destruct (isParticipant u session) eqn:Hp; simpl negb; cbv iota;
    [|left; auto].
  case_bool_decide as Hst; simpl negb; cbv iota; [|left; auto].
  cbv zeta.
  destruct (Z.ltb_spec (15 * msPerMinute) (scheduledStart session - clk 0%nat));
    [left; auto|].
  right. exists session. repeat split; auto.
Qed.

Lemma endSession_cases (clk : nat -> Z) (u id : nat) (n : option string)
    (st : State) :
  (succeeded (fst (endSession clk u id n st)) = false
   /\ snd (endSession clk u id n st) = st)
  \/ exists session,
       sessions st !! id = Some session
       /\ isParticipant u session = true
       /\ status session = ongoing
       /\ optionalMax 1000 n = true
       /\ endSession clk u id n st
          = (let assign :=
               ended (clk 0%nat) (bool_decide (student session = u))
                 (trim <$> n) in
             (Ok {| ebId := id; ebStatus := completed;
                    ebActualEnd := Some (clk 0%nat);
                    ebDuration := actualDuration (assign session) |},
              with_users (updateUserStats (assign session) (users st))
                (saveSession id assign st))).
Proof.
  rewrite endSession_effect.
  destruct (optionalMax 1000 _) eqn:Hv; simpl negb; cbv iota; [|left; auto].
  destruct (sessions st !! id) as [session|]; [|left; auto].
  destruct (isParticipant u session) eqn:Hp; simpl negb; cbv iota;
    [|left; auto].
  case_bool_decide as Hst; simpl negb; cbv iota; [|left; auto].
  right. exists session. repeat split; auto.
Qed.

(** ** One operation, session by session *)

Lemma saveSession_assigned (id : nat) (f : Session -> Session)
    (st : State) (session : Session) (j : nat) (s : Session) :
  sessions st !! id = Some session ->
  assigned session (f session) ->
  sessions st !! j = Some s ->
  exists s', sessions (saveSession id f st) !! j = Some s' /\ assigned s s'.
Proof.
  intros Hid Ht Hj. rewrite (saveSession_lookup _ _ _ _ _ Hj).
  eexists. split; [reflexivity|].
  destruct (decide (id = j)) as [->|]; [|constructor].
  rewrite Hid in Hj. injection Hj as <-. exact Ht.
Qed.

(** The sweep leaves a stored session as it is or sets its reminder
    record. *)
Lemma remindAll_lookup (clk : nat -> Z) (docs : list (nat * Session)) :
  forall (k : nat) (st : State) (j : nat) (s : Session),
  sessions st !! j = Some s ->
  exists s',
    sessions (remindAll clk k docs st) !! j = Some s'
    /\ (s' = s
        \/ exists t, s' = set_reminders {| sent := true; sentAt := Some t |} s).
Proof.
  assert (Hgen : forall (k : nat) (st : State) (j : nat) (s0 s : Session),
             sessions st !! j = Some s ->
             (s = s0 \/ exists t, s = set_reminders
                                      {| sent := true; sentAt := Some t |} s0) ->
             exists s',
               sessions (remindAll clk k docs st) !! j = Some s'
               /\ (s' = s0
                   \/ exists t, s' = set_reminders
                                       {| sent := true; sentAt := Some t |}
                                       s0)).
  { induction docs as [|[id x] rest IH]; intros k st j s0 s Hj Hs.
    - exists s. split; [exact Hj | exact Hs].
    - simpl remindAll.
      pose proof (saveSession_lookup id
                    (set_reminders {| sent := true; sentAt := Some (clk k) |})
                    (send (ReminderNotice id) st) j s Hj) as Hstep.
      destruct (decide (id = j)) as [->|].
      + eapply (IH (S k) _ j s0) in Hstep as (s' & Hs' & Hcase).
        * exists s'. split; [exact Hs' | exact Hcase].
        * right. exists (clk k). destruct Hs as [->|[t ->]]; reflexivity.
      + eapply (IH (S k) _ j s0) in Hstep as (s' & Hs' & Hcase); eauto. }
  intros k st j s Hj. apply (Hgen k st j s s Hj). left. reflexivity.
Qed.

Lemma remindAll_assigned (clk : nat -> Z) (docs : list (nat * Session)) :
  forall (k : nat) (st : State) (j : nat) (s : Session),
  sessions st !! j = Some s ->
  exists s',
    sessions (remindAll clk k docs st) !! j = Some s' /\ assigned s s'.
Proof.
  intros k st j s Hj.
  destruct (remindAll_lookup clk docs k st j s Hj)
    as (s' & Hs' & [->|[t ->]]).
  - exists s. split; [exact Hs' | constructor].
  - eexists. split; [exact Hs' | constructor].
Qed.

(** One operation applies the assignments of at most one handler to a
    stored session. *)
Lemma exec_assigned (clk : nat -> Z) (op : Op) (st st' : State) (j : nat)
    (s : Session) :
  exec clk op st = Some st' ->
  sessions st !! j = Some s ->
  exists s', sessions st' !! j = Some s' /\ assigned s s'.
Proof.
  intros Hexec Hj. destruct op as [fuel u req|u id req|u id r|u id|u id n|];
    simpl in Hexec.
  - destruct (book fuel clk u req st) as [[reply st0]|] eqn:Hb;
      [|discriminate]. injection Hexec as ->.
    apply book_state in Hb as [[_ ->]|(_ & created & _ & ->)].
    + exists s. split; [exact Hj | constructor].
    + exists s. split; [apply booked_lookup_old, Hj | constructor].
  - injection Hexec as <-.
    destruct (reschedule_cases clk u id req st)
      as [[_ ->]|(session & Hid & _ & Hst & Hw & _ & _ & ->)].
    + exists s. split; [exact Hj | constructor].
    + cbn [snd]. rewrite sessions_send.
      eapply saveSession_assigned; eauto. constructor; assumption.
  - injection Hexec as <-.
    destruct (cancel_cases clk u id r st)
      as [[_ ->]|(session & Hid & _ & Hst & _ & ->)].
    + exists s. split; [exact Hj | constructor].
    + cbn [snd]. rewrite sessions_send.
      eapply saveSession_assigned; eauto. constructor; assumption.
  - injection Hexec as <-.
    destruct (start_cases clk u id st)
      as [[_ ->]|(session & Hid & _ & Hst & _ & ->)].
    + exists s. split; [exact Hj | constructor].
    + cbn [snd].
      eapply saveSession_assigned; eauto. constructor; assumption.
  - injection Hexec as <-.
    destruct (endSession_cases clk u id n st)
      as [[_ ->]|(session & Hid & _ & Hst & _ & ->)].
    + exists s. split; [exact Hj | constructor].
    + cbn [snd]. rewrite sessions_with_users.
      eapply saveSession_assigned; eauto. constructor; assumption.
  - injection Hexec as <-. unfold reminderSweep.
    apply remindAll_assigned, Hj.
Qed.

(** Operations other than a booking add no session. *)
Lemma exec_lookup_None (clk : nat -> Z) (op : Op) (st st' : State) (j : nat) :
  exec clk op st = Some st' ->
  match op with
  | OpBook _ _ _ => True
  | _ => sessions st !! j = None -> sessions st' !! j = None
  end.
Proof.
  intros Hexec. destruct op as [fuel u req|u id req|u id r|u id|u id n|];
    simpl in Hexec; [exact I|..]; injection Hexec as <-; intros Hnone.
  - destruct (reschedule_cases clk u id req st)
      as [[_ ->]|(session & _ & _ & _ & _ & _ & _ & ->)]; [exact Hnone|].
    cbn [snd]. rewrite sessions_send. apply saveSession_lookup_None, Hnone.
  - destruct (cancel_cases clk u id r st)
      as [[_ ->]|(session & _ & _ & _ & _ & ->)]; [exact Hnone|].
    cbn [snd]. rewrite sessions_send. apply saveSession_lookup_None, Hnone.
  - destruct (start_cases clk u id st)
      as [[_ ->]|(session & _ & _ & _ & _ & ->)]; [exact Hnone|].
    cbn [snd]. apply saveSession_lookup_None, Hnone.
  - destruct (endSession_cases clk u id n st)
      as [[_ ->]|(session & _ & _ & _ & _ & ->)]; [exact Hnone|].
    cbn [snd]. rewrite sessions_with_users.
    apply saveSession_lookup_None, Hnone.
  - unfold reminderSweep. apply remindAll_sessions_None, Hnone.
Qed.

Lemma recurringLoop_Forall (P : Session -> Prop) (data : SessionData)
    (frequency : option Frequency) (endMoment duration : Z) (parentId : nat) :
  (forall a rec, P (newSession data a (a + duration) rec)) ->
  forall (fuel : nat) (cur : Z) (created created' : list (nat * Session))
         (coll coll' : list Session),
  recurringLoop fuel data frequency endMoment duration parentId cur created
    coll = Some (created', coll') ->
  Forall (fun d => P (snd d)) created ->
  Forall (fun d => P (snd d)) created'.
Proof.
  intros HP fuel.
  induction fuel as [|fuel IH]; intros cur created created' coll coll' Hrun
    Hall; [discriminate|].
  rewrite recurringLoop_unfold in Hrun.
  destruct (cur <? endMoment).
  - destruct (advance frequency cur <? endMoment).
    + apply IH in Hrun; [exact Hrun|].
      apply Forall_app. split; [exact Hall|].
      constructor; [apply HP | constructor].
    + apply IH in Hrun; assumption.
  - injection Hrun as <- _. exact Hall.
Qed.

(** Every session of a booking is a new session over a proper window. *)
Lemma createSessions_windows (fuel : nat) (data : SessionData)
    (rec : option RecurringReq) (base : list Session)
    (created : list (nat * Session)) (coll : list Session) :
  dataScheduledStart data < dataScheduledEnd data ->
  createSessions fuel data rec base = Some (created, coll) ->
  Forall (fun d => exists a b r, a < b /\ snd d = newSession data a b r)
    created.
Proof.
  intros Hw. unfold createSessions, createRecurringSessions, insertSession.
  assert (Hsingle :
    forall r,
      Forall (fun d => exists a b r, a < b /\ snd d = newSession data a b r)
        [(length base,
          newSession data (dataScheduledStart data) (dataScheduledEnd data)
            r)]).
  { intros r. constructor; [|constructor]. eauto. }
  destruct rec as [r|]; [destruct (reqIsRecurring r)|].
  - intros Hrun.
    eapply (recurringLoop_Forall
              (fun s => exists a b r, a < b /\ s = newSession data a b r))
      in Hrun; [exact Hrun | | apply Hsingle].
    intros a r'. exists a, (a + (dataScheduledEnd data - dataScheduledStart data)),
      r'. split; [lia | reflexivity].
  - intros [= <- _]. apply Hsingle.
  - intros [= <- _]. apply Hsingle.
Qed.

(** A session that one operation brings into the store is a new session
    over a proper window. *)
Lemma exec_stored_new (clk : nat -> Z) (op : Op) (st st' : State) (j : nat)
    (s' : Session) :
  exec clk op st = Some st' ->
  sessions st !! j = None ->
  sessions st' !! j = Some s' ->
  stored_new s'.
Proof.
  intros Hexec Hnone Hsome.
  pose proof (exec_lookup_None clk op st st' j Hexec) as Hkeep.
  destruct op as [fuel u req| | | | |];
    try (rewrite (Hkeep Hnone) in Hsome; discriminate).
  simpl in Hexec.
  destruct (book fuel clk u req st) as [[reply st0]|] eqn:Hb;
    [|discriminate]. injection Hexec as ->.
  apply book_cases in Hb
    as [(_ & -> & _)|(Hok & created & coll & Hc & _ & ->)]; [congruence|].
  destruct Hok as (_ & Hw & _).
  apply createSessions_windows in Hc; [|exact Hw].
  simpl in Hsome.
  apply lookup_app_Some in Hsome as [Hold|[_ Hnew]]; [congruence|].
  apply list_elem_of_lookup_2, list_elem_of_In in Hnew.
  apply in_map_iff in Hnew as (d' & <- & Hd').
  apply in_map_iff in Hd' as (d & <- & Hd).
  rewrite Forall_forall in Hc.
  destruct (Hc d (proj2 (list_elem_of_In _ _) Hd)) as (a & b & r & Hab & Heq).
  exists (sessionDataOf u req), a, b, r. split; [exact Hab|].
  destruct (reqType req); simpl; rewrite Heq; eauto.
Qed.

(** An invariant of every operation holds after every run. *)
Lemma run_invariant (I : State -> Prop) :
  (forall clk op st st', exec clk op st = Some st' -> I st -> I st') ->
  forall (ops : list ((nat -> Z) * Op)) (st st' : State),
  run ops st = Some st' -> I st -> I st'.
Proof.
  intros Hstep ops.
  induction ops as [|[clk op] rest IH]; intros st st' Hrun HI.
  - injection Hrun as <-. exact HI.
  - simpl in Hrun. destruct (exec clk op st) as [st1|] eqn:Hexec;
      [|discriminate].
    eapply IH; eauto.
Qed.

(** ** The record of a session and its status *)

Lemma in_ongoing_completed (v : Status) :
  v ∈ [ongoing; completed] <-> v = ongoing \/ v = completed.
Proof. rewrite !elem_of_cons, elem_of_nil. tauto. Qed.

Lemma in_reachable_statuses (v : Status) :
  v ∈ [scheduled; ongoing; completed; cancelled]
  <-> v = scheduled \/ v = ongoing \/ v = completed \/ v = cancelled.
Proof. rewrite !elem_of_cons, elem_of_nil. tauto. Qed.

Ltac recorded_fields :=
  unfold recorded; simpl;
  rewrite ?in_reachable_statuses, ?in_ongoing_completed,
    <- ?not_eq_None_Some.

Lemma stored_new_recorded (s : Session) : stored_new s -> recorded s.
Proof.
  intros (data & a & b & r & Hab & [->|[link ->]]); recorded_fields;
    intuition (congruence || discriminate).
Qed.

Lemma ended_kept (t : Z) (b : bool) (n : option string) (s : Session) :
  scheduledStart (ended t b n s) = scheduledStart s
  /\ scheduledEnd (ended t b n s) = scheduledEnd s
  /\ cancellation (ended t b n s) = cancellation s.
Proof.
  unfold ended. destruct n as [[|c r]|]; try (repeat split; fail).
  destruct b; repeat split.
Qed.

Lemma assigned_recorded (s s' : Session) :
  assigned s s' -> recorded s -> recorded s'.
Proof.
  intros Ha (Hw & Hst & Hstart & Hend & Hcan).
  rewrite in_ongoing_completed in Hstart.
  rewrite <- not_eq_None_Some in Hstart.
  rewrite <- not_eq_None_Some in Hend.
  rewrite <- not_eq_None_Some in Hcan.
  destruct Ha as [s|a b s Hs Hab|u r ms t s Hs|t s Hs|t b n s Hs|t s];
    try rewrite in_scheduled_confirmed in Hs.
  - recorded_fields. rewrite in_reachable_statuses in Hst. tauto.
  - unfold rescheduled. recorded_fields.
    destruct Hs as [Hs|Hs]; rewrite Hs in *;
      intuition (congruence || discriminate).
  - unfold cancelledWith. destruct (ms <? 24 * msPerHour); recorded_fields;
      destruct Hs as [Hs|Hs]; rewrite Hs in *;
      intuition (congruence || discriminate).
  - unfold started. recorded_fields.
    destruct Hs as [Hs|Hs]; rewrite Hs in *;
      intuition (congruence || discriminate).
  - destruct (ended_kept t b n s) as (F1 & F2 & F3).
    destruct (ended_fields t b n s) as (E1 & E2 & E3 & _).
    unfold recorded. rewrite F1, F2, F3, E1, E2, E3.
    rewrite in_reachable_statuses, in_ongoing_completed,
      <- !not_eq_None_Some.
    rewrite Hs in *. intuition (congruence || discriminate).
  - recorded_fields. rewrite in_reachable_statuses in Hst. tauto.
Qed.

Lemma run_recorded (ops : list ((nat -> Z) * Op)) (st st' : State) :
  run ops st = Some st' ->
  (forall j s, sessions st !! j = Some s -> recorded s) ->
  forall j s, sessions st' !! j = Some s -> recorded s.
Proof.
  apply (run_invariant
           (fun st => forall j s, sessions st !! j = Some s -> recorded s)).
  clear. intros clk op st st' Hexec Hall j s' Hj.
  destruct (sessions st !! j) as [s|] eqn:Hold.
  - destruct (exec_assigned _ _ _ _ _ _ Hexec Hold) as (s'' & Hj' & Ha).
    rewrite Hj in Hj'. injection Hj' as <-.
    eapply assigned_recorded; eauto.
  - eapply stored_new_recorded, exec_stored_new; eauto.
Qed.

Lemma actualDuration_is_Some (s : Session) :
  is_Some (actualDuration s)
  <-> is_Some (actualStart s) /\ is_Some (actualEnd s).
Proof.
  unfold actualDuration.
  destruct (actualEnd s), (actualStart s); rewrite <- !not_eq_None_Some;
    intuition congruence.
Qed.

(** X1.  In every state reached from the empty store by bookings,
    reschedules, cancellations, starts, ends and reminder sweeps, the
    record of each session agrees with its status: the scheduled duration
    is positive, the status is scheduled, ongoing, completed or cancelled,
    the actual start is set exactly for ongoing and completed sessions,
    the actual duration is a number exactly for completed sessions, and
    the cancellation record is present exactly for cancelled sessions. *)
Theorem status_agrees_with_record (directory : gmap nat User)
    (ops : list ((nat -> Z) * Op)) (st : State) (id : nat) (s : Session) :
  run ops (initial directory) = Some st ->
  sessions st !! id = Some s ->
  0 < scheduledDuration s
  /\ status s ∈ [scheduled; ongoing; completed; cancelled]
  /\ (is_Some (actualStart s) <-> status s ∈ [ongoing; completed])
  /\ (is_Some (actualDuration s) <-> status s = completed)
  /\ (is_Some (cancellation s) <-> status s = cancelled).
Proof.
  intros Hrun Hs.
  assert (Hrec : recorded s).
  { eapply (run_recorded ops (initial directory) st Hrun); [|exact Hs].
    intros j x Hj. simpl in Hj. rewrite lookup_nil in Hj. discriminate. }
  destruct Hrec as (Hw & Hst & Hstart & Hend & Hcan).
  unfold scheduledDuration. rewrite actualDuration_is_Some.
  rewrite in_ongoing_completed in *.
  split; [lia|]. split; [exact Hst|]. split; [exact Hstart|].
  split; [|exact Hcan]. tauto.
Qed.

Lemma status_agrees_with_record_witness :
  let req :=
    Sample.request 2 (utc 2025 1 6 10 0) (utc 2025 1 6 11 0) None in
  let ops :=
    [ (Sample.at_ (utc 2025 1 1 0 0), OpBook 1 1 req);
      (Sample.at_ (utc 2025 1 6 9 59), OpStart 2 0);
      (Sample.at_ (utc 2025 1 6 10 59), OpEnd 2 0 None) ] in
  exists st s,
    run ops (initial Sample.directory) = Some st
    /\ sessions st !! 0%nat = Some s
    /\ 0 < scheduledDuration s
    /\ status s ∈ [scheduled; ongoing; completed; cancelled]
    /\ (is_Some (actualStart s) <-> status s ∈ [ongoing; completed])
    /\ (is_Some (actualDuration s) <-> status s = completed)
    /\ (is_Some (cancellation s) <-> status s = cancelled).
Proof.
  intros req ops.
  eexists _, _. split; [vm_compute; reflexivity|].
  split; [vm_compute; reflexivity|].
  eapply (status_agrees_with_record Sample.directory ops _ 0%nat).
  - vm_compute. reflexivity.
  - vm_compute. reflexivity.
Defined.

(** ** Double booking *)

Lemma noDoubleBooking_sameBooking (coll coll' : list Session) :
  (forall j s', coll' !! j = Some s' ->
     exists s, coll !! j = Some s /\ sameBooking s s') ->
  noDoubleBooking coll -> noDoubleBooking coll'.
Proof.
  intros Hsame Hno i j s' t' Hij Hi Hj Hs Ht Hshare [Ho1 Ho2].
  destruct (Hsame i s' Hi) as (s & Hi0 & S1 & S2 & S3 & S4 & S5).
  destruct (Hsame j t' Hj) as (t & Hj0 & T1 & T2 & T3 & T4 & T5).
  apply (Hno i j s t Hij Hi0 Hj0 (S5 Hs) (T5 Ht)).
  - destruct Hshare; [left | right]; congruence.
  - split; lia.
Qed.

Lemma sameBooking_refl (s : Session) : sameBooking s s.
Proof. repeat split; auto. Qed.

Lemma lookup_alter_Some (f : Session -> Session) (id : nat)
    (coll : list Session) (j : nat) (s' : Session) :
  alter f id coll !! j = Some s' ->
  exists s, coll !! j = Some s /\ s' = if decide (id = j) then f s else s.
Proof.
  rewrite list_lookup_alter.
  destruct (decide (id = j)) as [->|].
  - destruct (coll !! j) as [s|]; [|discriminate].
    intros [= <-]. eauto.
  - eauto.
Qed.

Lemma noDoubleBooking_alter (f : Session -> Session) (id : nat)
    (coll : list Session) (session : Session) :
  coll !! id = Some session ->
  sameBooking session (f session) ->
  noDoubleBooking coll -> noDoubleBooking (alter f id coll).
Proof.
  intros Hid Hsame. apply noDoubleBooking_sameBooking.
  intros j s' Hj. apply lookup_alter_Some in Hj as (s & Hs & ->).
  exists s. split; [exact Hs|].
  destruct (decide (id = j)) as [->|]; [|apply sameBooking_refl].
  rewrite Hid in Hs. injection Hs as <-. exact Hsame.
Qed.

Lemma active_scheduled_confirmed (s : Session) :
  status s ∈ [scheduled; confirmed] -> active s.
Proof.
  unfold active. rewrite !elem_of_cons, !elem_of_nil. tauto.
Qed.

(** Moving a session to a window that the conflict detector finds free
    keeps the store free of double bookings. *)
Lemma noDoubleBooking_reschedule (a b : Z) (id : nat) (coll : list Session)
    (session : Session) :
  coll !! id = Some session ->
  checkSchedulingConflicts coll (student session) (tutor session) a b
    (Some id) = [] ->
  noDoubleBooking coll ->
  noDoubleBooking (alter (rescheduled a b) id coll).
Proof.
  intros Hid Hfree Hno i j s' t' Hij Hi Hj Hs Ht Hshare [Ho1 Ho2].
  apply lookup_alter_Some in Hi as (s & Hi & ->).
  apply lookup_alter_Some in Hj as (t & Hj & ->).
  assert (Hmoved : forall k x,
            k <> id -> coll !! k = Some x -> active x ->
            student x = student session \/ tutor x = tutor session ->
            scheduledStart x < b -> a < scheduledEnd x -> False).
  { intros k x Hk Hx Hact Hsh H1 H2.
    assert (Hin : In (k, x)
                    (checkSchedulingConflicts coll (student session)
                       (tutor session) a b (Some id))).
    { apply checkSchedulingConflicts_spec. repeat split; auto; congruence. }
    rewrite Hfree in Hin. exact Hin. }
  destruct (decide (id = i)) as [<-|Hi'], (decide (id = j)) as [<-|Hj'].
  - congruence.
  - rewrite Hid in Hi. injection Hi as <-. simpl in *.
    apply (Hmoved j t); auto; destruct Hshare; auto.
  - rewrite Hid in Hj. injection Hj as <-. simpl in *.
    apply (Hmoved i s); auto; destruct Hshare; auto.
  - apply (Hno i j s t Hij Hi Hj Hs Ht Hshare). split; assumption.
Qed.

Lemma linked_sameBooking (ty : SessionType) (d : nat * Session) :
  sameBooking (snd d) (snd (linked ty d)).
Proof. destruct ty; repeat split; auto. Qed.

(** Appending a session for which the conflict detector finds its window
    free keeps the store free of double bookings. *)
Lemma noDoubleBooking_snoc (coll : list Session) (s : Session) :
  checkSchedulingConflicts coll (student s) (tutor s) (scheduledStart s)
    (scheduledEnd s) None = [] ->
  noDoubleBooking coll -> noDoubleBooking (coll ++ [s]).
Proof.
  intros Hfree Hno i j x y Hij Hi Hj Hx Hy Hshare [Ho1 Ho2].
  assert (Hnew : forall k z,
            coll !! k = Some z -> active z ->
            student z = student s \/ tutor z = tutor s ->
            scheduledStart z < scheduledEnd s ->
            scheduledStart s < scheduledEnd z -> False).
  { intros k z Hz Hact Hsh H1 H2.
    assert (Hin : In (k, z)
                    (checkSchedulingConflicts coll (student s) (tutor s)
                       (scheduledStart s) (scheduledEnd s) None)).
    { apply checkSchedulingConflicts_spec. repeat split; auto; discriminate. }
    rewrite Hfree in Hin. exact Hin. }
  apply lookup_snoc_Some in Hi as [[_ Hi]|[-> <-]];
    apply lookup_snoc_Some in Hj as [[_ Hj]|[-> <-]].
  - apply (Hno i j x y Hij Hi Hj Hx Hy Hshare). split; assumption.
  - apply (Hnew i x); auto; destruct Hshare; auto.
  - apply (Hnew j y); auto; destruct Hshare; auto.
  - congruence.
Qed.

Lemma exec_noDoubleBooking (clk : nat -> Z) (op : Op) (st st' : State) :
  oneOff op ->
  exec clk op st = Some st' ->
  noDoubleBooking (sessions st) -> noDoubleBooking (sessions st').
Proof.
  intros Hone Hexec Hno.
  destruct op as [fuel u req|u id req|u id r|u id|u id n|]; simpl in Hexec.
  - destruct (book fuel clk u req st) as [[reply st0]|] eqn:Hb;
      [|discriminate]. injection Hexec as ->.
    apply book_cases in Hb
      as [(_ & -> & _)|(Hok & created & coll & Hc & _ & ->)]; [exact Hno|].
    rewrite createSessions_oneOff in Hc by exact Hone.
    injection Hc as <- _. simpl.
    destruct Hok as (_ & _ & _ & _ & Hfree & _).
    apply noDoubleBooking_snoc; [|exact Hno].
    destruct (reqType req); exact Hfree.
  - injection Hexec as <-.
    destruct (reschedule_cases clk u id req st)
      as [[_ ->]|(session & Hid & _ & _ & _ & _ & Hfree & ->)]; [exact Hno|].
    cbn [snd]. rewrite sessions_send. simpl.
    apply (noDoubleBooking_reschedule _ _ _ _ session); assumption.
  - injection Hexec as <-.
    destruct (cancel_cases clk u id r st)
      as [[_ ->]|(session & Hid & _ & _ & _ & ->)]; [exact Hno|].
    cbn [snd]. rewrite sessions_send. simpl.
    apply (noDoubleBooking_alter _ _ _ session); [exact Hid| |exact Hno].
    unfold cancelledWith, sameBooking, active.
    destruct (_ <? _); simpl; repeat split; auto;
      rewrite !elem_of_cons, elem_of_nil; intros [|[|[|[]]]]; discriminate.
  - injection Hexec as <-.
    destruct (start_cases clk u id st)
      as [[_ ->]|(session & Hid & _ & Hst & _ & ->)]; [exact Hno|].
    cbn [snd]. simpl.
    apply (noDoubleBooking_alter _ _ _ session); [exact Hid| |exact Hno].
    repeat split; auto. intros _. apply active_scheduled_confirmed, Hst.
  - injection Hexec as <-.
    destruct (endSession_cases clk u id n st)
      as [[_ ->]|(session & Hid & _ & Hst & _ & ->)]; [exact Hno|].
    cbn [snd]. rewrite sessions_with_users. simpl.
    apply (noDoubleBooking_alter _ _ _ session); [exact Hid| |exact Hno].
    destruct (ended_kept (clk 0%nat) (bool_decide (student session = u))
                (trim <$> n) session) as (F1 & F2 & _).
    destruct (ended_fields (clk 0%nat) (bool_decide (student session = u))
                (trim <$> n) session) as (E1 & _ & _ & _ & E5 & E6).
    unfold sameBooking, active. rewrite F1, F2, E1, E5, E6.
    repeat split; auto.
    rewrite !elem_of_cons, elem_of_nil. intros [|[|[|[]]]]; discriminate.
  - injection Hexec as <-. unfold reminderSweep.
    revert Hno. apply noDoubleBooking_sameBooking. intros j s' Hj.
    destruct (sessions st !! j) as [s|] eqn:Hold.
    + destruct (remindAll_lookup clk
                  (find (reminderQuery (clk 1%nat)
                           (clk 0%nat + 24 * 60 * 60 * 1000)) (sessions st))
                  2 st j s Hold) as (s'' & Hj' & Hcase).
      rewrite Hj in Hj'. injection Hj' as <-.
      exists s. split; [reflexivity|].
      destruct Hcase as [->|[t ->]]; repeat split; auto.
    + rewrite remindAll_sessions_None in Hj by exact Hold. discriminate.
Qed.

(** X2.  As long as the requests are served one at a time and no
    booking is recurring, the store holds no double booking: in every
    state reached from the empty store by such a run, two different
    sessions that are both active (scheduled, confirmed or ongoing) and
    have the same student, or the same tutor, do not overlap. *)
Theorem one_off_operations_never_double_book (directory : gmap nat User)
    (ops : list ((nat -> Z) * Op)) (st : State) :
  Forall (fun o => oneOff (snd o)) ops ->
  run ops (initial directory) = Some st ->
  noDoubleBooking (sessions st).
Proof.
  intros Hone Hrun.
  assert (Hgen : forall ops st0,
            Forall (fun o => oneOff (snd o)) ops ->
            run ops st0 = Some st ->
            noDoubleBooking (sessions st0) -> noDoubleBooking (sessions st)).
  { clear. induction ops as [|[clk op] rest IH]; intros st0 Hone Hrun Hno.
    - injection Hrun as <-. exact Hno.
    - apply Forall_cons in Hone as [Hop Hrest]. simpl in Hrun.
      destruct (exec clk op st0) as [st1|] eqn:Hexec; [|discriminate].
      apply (IH st1 Hrest Hrun).
      eapply exec_noDoubleBooking; eauto. }
  apply (Hgen ops (initial directory) Hone Hrun).
  intros i j s t _ Hi. simpl in Hi. rewrite lookup_nil in Hi. discriminate.
Qed.

Lemma one_off_operations_never_double_book_witness :
  let first :=
    Sample.request 2 (utc 2025 1 6 10 0) (utc 2025 1 6 11 0) None in
  let second :=
    Sample.request 2 (utc 2025 1 6 10 30) (utc 2025 1 6 11 30) None in
  let third :=
    Sample.request 2 (utc 2025 1 6 11 0) (utc 2025 1 6 12 0) None in
  let ops :=
    [ (Sample.at_ (utc 2025 1 1 0 0), OpBook 1 1 first);
      (Sample.at_ (utc 2025 1 1 0 0), OpBook 1 3 second);
      (Sample.at_ (utc 2025 1 1 0 0), OpBook 1 3 third) ] in
  exists st,
    run ops (initial Sample.directory) = Some st
    /\ length (sessions st) = 2%nat
    /\ noDoubleBooking (sessions st).
Proof.
  intros first second third ops.
  eexists. split; [vm_compute; reflexivity|].
  split; [reflexivity|].
  apply (one_off_operations_never_double_book Sample.directory ops).
  - repeat constructor.
  - vm_compute. reflexivity.
Defined.

(** Why the requests have to be served one at a time: two students ask
    for the same hour of the same tutor, and each request passes every
    check of Book on the store as it is before the other is saved.  The
    two sessions the requests then save overlap. *)
Example bookings_checked_before_either_is_saved :
  let st := initial Sample.directory in
  let clk := Sample.at_ (utc 2025 1 1 0 0) in
  let req :=
    Sample.request 2 (utc 2025 1 6 10 0) (utc 2025 1 6 11 0) None in
  bookable clk 1 req st
  /\ bookable clk 4 req st
  /\ ~ noDoubleBooking
         (sessions st ++ [bookedSession 1 req 0; bookedSession 4 req 1]).
Proof.
  assert (Hb : forall caller,
            bookable (Sample.at_ (utc 2025 1 1 0 0)) caller
              (Sample.request 2 (utc 2025 1 6 10 0) (utc 2025 1 6 11 0) None)
              (initial Sample.directory)).
  { intros caller. unfold bookable. split; [vm_compute; lia|].
    split; [reflexivity|]. split; [reflexivity|]. split.
    - exists {| role := role_tutor; availability := [Sample.mondays];
                stats := Sample.noStats |}.
      split; [reflexivity|]. apply elem_of_cons. left. reflexivity.
    - repeat split; reflexivity. }
  cbv zeta. split; [apply Hb|]. split; [apply Hb|].
  intros Hno.
  apply (Hno 0%nat 1%nat _ _ ltac:(discriminate) eq_refl eq_refl).
  - unfold active. simpl. apply elem_of_cons. left. reflexivity.
  - unfold active. simpl. apply elem_of_cons. left. reflexivity.
  - right. reflexivity.
  - split; vm_compute; reflexivity.
Qed.

(** ** Listing sessions *)

Lemma insertByStart_Permutation (d : nat * Session)
    (l : list (nat * Session)) :
  Permutation (insertByStart d l) (d :: l).
Proof.
  induction l as [|x r IH]; simpl; [reflexivity|].
  destruct (_ <=? _); [reflexivity|].
  rewrite IH. apply perm_swap.
Qed.

Lemma sortByStartDesc_Permutation (l : list (nat * Session)) :
  Permutation (sortByStartDesc l) l.
Proof.
  induction l as [|x r IH]; simpl; [reflexivity|].
  rewrite insertByStart_Permutation, IH. reflexivity.
Qed.

Lemma insertByStart_sorted (d : nat * Session) (l : list (nat * Session)) :
  StronglySorted (fun x y => scheduledStart (snd y) <= scheduledStart (snd x))
    l ->
  StronglySorted (fun x y => scheduledStart (snd y) <= scheduledStart (snd x))
    (insertByStart d l).
Proof.
  induction l as [|x r IH]; simpl; intros Hs.
  - repeat constructor.
  - apply StronglySorted_inv in Hs as [Hr Hx].
    destruct (Z.leb_spec (scheduledStart (snd x)) (scheduledStart (snd d))).
    + constructor; [constructor; assumption|].
      constructor; [assumption|].
      eapply Forall_impl; [exact Hx|]. simpl. intros; lia.
    + constructor; [apply IH, Hr|].
      rewrite insertByStart_Permutation. constructor; [lia | exact Hx].
Qed.

Lemma sortByStartDesc_sorted (l : list (nat * Session)) :
  StronglySorted (fun x y => scheduledStart (snd y) <= scheduledStart (snd x))
    (sortByStartDesc l).
Proof.
  induction l as [|x r IH]; simpl; [constructor|].
  apply insertByStart_sorted, IH.
Qed.

Lemma StronglySorted_drop {A : Type} (R : A -> A -> Prop) (n : nat)
    (l : list A) :
  StronglySorted R l -> StronglySorted R (drop n l).
Proof.
  revert l. induction n as [|n IH]; intros l Hs; [exact Hs|].
  destruct l as [|x r]; [constructor|].
  apply StronglySorted_inv in Hs as [Hr _]. simpl. apply IH, Hr.
Qed.

Lemma StronglySorted_take {A : Type} (R : A -> A -> Prop) (n : nat)
    (l : list A) :
  StronglySorted R l -> StronglySorted R (take n l).
Proof.
  revert l. induction n as [|n IH]; intros l Hs; [constructor|].
  destruct l as [|x r]; [constructor|].
  apply StronglySorted_inv in Hs as [Hr Hx]. simpl.
  constructor; [apply IH, Hr | apply Forall_take, Hx].
Qed.

Lemma listQuery_spec (u : nat) (role' : option ListRole)
    (status' : option Status) (j : nat) (t : Session) :
  listQuery u role' status' (j, t) = true
  <-> match role' with
      | Some as_student => student t = u
      | Some as_tutor => tutor t = u
      | None => student t = u \/ tutor t = u
      end
      /\ match status' with
         | Some v => status t = v
         | None => True
         end.
Proof.
  unfold listQuery. simpl. rewrite andb_true_iff.
  destruct role' as [[|]|], status' as [v|];
    rewrite ?orb_true_iff, ?bool_decide_eq_true; tauto.
Qed.

(** What the listing is made of. *)
Lemma mySessions_ok (u : nat) (req : ListReq) (st : State)
    (listing : Listing) :
  mySessions u req st = Ok listing ->
  let page := default 1 (qPage req) in
  let limit := default 20 (qLimit req) in
  let matching := find (listQuery u (qRole req) (qStatus req)) (sessions st) in
  let total := Z.of_nat (length matching) in
  1 <= page /\ 1 <= limit <= 100
  /\ listed listing
     = take (Z.to_nat limit)
         (drop (Z.to_nat ((page - 1) * limit)) (sortByStartDesc matching))
  /\ pagination listing
     = {| pgCurrent := page;
          pgPages := (total + limit - 1) / limit;
          pgTotal := total;
          pgHasNext := page * limit <? total;
          pgHasPrev := 1 <? page |}.
Proof.
  unfold mySessions.
  destruct (validPaging req) eqn:Hv; simpl negb; cbv iota; [|discriminate].
  intros [= <-]. cbv zeta. simpl.
  unfold validPaging in Hv. apply andb_true_iff in Hv as [Hp Hl].
  split; [destruct (qPage req); simpl; lia|].
  split; [destruct (qLimit req); simpl; lia|]. auto.
Qed.



(** X3.  A listing of sessions holds stored sessions only, each at most
    once, latest start first, and no more of them than the page size.
    Every listed session has the caller as a participant, in the role
    asked for and with the status asked for, if any.  When all the
    caller's matching sessions fit on the first page, they are all
    listed. *)
Theorem my_sessions_lists_own_sessions_in_order (u : nat) (req : ListReq)
    (st : State) (listing : Listing) :
  mySessions u req st = Ok listing ->
  StronglySorted (fun x y => scheduledStart (snd y) <= scheduledStart (snd x))
    (listed listing)
  /\ NoDup (map fst (listed listing))
  /\ (length (listed listing) <= Z.to_nat (default 20%Z (qLimit req)))%nat
  /\ (forall j t,
        In (j, t) (listed listing) ->
        sessions st !! j = Some t
        /\ isParticipant u t = true
        /\ match qRole req with
           | Some as_student => student t = u
           | Some as_tutor => tutor t = u
           | None => True
           end
        /\ match qStatus req with
           | Some v => status t = v
           | None => True
           end)
  /\ (default 1 (qPage req) = 1 ->
      pgTotal (pagination listing) <= default 20 (qLimit req) ->
      forall j t,
        sessions st !! j = Some t ->
        listQuery u (qRole req) (qStatus req) (j, t) = true ->
        In (j, t) (listed listing)).
Proof.
  intros Hok. apply mySessions_ok in Hok as (Hpage & Hlimit & -> & ->).
  set (matching := find (listQuery u (qRole req) (qStatus req)) (sessions st)).
  split; [apply StronglySorted_take, StronglySorted_drop,
            sortByStartDesc_sorted|].
  split.
  { change (NoDup (fst <$> take (Z.to_nat (default 20 (qLimit req)))
                     (drop (Z.to_nat ((default 1 (qPage req) - 1)
                                      * default 20 (qLimit req)))
                        (sortByStartDesc matching)))).
    rewrite fmap_take, fmap_drop.
    eapply sublist_NoDup; [|apply sublist_take].
    eapply sublist_NoDup; [|apply sublist_drop].
    rewrite (sortByStartDesc_Permutation matching). apply find_NoDup. }
  split; [rewrite length_take; lia|].
  split.
  - intros j t Hin. apply list_elem_of_In in Hin.
    apply elem_of_take in Hin as (i & Hin & _).
    apply list_elem_of_lookup_2 in Hin.
    apply (fun H => elem_of_sublist _ _ _ H (sublist_drop _ _)) in Hin.
    rewrite (sortByStartDesc_Permutation matching) in Hin.
    apply list_elem_of_In, find_spec in Hin as [Hs Hq].
    apply listQuery_spec in Hq as [Hr Hv].
    split; [exact Hs|]. split; [|split; [|exact Hv]].
    + unfold isParticipant. rewrite orb_true_iff, !bool_decide_eq_true.
      destruct (qRole req) as [[|]|]; tauto.
    + destruct (qRole req) as [[|]|]; auto.
  - simpl. intros H1 Hfit j t Hs Hq. rewrite H1. simpl.
    rewrite drop_0, take_ge.
    + apply list_elem_of_In.
      rewrite (sortByStartDesc_Permutation matching).
      apply list_elem_of_In, find_spec. auto.
    + rewrite (Permutation_length (sortByStartDesc_Permutation matching)).
      lia.
Qed.

Lemma my_sessions_lists_own_sessions_in_order_witness :
  let earlier :=
    Sample.session 1 2 (utc 2025 1 6 10 0) (utc 2025 1 6 11 0) scheduled
      false in
  let later :=
    Sample.session 3 1 (utc 2025 1 7 10 0) (utc 2025 1 7 11 0) scheduled
      false in
  let other :=
    Sample.session 3 2 (utc 2025 1 8 10 0) (utc 2025 1 8 11 0) scheduled
      false in
  let st := Sample.store [earlier; later; other] in
  let req :=
    {| qStatus := None; qRole := None; qPage := None; qLimit := None |} in
  exists listing,
    mySessions 1 req st = Ok listing
    /\ listed listing = [(1%nat, later); (0%nat, earlier)]
    /\ StronglySorted
         (fun x y => scheduledStart (snd y) <= scheduledStart (snd x))
         (listed listing)
    /\ NoDup (map fst (listed listing))
    /\ (length (listed listing) <= Z.to_nat (default 20%Z (qLimit req)))%nat
    /\ (forall j t,
          In (j, t) (listed listing) ->
          sessions st !! j = Some t
          /\ isParticipant 1 t = true
          /\ match qRole req with
             | Some as_student => student t = 1%nat
             | Some as_tutor => tutor t = 1%nat
             | None => True
             end
          /\ match qStatus req with
             | Some v => status t = v
             | None => True
             end)
    /\ (default 1 (qPage req) = 1 ->
        pgTotal (pagination listing) <= default 20 (qLimit req) ->
        forall j t,
          sessions st !! j = Some t ->
          listQuery 1 (qRole req) (qStatus req) (j, t) = true ->
          In (j, t) (listed listing)).
Proof.
  intros earlier later other st req.
  eexists. split; [reflexivity|]. split; [reflexivity|].
  apply (my_sessions_lists_own_sessions_in_order 1 req st). reflexivity.
Defined.

(** X4.  The pagination of a listing: the page and the page size are
    within their bounds (page at least 1, size from 1 to 100, by default
    1 and 20), the total counts every matching session of the caller,
    the number of pages is the total divided by the page size, rounded
    up, the page holds the sessions from position (page - 1) * size on,
    as many as there are up to the page size, a next page is announced
    exactly when the page is before the last one, and a previous page
    exactly when the page is after the first. *)
Theorem my_sessions_pagination (u : nat) (req : ListReq) (st : State)
    (listing : Listing) :
  mySessions u req st = Ok listing ->
  let page := default 1 (qPage req) in
  let limit := default 20 (qLimit req) in
  let p := pagination listing in
  (1 <= page /\ 1 <= limit <= 100)
  /\ pgCurrent p = page
  /\ pgTotal p
     = Z.of_nat
         (length (find (listQuery u (qRole req) (qStatus req)) (sessions st)))
  /\ (pgPages p - 1) * limit < pgTotal p <= pgPages p * limit
  /\ Z.of_nat (length (listed listing))
     = Z.max 0 (Z.min limit (pgTotal p - (page - 1) * limit))
  /\ (pgHasNext p = true <-> page < pgPages p)
  /\ (pgHasPrev p = true <-> 1 < page).
Proof.
  intros Hok. apply mySessions_ok in Hok as (Hpage & Hlimit & -> & ->).
  cbv zeta. cbn [pgCurrent pgPages pgTotal pgHasNext pgHasPrev].
  set (matching := find (listQuery u (qRole req) (qStatus req)) (sessions st)).
  set (total := Z.of_nat (length matching)).
  set (page := default 1 (qPage req)) in *.
  set (limit := default 20 (qLimit req)) in *.
  assert (Htotal : 0 <= total) by (subst total; lia).
  assert (Hq : limit * ((total + limit - 1) / limit) <= total + limit - 1
               < limit * ((total + limit - 1) / limit) + limit).
  { pose proof (Z.div_mod (total + limit - 1) limit).
    pose proof (Z.mod_pos_bound (total + limit - 1) limit). lia. }
  set (pages := (total + limit - 1) / limit) in *.
  split; [auto|]. split; [reflexivity|]. split; [reflexivity|].
  split; [nia|]. split.
  - rewrite length_take, length_drop,
      (Permutation_length (sortByStartDesc_Permutation matching)).
    fold total.
    assert (Hskip : 0 <= (page - 1) * limit) by nia.
    change (Z.of_nat (length matching)) with total. lia.
  - rewrite Z.ltb_lt. split; [split; nia | lia].
Qed.

Lemma my_sessions_pagination_witness :
  let s :=
    Sample.session 1 2 (utc 2025 1 6 10 0) (utc 2025 1 6 11 0) scheduled
      false in
  let st := Sample.store [s; s; s; s; s] in
  let req :=
    {| qStatus := Some scheduled; qRole := Some as_student;
       qPage := Some 2; qLimit := Some 2 |} in
  exists listing,
    mySessions 1 req st = Ok listing
    /\ pgPages (pagination listing) = 3
    /\ (let page := default 1 (qPage req) in
        let limit := default 20 (qLimit req) in
        let p := pagination listing in
        (1 <= page /\ 1 <= limit <= 100)
        /\ pgCurrent p = page
        /\ pgTotal p
           = Z.of_nat
               (length (find (listQuery 1 (qRole req) (qStatus req))
                          (sessions st)))
        /\ (pgPages p - 1) * limit < pgTotal p <= pgPages p * limit
        /\ Z.of_nat (length (listed listing))
           = Z.max 0 (Z.min limit (pgTotal p - (page - 1) * limit))
        /\ (pgHasNext p = true <-> page < pgPages p)
        /\ (pgHasPrev p = true <-> 1 < page)).
Proof.
  intros s st req.
  eexists. split; [reflexivity|]. split; [reflexivity|].
  apply (my_sessions_pagination 1 req st). reflexivity.
Defined.

(** ** Requests that fail *)

(** X5.  A request that is answered with a failure changes nothing:
    whichever of Book, Reschedule, Cancel, Start and End it is, the
    sessions, the users and the outgoing mail are as before. *)
Theorem failed_requests_change_nothing (clk : nat -> Z) (op : Op)
    (st st' : State) :
  outcome clk op st = Some (false, st') -> st' = st.
Proof.
  destruct op as [fuel u req|u id req|u id r|u id|u id n|]; simpl.
  - destruct (book fuel clk u req st) as [[reply st0]|] eqn:Hb;
      [|discriminate]. simpl. intros [= Hf <-].
    apply book_cases in Hb as [(_ & -> & _)|(_ & c & l & _ & -> & _)];
      [reflexivity | discriminate].
  - intros [= Hf <-].
    destruct (reschedule_cases clk u id req st)
      as [[_ H]|(session & _ & _ & _ & _ & _ & _ & H)]; [exact H|].
    rewrite H in Hf. discriminate.
  - intros [= Hf <-].
    destruct (cancel_cases clk u id r st)
      as [[_ H]|(session & _ & _ & _ & _ & H)]; [exact H|].
    rewrite H in Hf. discriminate.
  - intros [= Hf <-].
    destruct (start_cases clk u id st)
      as [[_ H]|(session & _ & _ & _ & _ & H)]; [exact H|].
    rewrite H in Hf. discriminate.
  - intros [= Hf <-].
    destruct (endSession_cases clk u id n st)
      as [[_ H]|(session & _ & _ & _ & _ & H)]; [exact H|].
    rewrite H in Hf. discriminate.
  - discriminate.
Qed.

(** A booking for a time that has passed. *)
Lemma failed_requests_change_nothing_witness :
  let req :=
    Sample.request 2 (utc 2025 1 6 10 0) (utc 2025 1 6 11 0) None in
  let clk := Sample.at_ (utc 2025 1 6 10 0) in
  let st := initial Sample.directory in
  outcome clk (OpBook 1 1 req) st = Some (false, st) /\ st = st.
Proof.
  intros req clk st.
  assert (H : outcome clk (OpBook 1 1 req) st = Some (false, st))
    by (vm_compute; reflexivity).
  split; [exact H|].
  exact (failed_requests_change_nothing clk (OpBook 1 1 req) st st H).
Defined.

(** ** Access *)



(** ** Cancel *)

Lemma cancelledWith_fields (u : nat) (r : string) (ms t : Z) (s : Session) :
  let s' := cancelledWith u r ms t s in
  status s' = cancelled
  /\ cancellation s'
     = Some {| cancelledBy := u; cancelledAt := t; reason := r |}
  /\ student s' = student s /\ tutor s' = tutor s
  /\ scheduledStart s' = scheduledStart s
  /\ scheduledEnd s' = scheduledEnd s
  /\ reminders s' = reminders s
  /\ actualStart s' = actualStart s /\ actualEnd s' = actualEnd s
  /\ notesStudent (notes s') = notesStudent (notes s)
  /\ notesTutor (notes s') = notesTutor (notes s)
  /\ notesAdmin (notes s')
     = if ms <? 24 * msPerHour then Some (lateCancellationNote ms)
       else notesAdmin (notes s).
Proof.
  unfold cancelledWith. destruct (ms <? 24 * msPerHour); repeat split.
Qed.

(** X7.  Cancel succeeds exactly when the reason, trimmed, has 1 to 500
    characters, the caller is the student or the tutor, and the status
    is scheduled or confirmed; the time plays no part, a session whose
    scheduled start has passed can still be cancelled.  A successful
    Cancel sets the status to cancelled, records who cancelled, when
    (the second reading of the clock) and the trimmed reason, keeps the
    participants, the window and the reminder record, leaves every
    other session and the users alone, and sends one cancellation
    notice. *)
Theorem cancel_succeeds_iff (clk : nat -> Z) (u id : nat) (r : string)
    (st : State) (s : Session) :
  sessions st !! id = Some s ->
  (succeeded (fst (cancel clk u id r st)) = true
   <-> lengthBetween 1 500 (trim r) = true
       /\ isParticipant u s = true
       /\ status s ∈ [scheduled; confirmed])
  /\ (succeeded (fst (cancel clk u id r st)) = true ->
      exists s',
        sessions (snd (cancel clk u id r st)) !! id = Some s'
        /\ status s' = cancelled
        /\ cancellation s'
           = Some {| cancelledBy := u; cancelledAt := clk 1%nat;
                     reason := trim r |}
        /\ student s' = student s /\ tutor s' = tutor s
        /\ scheduledStart s' = scheduledStart s
        /\ scheduledEnd s' = scheduledEnd s
        /\ reminders s' = reminders s
        /\ (forall j, j <> id ->
              sessions (snd (cancel clk u id r st)) !! j = sessions st !! j)
        /\ users (snd (cancel clk u id r st)) = users st
        /\ outbox (snd (cancel clk u id r st))
           = outbox st ++ [CancellationNotice id u]).
Proof.
  intros Hs.
  destruct (cancel_cases clk u id r st)
    as [[Hf Hst]|(session & Hid & Hp & Hstat & Hl & Heq)].
  - split.
    + split; [congruence|]. intros (Hl & Hp & Hstat). exfalso.
      revert Hf. unfold cancel. cbv zeta. rewrite Hl, Hs, Hp.
      rewrite bool_decide_eq_true_2 by exact Hstat. discriminate.
    + congruence.
  - rewrite Hs in Hid. injection Hid as <-. rewrite Heq. cbv zeta.
    cbn [fst snd succeeded].
    split; [tauto|]. intros _.
    destruct (cancelledWith_fields u (trim r) (scheduledStart s - clk 0%nat)
                (clk 1%nat) s) as (F1 & F2 & F3 & F4 & F5 & F6 & F7 & _).
    eexists. rewrite sessions_send.
    split; [apply lookup_saveSession_eq, Hs|].
    repeat split; auto.
    intros j Hj. apply lookup_saveSession_ne, Hj.
Qed.

(** A session that should have begun an hour ago is cancelled. *)
Lemma cancel_succeeds_iff_witness :
  let s :=
    Sample.session 1 2 (utc 2025 1 6 10 0) (utc 2025 1 6 11 0) scheduled
      false in
  let st := Sample.store [s] in
  let clk := Sample.at_ (utc 2025 1 6 11 0) in
  let r := "  held up at work "%string in
  (succeeded (fst (cancel clk 1 0 r st)) = true
   <-> lengthBetween 1 500 (trim r) = true
       /\ isParticipant 1 s = true
       /\ status s ∈ [scheduled; confirmed])
  /\ (succeeded (fst (cancel clk 1 0 r st)) = true ->
      exists s',
        sessions (snd (cancel clk 1 0 r st)) !! 0%nat = Some s'
        /\ status s' = cancelled
        /\ cancellation s'
           = Some {| cancelledBy := 1; cancelledAt := clk 1%nat;
                     reason := trim r |}
        /\ student s' = student s /\ tutor s' = tutor s
        /\ scheduledStart s' = scheduledStart s
        /\ scheduledEnd s' = scheduledEnd s
        /\ reminders s' = reminders s
        /\ (forall j, j <> 0%nat ->
              sessions (snd (cancel clk 1 0 r st)) !! j = sessions st !! j)
        /\ users (snd (cancel clk 1 0 r st)) = users st
        /\ outbox (snd (cancel clk 1 0 r st))
           = outbox st ++ [CancellationNotice 0 1]).
Proof.
  intros s st clk r.
  apply (cancel_succeeds_iff clk 1 0 r st s). reflexivity.
Defined.

Example cancel_after_the_scheduled_start :
  let s :=
    Sample.session 1 2 (utc 2025 1 6 10 0) (utc 2025 1 6 11 0) scheduled
      false in
  succeeded
    (fst (cancel (Sample.at_ (utc 2025 1 6 11 0)) 1 0 "  held up at work "
            (Sample.store [s])))
  = true
  /\ trim "  held up at work " = "held up at work"%string.
Proof. split; reflexivity. Qed.

(** X8.  A successful Cancel marks the session with an admin note
    exactly when fewer than 24 hours are left from the first reading of
    the clock to the scheduled start (also when the start has passed);
    with 24 hours or more the admin note stays as it was.  The notes of
    the student and of the tutor are not touched. *)
Theorem late_cancellation_is_noted (clk : nat -> Z) (u id : nat)
    (r : string) (st : State) (s : Session) :
  sessions st !! id = Some s ->
  succeeded (fst (cancel clk u id r st)) = true ->
  exists s',
    sessions (snd (cancel clk u id r st)) !! id = Some s'
    /\ notesStudent (notes s') = notesStudent (notes s)
    /\ notesTutor (notes s') = notesTutor (notes s)
    /\ (scheduledStart s - clk 0%nat < 24 * msPerHour ->
        is_Some (notesAdmin (notes s')))
    /\ (24 * msPerHour <= scheduledStart s - clk 0%nat ->
        notesAdmin (notes s') = notesAdmin (notes s)).
Proof.
  intros Hs Hok.
  destruct (cancel_cases clk u id r st)
    as [[Hf _]|(session & Hid & _ & _ & _ & Heq)]; [congruence|].
  rewrite Hs in Hid. injection Hid as <-. rewrite Heq. cbv zeta.
  cbn [snd]. rewrite sessions_send.
  destruct (cancelledWith_fields u (trim r) (scheduledStart s - clk 0%nat)
              (clk 1%nat) s)
    as (_ & _ & _ & _ & _ & _ & _ & _ & _ & N1 & N2 & N3).
  eexists. split; [apply lookup_saveSession_eq, Hs|].
  split; [exact N1|]. split; [exact N2|].
  rewrite N3.
  destruct (Z.ltb_spec (scheduledStart s - clk 0%nat) (24 * msPerHour));
    split; intros; try lia; eauto.
Qed.

(** Exactly 24 hours ahead: no note. *)
Lemma late_cancellation_is_noted_witness :
  let s :=
    Sample.session 1 2 (utc 2025 1 6 10 0) (utc 2025 1 6 11 0) scheduled
      false in
  let st := Sample.store [s] in
  let clk := Sample.at_ (utc 2025 1 5 10 0) in
  exists s',
    sessions (snd (cancel clk 2 0 "ill" st)) !! 0%nat = Some s'
    /\ notesStudent (notes s') = notesStudent (notes s)
    /\ notesTutor (notes s') = notesTutor (notes s)
    /\ (scheduledStart s - clk 0%nat < 24 * msPerHour ->
        is_Some (notesAdmin (notes s')))
    /\ (24 * msPerHour <= scheduledStart s - clk 0%nat ->
        notesAdmin (notes s') = notesAdmin (notes s)).
Proof.
  intros s st clk.
  apply (late_cancellation_is_noted clk 2 0 "ill" st s); reflexivity.
Defined.

Example cancellation_notes :
  let s :=
    Sample.session 1 2 (utc 2025 1 6 10 0) (utc 2025 1 6 11 0) scheduled
      false in
  let noted (t : Z) :=
    (fun x => notesAdmin (notes x))
      <$> sessions (snd (cancel (Sample.at_ t) 2 0 "ill" (Sample.store [s])))
          !! 0%nat in
  noted (utc 2025 1 5 10 0) = Some None
  /\ noted (utc 2025 1 5 10 1) <> Some None
  /\ noted (utc 2025 1 6 12 0) <> Some None.
Proof. repeat split; vm_compute; congruence. Qed.

(** The white space that [trim] strips includes the no-break space: a
    reason that consists of it is refused by the validator. *)
Example a_blank_reason_is_refused :
  let s :=
    Sample.session 1 2 (utc 2025 1 6 10 0) (utc 2025 1 6 11 0) scheduled
      false in
  let st := Sample.store [s] in
  let clk := Sample.at_ (utc 2025 1 5 10 0) in
  let nbsp := String (ascii_of_nat 160) EmptyString in
  cancel clk 1 0 nbsp st = (ValidationErrors, st)
  /\ cancel clk 1 0 (nbsp ++ " " ++ nbsp) st = (ValidationErrors, st)
  /\ trim (nbsp ++ "ill " ++ nbsp) = "ill"%string.
Proof. repeat split; vm_compute; reflexivity. Qed.

(** The text of the note: [toFixed(1)] rounds the double, so nine
    minutes (0.15 hours, a double just below it) are 0.1 hours and a
    quarter of an hour is 0.3; a start that has passed is given with
    its sign, also when it rounds to zero. *)
Example late_cancellation_note_texts :
  lateCancellationNote (9 * msPerMinute)
  = "Late cancellation (0.1 hours notice)"%string
  /\ lateCancellationNote (15 * msPerMinute)
     = "Late cancellation (0.3 hours notice)"%string
  /\ lateCancellationNote (3 * msPerMinute)
     = "Late cancellation (0.1 hours notice)"%string
  /\ lateCancellationNote (24 * msPerHour - 1)
     = "Late cancellation (24.0 hours notice)"%string
  /\ lateCancellationNote 0 = "Late cancellation (0.0 hours notice)"%string
  /\ lateCancellationNote (-1)
     = "Late cancellation (-0.0 hours notice)"%string
  /\ lateCancellationNote (- (3 * msPerMinute))
     = "Late cancellation (-0.1 hours notice)"%string
  /\ lateCancellationNote (- (25 * msPerHour))
     = "Late cancellation (-25.0 hours notice)"%string.
Proof. repeat split; vm_compute; reflexivity. Qed.

(** ** The statuses a handler accepts *)

(** X9.  Reschedule, Cancel and Start fail on every session whose status
    is not scheduled or confirmed (ongoing, completed, cancelled or
    no-show), whoever calls and whatever the request and the time. *)
Theorem handlers_refuse_other_statuses (clk : nat -> Z) (u id : nat)
    (req : RescheduleReq) (r : string) (st : State) (s : Session) :
  sessions st !! id = Some s ->
  status s ∉ [scheduled; confirmed] ->
  succeeded (fst (reschedule clk u id req st)) = false
  /\ succeeded (fst (cancel clk u id r st)) = false
  /\ succeeded (fst (start clk u id st)) = false.
Proof.
  intros Hs Hnot. split; [|split].
  - destruct (reschedule_cases clk u id req st)
      as [[H _]|(session & Hid & _ & Hst & _)]; [exact H|].
    rewrite Hs in Hid. injection Hid as <-. contradiction.
  - destruct (cancel_cases clk u id r st)
      as [[H _]|(session & Hid & _ & Hst & _)]; [exact H|].
    rewrite Hs in Hid. injection Hid as <-. contradiction.
  - destruct (start_cases clk u id st)
      as [[H _]|(session & Hid & _ & Hst & _)]; [exact H|].
    rewrite Hs in Hid. injection Hid as <-. contradiction.
Qed.

Lemma handlers_refuse_other_statuses_witness :
  let s :=
    Sample.session 1 2 (utc 2025 1 6 10 0) (utc 2025 1 6 11 0) ongoing
      false in
  let st := Sample.store [s] in
  let clk := Sample.at_ (utc 2025 1 6 10 5) in
  let req :=
    {| newScheduledStart := utc 2025 1 7 10 0;
       newScheduledEnd := utc 2025 1 7 11 0;
       rescheduleReason := None |} in
  (status s ∉ [scheduled; confirmed])
  /\ succeeded (fst (reschedule clk 1 0 req st)) = false
  /\ succeeded (fst (cancel clk 1 0 "no time" st)) = false
  /\ succeeded (fst (start clk 1 0 st)) = false.
Proof.
  intros s st clk req.
  assert (Hnot : status s ∉ [scheduled; confirmed]).
  { rewrite !not_elem_of_cons. repeat split; try discriminate.
    apply not_elem_of_nil. }
  split; [exact Hnot|].
  apply (handlers_refuse_other_statuses clk 1 0 req "no time" st s);
    [reflexivity | exact Hnot].
Defined.

Example an_ongoing_session_cannot_be_cancelled :
  let s :=
    Sample.session 1 2 (utc 2025 1 6 10 0) (utc 2025 1 6 11 0) ongoing
      false in
  let clk := Sample.at_ (utc 2025 1 6 10 5) in
  fst (cancel clk 1 0 "no time" (Sample.store [s]))
  = BadRequest "Session cannot be cancelled"
  /\ fst (reschedule clk 1 0
            {| newScheduledStart := utc 2025 1 7 10 0;
               newScheduledEnd := utc 2025 1 7 11 0;
               rescheduleReason := None |} (Sample.store [s]))
     = BadRequest "Session cannot be rescheduled"
  /\ fst (start clk 1 0 (Sample.store [s]))
     = BadRequest "Session cannot be started".
Proof. repeat split; reflexivity. Qed.

(** ** Sessions that are closed *)

Lemma closed_not_open (s : Session) :
  closed s -> ~ status s ∈ [scheduled; confirmed] /\ status s <> ongoing.
Proof.
  unfold closed. rewrite !elem_of_cons, !elem_of_nil.
  intros [H|[H|[H|[]]]]; rewrite H; split;
    try discriminate; intros [|[|[]]]; discriminate.
Qed.

Lemma exec_closed (clk : nat -> Z) (op : Op) (st st' : State) (id : nat)
    (s : Session) :
  exec clk op st = Some st' ->
  sessions st !! id = Some s -> closed s ->
  sessions st' !! id = Some s
  /\ reminderCount id (outbox st') = reminderCount id (outbox st).
Proof.
  intros Hexec Hs Hc. apply closed_not_open in Hc as [Hc1 Hc2].
  assert (Hsave : forall j f session (st0 : State),
            sessions st0 !! j = Some session ->
            (status session ∈ [scheduled; confirmed]
             \/ status session = ongoing) ->
            sessions st0 !! id = Some s ->
            sessions (saveSession j f st0) !! id = Some s).
  { intros j f session st0 Hj Hst Hid.
    rewrite lookup_saveSession_ne; [exact Hid|].
    intros ->. rewrite Hid in Hj. injection Hj as <-. tauto. }
  destruct op as [fuel u req|u j req|u j r|u j|u j n|]; simpl in Hexec.
  - destruct (book fuel clk u req st) as [[reply st0]|] eqn:Hb;
      [|discriminate]. injection Hexec as ->.
    apply book_state in Hb as [[_ ->]|(_ & created & _ & ->)]; [auto|].
    split; [apply booked_lookup_old, Hs|].
    simpl. apply reminderCount_snoc_other. discriminate.
  - injection Hexec as <-.
    destruct (reschedule_cases clk u j req st)
      as [[_ ->]|(session & Hid & _ & Hst & _ & _ & _ & ->)]; [auto|].
    cbn [snd]. rewrite sessions_send.
    split; [eapply Hsave; eauto|].
    simpl. apply reminderCount_snoc_other. discriminate.
  - injection Hexec as <-.
    destruct (cancel_cases clk u j r st)
      as [[_ ->]|(session & Hid & _ & Hst & _ & ->)]; [auto|].
    cbn [snd]. rewrite sessions_send.
    split; [eapply Hsave; eauto|].
    simpl. apply reminderCount_snoc_other. discriminate.
  - injection Hexec as <-.
    destruct (start_cases clk u j st)
      as [[_ ->]|(session & Hid & _ & Hst & _ & ->)]; [auto|].
    cbn [snd]. split; [eapply Hsave; eauto | reflexivity].
  - injection Hexec as <-.
    destruct (endSession_cases clk u j n st)
      as [[_ ->]|(session & Hid & _ & Hst & _ & ->)]; [auto|].
    cbn [snd]. rewrite sessions_with_users.
    split; [eapply Hsave; eauto | reflexivity].
  - injection Hexec as <-. unfold reminderSweep.
    set (docs := find (reminderQuery (clk 1%nat)
                         (clk 0%nat + 24 * 60 * 60 * 1000)) (sessions st)).
    assert (Hout : ~ In id (map fst docs)).
    { intros Hin. apply in_map_iff in Hin as ([i x] & Hfst & Hdoc).
      simpl in Hfst. subst i. apply find_spec in Hdoc as [Hx Hq].
      rewrite Hs in Hx. injection Hx as <-.
      apply reminderQuery_spec in Hq as (_ & Hst & _). contradiction. }
    destruct (remindAll_sessions clk docs 2 st id s Hs)
      as (s' & Hs' & _ & _ & Hsame).
    rewrite (Hsame Hout) in Hs'. split; [exact Hs'|].
    destruct (remindAll_outbox clk docs 2 st) as [-> _].
    rewrite reminderCount_app,
      (reminderCount_selected id docs (find_NoDup _ _)).
    rewrite bool_decide_eq_false_2; [lia|].
    rewrite list_elem_of_In. exact Hout.
Qed.

(** X10.  A session that is completed, cancelled or a no-show is frozen:
    after any run of bookings, reschedules, cancellations, starts, ends
    and reminder sweeps the stored document is the same in every field,
    and no reminder has been sent for it in the meantime. *)
Theorem closed_sessions_are_frozen (ops : list ((nat -> Z) * Op))
    (st st' : State) (id : nat) (s : Session) :
  run ops st = Some st' ->
  sessions st !! id = Some s ->
  closed s ->
  sessions st' !! id = Some s
  /\ reminderCount id (outbox st') = reminderCount id (outbox st).
Proof.
  revert st. induction ops as [|[clk op] rest IH]; intros st Hrun Hs Hc.
  - injection Hrun as <-. auto.
  - simpl in Hrun. destruct (exec clk op st) as [st1|] eqn:Hexec;
      [|discriminate].
    destruct (exec_closed _ _ _ _ _ _ Hexec Hs Hc) as [Hs1 Hn1].
    destruct (IH st1 Hrun Hs1 Hc) as [Hs' Hn']. split; [exact Hs'|].
    congruence.
Qed.

Lemma closed_sessions_are_frozen_witness :
  let s :=
    Sample.session 1 2 (utc 2025 1 6 10 0) (utc 2025 1 6 11 0) cancelled
      false in
  let st := Sample.store [s] in
  let clk := Sample.at_ (utc 2025 1 5 12 0) in
  let ops :=
    [ (clk, OpSweep); (clk, OpStart 1 0); (clk, OpCancel 2 0 "again");
      (clk, OpReschedule 1 0
              {| newScheduledStart := utc 2025 1 7 10 0;
                 newScheduledEnd := utc 2025 1 7 11 0;
                 rescheduleReason := None |});
      (clk, OpSweep) ] in
  exists st',
    run ops st = Some st'
    /\ sessions st' !! 0%nat = Some s
    /\ reminderCount 0 (outbox st') = reminderCount 0 (outbox st).
Proof.
  intros s st clk ops.
  eexists. split; [vm_compute; reflexivity|].
  apply (closed_sessions_are_frozen ops st _ 0%nat s).
  - vm_compute. reflexivity.
  - reflexivity.
  - unfold closed. simpl. rewrite !elem_of_cons. tauto.
Defined.

(** ** Cancelling frees the window *)

(** X11.  After a successful Cancel the conflict detector reports, for
    any candidate, what it reported before except the cancelled
    session; so a window whose only conflict was that session is
    free. *)
Theorem cancel_frees_the_window (clk : nat -> Z) (u id : nat) (r : string)
    (st : State) :
  succeeded (fst (cancel clk u id r st)) = true ->
  forall (studentId tutorId : nat) (a b : Z) (excl : option nat),
    (forall j t,
       In (j, t)
         (checkSchedulingConflicts (sessions (snd (cancel clk u id r st)))
            studentId tutorId a b excl)
       <-> j <> id
           /\ In (j, t)
                (checkSchedulingConflicts (sessions st) studentId tutorId a b
                   excl))
    /\ ((forall d,
           In d (checkSchedulingConflicts (sessions st) studentId tutorId a b
                   excl) ->
           fst d = id) ->
        checkSchedulingConflicts (sessions (snd (cancel clk u id r st)))
          studentId tutorId a b excl = []).
Proof.
  intros Hok studentId tutorId a b excl.
  destruct (cancel_cases clk u id r st)
    as [[Hf _]|(session & Hid & _ & _ & _ & Heq)]; [congruence|].
  rewrite Heq. cbv zeta. cbn [snd]. rewrite sessions_send.
  set (f := cancelledWith u (trim r) (scheduledStart session - clk 0%nat)
              (clk 1%nat)).
  assert (Hiff : forall j t,
            In (j, t)
              (checkSchedulingConflicts (sessions (saveSession id f st))
                 studentId tutorId a b excl)
            <-> j <> id
                /\ In (j, t)
                     (checkSchedulingConflicts (sessions st) studentId tutorId
                        a b excl)).
  { intros j t. rewrite !checkSchedulingConflicts_spec.
    destruct (decide (j = id)) as [->|Hne].
    - rewrite (lookup_saveSession_eq _ _ _ _ Hid). split; [|tauto].
      intros ([= <-] & _ & Hact & _). exfalso. revert Hact.
      subst f. destruct (cancelledWith_fields u (trim r)
                           (scheduledStart session - clk 0%nat) (clk 1%nat)
                           session) as (-> & _).
      rewrite !elem_of_cons, elem_of_nil. intros [|[|[|[]]]]; discriminate.
    - rewrite (lookup_saveSession_ne _ _ _ _ Hne). tauto. }
  split; [exact Hiff|].
  intros Honly.
  destruct (checkSchedulingConflicts (sessions (saveSession id f st))
              studentId tutorId a b excl) as [|[j t] rest] eqn:Hc;
    [reflexivity|].
  exfalso.
  assert (Hin : In (j, t) ((j, t) :: rest)) by (left; reflexivity).
  apply Hiff in Hin as [Hne Hin].
  apply Hne, (Honly (j, t) Hin).
Qed.

Lemma cancel_frees_the_window_witness :
  let s :=
    Sample.session 1 2 (utc 2025 1 6 10 0) (utc 2025 1 6 11 0) scheduled
      false in
  let st := Sample.store [s] in
  let clk := Sample.at_ (utc 2025 1 1 0 0) in
  checkSchedulingConflicts (sessions st) 3 2 (utc 2025 1 6 10 0)
    (utc 2025 1 6 11 0) None = [(0%nat, s)]
  /\ forall (studentId tutorId : nat) (a b : Z) (excl : option nat),
       (forall j t,
          In (j, t)
            (checkSchedulingConflicts
               (sessions (snd (cancel clk 1 0 "ill" st)))
               studentId tutorId a b excl)
          <-> j <> 0%nat
              /\ In (j, t)
                   (checkSchedulingConflicts (sessions st) studentId tutorId
                      a b excl))
       /\ ((forall d,
              In d (checkSchedulingConflicts (sessions st) studentId tutorId
                      a b excl) ->
              fst d = 0%nat) ->
           checkSchedulingConflicts
             (sessions (snd (cancel clk 1 0 "ill" st)))
             studentId tutorId a b excl = []).
Proof.
  intros s st clk. split; [reflexivity|].
  apply (cancel_frees_the_window clk 1 0 "ill" st). reflexivity.
Defined.

(** ** Bookings *)

(** A one-off booking is answered whatever the fuel. *)
Lemma book_oneOff_returns (fuel : nat) (clk : nat -> Z) (caller : nat)
    (req : BookReq) (st : State) :
  oneOffReq req ->
  exists reply st', book fuel clk caller req st = Some (reply, st').
Proof.
  intros Hone. unfold book.
  destruct (negb (Nat.leb 1 _)); [eauto|]. cbv zeta.
  destruct (_ <=? _); [eauto|]. destruct (_ <=? _); [eauto|].
  destruct (users st !! reqTutor req) as [tutor'|]; [|eauto].
  destruct (negb (bool_decide _)); [eauto|].
  destruct (Nat.ltb 0 _); [eauto|].
  destruct (negb (checkTutorAvailability _ _ _ _)); [eauto|].
  destruct (negb (validates _)); [eauto|].
  rewrite createSessions_oneOff by exact Hone.
  destruct (reqType req); simpl; eauto.
Qed.

(** X12.  A booking that is not recurring is always answered.  It
    succeeds exactly when the trimmed subject is not empty, the start is
    before the end and after the time read, the tutor exists with role
    tutor or both, the conflict detector finds nothing for the caller and
    the tutor in the window, the availability checker accepts the
    window, and the description and the price pass the schema.  A
    successful booking appends one session under the next free id, with
    the caller as student, the trimmed subject, the requested window,
    status scheduled and no reminder sent, gives it its meeting link
    when the booking is online, leaves the users alone, sends one
    booking notice, and answers with the summary of that session. *)
Theorem one_off_booking_succeeds_iff (fuel : nat) (clk : nat -> Z)
    (caller : nat) (req : BookReq) (st : State) :
  oneOffReq req ->
  exists reply st',
    book fuel clk caller req st = Some (reply, st')
    /\ (succeeded reply = true <-> bookable clk caller req st)
    /\ (succeeded reply = true ->
        exists s,
          reply = Ok [summary (length (sessions st)) s]
          /\ sessions st' = sessions st ++ [s]
          /\ users st' = users st
          /\ outbox st' = outbox st ++ [BookingNotice (length (sessions st))]
          /\ student s = caller /\ tutor s = reqTutor req
          /\ subject s = trim (reqSubject req)
          /\ scheduledStart s = reqScheduledStart req
          /\ scheduledEnd s = reqScheduledEnd req
          /\ status s = scheduled
          /\ reminders s = noReminder
          /\ recurring s = notRecurring
          /\ (reqType req = online ->
              meetingLink (location s)
              = Some (generateMeetingLink (length (sessions st))))
          /\ (reqType req = offline ->
              location s = default noLocation (reqLocation req))).
Proof.
  intros Hone.
  destruct (book_oneOff_returns fuel clk caller req st Hone)
    as (reply & st' & Hb).
  exists reply, st'. split; [exact Hb|].
  apply book_cases in Hb
    as [(Hf & -> & Hnot)|(Hok & created & coll & Hc & -> & ->)].
  - split; [split; [congruence | contradiction] | congruence].
  - split; [split; auto|]. intros _.
    rewrite createSessions_oneOff in Hc by exact Hone.
    injection Hc as <- _.
    exists (bookedSession caller req (length (sessions st))).
    unfold bookedSession. simpl.
    destruct (reqType req); simpl; repeat split; congruence.
Qed.

Lemma one_off_booking_succeeds_iff_witness :
  let req :=
    {| reqTutor := 2; reqSubject := "  Linear algebra ";
       reqDescription := None;
       reqScheduledStart := utc 2025 1 6 10 0;
       reqScheduledEnd := utc 2025 1 6 11 0;
       reqType := online; reqLocation := None; reqPrice := Some 50;
       reqRecurring := None |} in
  let clk := Sample.at_ (utc 2025 1 1 0 0) in
  let st := initial Sample.directory in
  exists reply st',
    book 0 clk 1 req st = Some (reply, st')
    /\ (succeeded reply = true <-> bookable clk 1 req st)
    /\ (succeeded reply = true ->
        exists s,
          reply = Ok [summary (length (sessions st)) s]
          /\ sessions st' = sessions st ++ [s]
          /\ users st' = users st
          /\ outbox st' = outbox st ++ [BookingNotice (length (sessions st))]
          /\ student s = 1%nat /\ tutor s = reqTutor req
          /\ subject s = trim (reqSubject req)
          /\ scheduledStart s = reqScheduledStart req
          /\ scheduledEnd s = reqScheduledEnd req
          /\ status s = scheduled
          /\ reminders s = noReminder
          /\ recurring s = notRecurring
          /\ (reqType req = online ->
              meetingLink (location s)
              = Some (generateMeetingLink (length (sessions st))))
          /\ (reqType req = offline ->
              location s = default noLocation (reqLocation req))).
Proof.
  intros req clk st.
  apply (one_off_booking_succeeds_iff 0 clk 1 req st). exact I.
Defined.

Example a_booking_is_accepted :
  let req :=
    {| reqTutor := 2; reqSubject := "  Linear algebra ";
       reqDescription := None;
       reqScheduledStart := utc 2025 1 6 10 0;
       reqScheduledEnd := utc 2025 1 6 11 0;
       reqType := online; reqLocation := None; reqPrice := Some 50;
       reqRecurring := None |} in
  (fun r => (fst r, subject <$> sessions (snd r) !! 0%nat))
    <$> book 0 (Sample.at_ (utc 2025 1 1 0 0)) 1 req
          (initial Sample.directory)
  = Some (Ok [ {| sumId := 0; sumScheduledStart := utc 2025 1 6 10 0;
                  sumScheduledEnd := utc 2025 1 6 11 0;
                  sumStatus := scheduled |} ],
          Some "Linear algebra"%string).
Proof. vm_compute. reflexivity. Qed.

(** A subject of white space only, the no-break space included, is
    refused by the validator. *)
Example a_blank_subject_is_refused :
  let st := initial Sample.directory in
  let nbsp := String (ascii_of_nat 160) EmptyString in
  let req :=
    {| reqTutor := 2; reqSubject := (nbsp ++ " " ++ nbsp)%string;
       reqDescription := None;
       reqScheduledStart := utc 2025 1 6 10 0;
       reqScheduledEnd := utc 2025 1 6 11 0;
       reqType := offline; reqLocation := None; reqPrice := Some 50;
       reqRecurring := None |} in
  book 1 (Sample.at_ (utc 2025 1 1 0 0)) 1 req st
  = Some (ValidationErrors, st).
Proof. vm_compute. reflexivity. Qed.

(** X13.  A recurring booking that names no frequency and whose end date
    lies after its start is never answered: the date of the loop does
    not move, so however long the expansion runs it has not finished. *)
Theorem recurring_booking_without_frequency_never_returns (fuel : nat)
    (clk : nat -> Z) (caller : nat) (req : BookReq) (st : State)
    (r : RecurringReq) :
  bookable clk caller req st ->
  reqRecurring req = Some r ->
  reqIsRecurring r = true ->
  reqFrequency r = None ->
  reqScheduledStart req < reqEndDate r ->
  book fuel clk caller req st = None.
Proof.
  intros Hok Hr Hrec Hfreq Hend.
  rewrite (book_bookable fuel clk caller req st Hok).
  unfold createSessions. rewrite Hr, Hrec.
  unfold createRecurringSessions, insertSession. rewrite Hfreq.
  rewrite recurringLoop_without_frequency; [reflexivity|]. exact Hend.
Qed.

Lemma recurring_booking_without_frequency_never_returns_witness :
  let r := {| reqIsRecurring := true; reqFrequency := None;
              reqEndDate := utc 2025 2 1 0 0 |} in
  let req :=
    Sample.request 2 (utc 2025 1 6 10 0) (utc 2025 1 6 11 0) (Some r) in
  book 1000 (Sample.at_ (utc 2025 1 1 0 0)) 1 req (initial Sample.directory)
  = None.
Proof.
  intros r req.
  apply (recurring_booking_without_frequency_never_returns 1000
           (Sample.at_ (utc 2025 1 1 0 0)) 1 req (initial Sample.directory)
           r).
  - unfold bookable. split; [vm_compute; lia|].
    split; [reflexivity|]. split; [reflexivity|]. split.
    + exists {| role := role_tutor; availability := [Sample.mondays];
                stats := Sample.noStats |}.
      split; [reflexivity|]. apply elem_of_cons. left. reflexivity.
    + repeat split; reflexivity.
  - reflexivity.
  - reflexivity.
  - reflexivity.
  - reflexivity.
Defined.

(** X14.  A recurring booking with a frequency that passes the checks is
    answered once the expansion has run: with n the number of frequency
    steps from the start that stay before the end date, it stores n + 1
    sessions under consecutive ids, session k starting k steps after the
    requested start and lasting as long as the requested window, all
    scheduled and unreminded, each with the meeting link of its own id
    when the booking is online; the sessions stored before are
    untouched, the answer lists the n + 1 sessions in order, and a
    single booking notice is sent, for the first of them. *)
Theorem recurring_booking_stores_the_series (clk : nat -> Z) (caller : nat)
    (req : BookReq) (st : State) (f : Frequency) (endDate' : Z)
    (extra : nat) :
  bookable clk caller req st ->
  reqRecurring req
  = Some {| reqIsRecurring := true; reqFrequency := Some f;
            reqEndDate := endDate' |} ->
  let start := reqScheduledStart req in
  let duration := reqScheduledEnd req - start in
  let first := length (sessions st) in
  let nthStart k := Nat.iter k (advance (Some f)) start in
  exists n body st',
    book (recurrenceFuel start endDate' + extra) clk caller req st
    = Some (Ok body, st')
    /\ length body = S n
    /\ (forall k, (k <= n)%nat ->
          body !! k
          = Some {| sumId := first + k; sumScheduledStart := nthStart k;
                    sumScheduledEnd := nthStart k + duration;
                    sumStatus := scheduled |})
    /\ length (sessions st') = (first + S n)%nat
    /\ (forall j, (j < first)%nat -> sessions st' !! j = sessions st !! j)
    /\ (forall k, (k <= n)%nat ->
          exists s,
            sessions st' !! (first + k)%nat = Some s
            /\ student s = caller /\ tutor s = reqTutor req
            /\ scheduledStart s = nthStart k
            /\ scheduledEnd s = nthStart k + duration
            /\ status s = scheduled
            /\ sent (reminders s) = false
            /\ isRecurring (recurring s) = true
            /\ (reqType req = online ->
                meetingLink (location s)
                = Some (generateMeetingLink (first + k))))
    /\ users st' = users st
    /\ outbox st' = outbox st ++ [BookingNotice first]
    /\ (forall k, (1 <= k <= n)%nat -> nthStart k < endDate')
    /\ endDate' <= nthStart (S n).
Proof.
  intros Hok Hr start duration first nthStart.
  rewrite (book_bookable _ clk caller req st Hok).
  unfold createSessions. rewrite Hr. cbn [reqIsRecurring].
  destruct (createRecurringSessions_series (sessionDataOf caller req) f
              endDate' (sessions st) extra)
    as (n & children & Hrun & Hlen & Hkids & Hbefore & Hstop).
  cbn [dataScheduledStart dataScheduledEnd sessionDataOf] in Hrun, Hkids,
    Hbefore, Hstop.
  fold start in Hrun, Hkids, Hbefore, Hstop.
  fold duration in Hkids. fold first in Hrun, Hkids.
  fold start. rewrite Hrun.
  set (data := sessionDataOf caller req) in *.
  set (parent := newSession data start (reqScheduledEnd req)
                   (parentRecurring (Some f) endDate')) in *.
  set (created := (first, parent) :: children).
  assert (Hcreated : forall k, (k <= n)%nat ->
            exists rec,
              created !! k
              = Some ((first + k)%nat,
                      newSession data (nthStart k) (nthStart k + duration)
                        rec)
              /\ isRecurring rec = true).
  { intros [|k] Hk.
    - exists (parentRecurring (Some f) endDate'). split; [|reflexivity].
      subst created parent. simpl.
      replace (first + 0)%nat with first by lia.
      replace (start + duration) with (reqScheduledEnd req)
        by (subst duration; lia).
      reflexivity.
    - exists (childRecurring (Some f) endDate' first). split; [|reflexivity].
      subst created. simpl. rewrite Hkids by lia.
      replace (first + S k)%nat with (S (first + k)) by lia. reflexivity. }
  exists n, (map (fun d => summary (fst d) (snd d)) created),
    (booked (reqType req) created st).
  split; [reflexivity|].
  split; [rewrite length_map; subst created; simpl; congruence|].
  split.
  { intros k Hk. destruct (Hcreated k Hk) as (rec & Hc & _).
    change (map ?g created) with (g <$> created).
    rewrite list_lookup_fmap, Hc. reflexivity. }
  split.
  { unfold booked. cbn [sessions]. rewrite length_app, !length_map.
    subst created. simpl. lia. }
  split.
  { intros j Hj. unfold booked. cbn [sessions]. apply lookup_app_l.
    exact Hj. }
  split.
  { intros k Hk. destruct (Hcreated k Hk) as (rec & Hc & Hrec).
    exists (snd (linked (reqType req)
                   ((first + k)%nat,
                    newSession data (nthStart k) (nthStart k + duration)
                      rec))).
    split.
    - unfold booked. cbn [sessions].
      rewrite lookup_app_r by (fold first; lia).
      replace (first + k - length (sessions st))%nat with k
        by (subst first; lia).
      change (map snd (map (linked (reqType req)) created))
        with (snd <$> (linked (reqType req) <$> created)).
      rewrite !list_lookup_fmap, Hc. reflexivity.
    - destruct (reqType req); simpl; repeat split; auto; discriminate. }
  split; [reflexivity|]. split; [reflexivity|].
  split; [exact Hbefore | exact Hstop].
Qed.

(** Three Mondays, booked online. *)
Lemma recurring_booking_stores_the_series_witness :
  let req :=
    {| reqTutor := 2; reqSubject := "Mathematics"; reqDescription := None;
       reqScheduledStart := utc 2025 1 6 10 0;
       reqScheduledEnd := utc 2025 1 6 11 0;
       reqType := online; reqLocation := None; reqPrice := None;
       reqRecurring :=
         Some {| reqIsRecurring := true; reqFrequency := Some weekly;
                 reqEndDate := utc 2025 1 27 0 0 |} |} in
  let clk := Sample.at_ (utc 2025 1 1 0 0) in
  let st := initial Sample.directory in
  let start := reqScheduledStart req in
  let duration := reqScheduledEnd req - start in
  let first := length (sessions st) in
  let nthStart k := Nat.iter k (advance (Some weekly)) start in
  exists n body st',
    book (recurrenceFuel start (utc 2025 1 27 0 0) + 0) clk 1 req st
    = Some (Ok body, st')
    /\ length body = S n
    /\ (forall k, (k <= n)%nat ->
          body !! k
          = Some {| sumId := first + k; sumScheduledStart := nthStart k;
                    sumScheduledEnd := nthStart k + duration;
                    sumStatus := scheduled |})
    /\ length (sessions st') = (first + S n)%nat
    /\ (forall j, (j < first)%nat -> sessions st' !! j = sessions st !! j)
    /\ (forall k, (k <= n)%nat ->
          exists s,
            sessions st' !! (first + k)%nat = Some s
            /\ student s = 1%nat /\ tutor s = reqTutor req
            /\ scheduledStart s = nthStart k
            /\ scheduledEnd s = nthStart k + duration
            /\ status s = scheduled
            /\ sent (reminders s) = false
            /\ isRecurring (recurring s) = true
            /\ (reqType req = online ->
                meetingLink (location s)
                = Some (generateMeetingLink (first + k))))
    /\ users st' = users st
    /\ outbox st' = outbox st ++ [BookingNotice first]
    /\ (forall k, (1 <= k <= n)%nat -> nthStart k < utc 2025 1 27 0 0)
    /\ utc 2025 1 27 0 0 <= nthStart (S n).
Proof.
  intros req clk st start duration first nthStart.
  apply (recurring_booking_stores_the_series clk 1 req st weekly
           (utc 2025 1 27 0 0) 0).
  - unfold bookable. split; [vm_compute; lia|].
    split; [reflexivity|]. split; [reflexivity|]. split.
    + exists {| role := role_tutor; availability := [Sample.mondays];
                stats := Sample.noStats |}.
      split; [reflexivity|]. apply elem_of_cons. left. reflexivity.
    + repeat split; reflexivity.
  - reflexivity.
Defined.

Example three_mondays_booked_online :
  let req :=
    {| reqTutor := 2; reqSubject := "Mathematics"; reqDescription := None;
       reqScheduledStart := utc 2025 1 6 10 0;
       reqScheduledEnd := utc 2025 1 6 11 0;
       reqType := online; reqLocation := None; reqPrice := None;
       reqRecurring :=
         Some {| reqIsRecurring := true; reqFrequency := Some weekly;
                 reqEndDate := utc 2025 1 27 0 0 |} |} in
  (fun r =>
     (length (sessions (snd r)), outbox (snd r),
      (fun s => meetingLink (location s)) <$> sessions (snd r) !! 2%nat))
  <$> book 4 (Sample.at_ (utc 2025 1 1 0 0)) 1 req (initial Sample.directory)
  = Some (3%nat, [BookingNotice 0],
          Some (Some "https://meet.example.com/meeting-2"%string)).
Proof. vm_compute. reflexivity. Qed.

(** ** End and the statistics *)

Lemma updateUserStats_lookup (session : Session) (d : Z)
    (directory : gmap nat User) (v : nat) :
  actualDuration session = Some d ->
  updateUserStats session directory !! v
  = (fun usr =>
       (if decide (tutor session = v) then addStats None (Some d) else id)
         ((if decide (student session = v) then addStats (Some d) None
           else id) usr))
    <$> directory !! v.
Proof.
  intros Hd. unfold updateUserStats. rewrite Hd, !lookup_alter.
  destruct (decide (tutor session = v)) as [->|],
    (decide (student session = v)) as [Hs|Hs];
    try rewrite Hs; try rewrite decide_True by reflexivity;
    try rewrite decide_False by congruence;
    destruct (directory !! v); reflexivity.
Qed.

Lemma ended_duration (t : Z) (b : bool) (n : option string) (s : Session)
    (a : Z) :
  actualStart s = Some a -> actualDuration (ended t b n s) = Some (t - a).
Proof.
  intros Ha. unfold actualDuration.
  destruct (ended_fields t b n s) as (_ & -> & -> & _). rewrite Ha.
  reflexivity.
Qed.

(** X15.  A successful End credits both participants: the answer gives
    the duration from the stored actual start to the time read, the
    student's record gains one session, one completed session and the
    duration as time learning, the tutor's record one session, one
    completed session and the duration as time teaching (someone who is
    both gains both), nobody's role or availability changes, the other
    users are left alone, and no mail is sent. *)
Theorem end_credits_both_participants (clk : nat -> Z) (u id : nat)
    (n : option string) (st : State) (s : Session) (a : Z) :
  sessions st !! id = Some s ->
  status s = ongoing ->
  actualStart s = Some a ->
  isParticipant u s = true ->
  optionalMax 1000 n = true ->
  exists st',
    endSession clk u id n st
    = (Ok {| ebId := id; ebStatus := completed;
             ebActualEnd := Some (clk 0%nat);
             ebDuration := Some (clk 0%nat - a) |}, st')
    /\ outbox st' = outbox st
    /\ forall v,
         match users st !! v with
         | None => users st' !! v = None
         | Some usr =>
             exists usr',
               users st' !! v = Some usr'
               /\ role usr' = role usr
               /\ availability usr' = availability usr
               /\ totalSessions (stats usr')
                  = totalSessions (stats usr)
                    + (if decide (student s = v) then 1 else 0)
                    + (if decide (tutor s = v) then 1 else 0)
               /\ completedSessions (stats usr')
                  = completedSessions (stats usr)
                    + (if decide (student s = v) then 1 else 0)
                    + (if decide (tutor s = v) then 1 else 0)
               /\ msLearning (stats usr')
                  = msLearning (stats usr)
                    + (if decide (student s = v) then clk 0%nat - a else 0)
               /\ msTeaching (stats usr')
                  = msTeaching (stats usr)
                    + (if decide (tutor s = v) then clk 0%nat - a else 0)
         end.
Proof.
  intros Hs Hst Ha Hp Hv. rewrite endSession_effect, Hv, Hs, Hp.
  rewrite bool_decide_eq_true_2 by exact Hst. simpl negb. cbv iota zeta.
  set (assign := ended (clk 0%nat) (bool_decide (student s = u))
                   (trim <$> n)).
  assert (Hd : actualDuration (assign s) = Some (clk 0%nat - a))
    by (apply ended_duration, Ha).
  rewrite Hd. eexists. split; [reflexivity|]. split; [reflexivity|].
  intros v. cbn [users with_users].
  rewrite (updateUserStats_lookup _ _ _ _ Hd).
  destruct (ended_fields (clk 0%nat) (bool_decide (student s = u))
              (trim <$> n) s) as (_ & _ & _ & _ & E5 & E6).
  fold assign in E5, E6. rewrite E5, E6.
  destruct (users (saveSession id assign st) !! v) as [usr|] eqn:Hu;
    change (users (saveSession id assign st)) with (users st) in Hu;
    rewrite Hu; [|reflexivity].
  eexists. split; [reflexivity|].
  destruct (decide (tutor s = v)), (decide (student s = v)); simpl;
    repeat split; lia.
Qed.

Lemma end_credits_both_participants_witness :
  let s :=
    set_actualStart (utc 2025 1 6 10 1)
      (Sample.session 1 2 (utc 2025 1 6 10 0) (utc 2025 1 6 11 0) ongoing
         false) in
  let st := Sample.store [s] in
  let clk := Sample.at_ (utc 2025 1 6 11 0) in
  let a := utc 2025 1 6 10 1 in
  exists st',
    endSession clk 2 0 None st
    = (Ok {| ebId := 0; ebStatus := completed;
             ebActualEnd := Some (clk 0%nat);
             ebDuration := Some (clk 0%nat - a) |}, st')
    /\ outbox st' = outbox st
    /\ forall v,
         match users st !! v with
         | None => users st' !! v = None
         | Some usr =>
             exists usr',
               users st' !! v = Some usr'
               /\ role usr' = role usr
               /\ availability usr' = availability usr
               /\ totalSessions (stats usr')
                  = totalSessions (stats usr)
                    + (if decide (student s = v) then 1 else 0)
                    + (if decide (tutor s = v) then 1 else 0)
               /\ completedSessions (stats usr')
                  = completedSessions (stats usr)
                    + (if decide (student s = v) then 1 else 0)
                    + (if decide (tutor s = v) then 1 else 0)
               /\ msLearning (stats usr')
                  = msLearning (stats usr)
                    + (if decide (student s = v) then clk 0%nat - a else 0)
               /\ msTeaching (stats usr')
                  = msTeaching (stats usr)
                    + (if decide (tutor s = v) then clk 0%nat - a else 0)
         end.
Proof.
  intros s st clk a.
  apply (end_credits_both_participants clk 2 0 None st s a); reflexivity.
Defined.

(** X16.  Start followed by End of the same session: the duration that
    End reports and stores is the time the clock read at the end minus
    the time it read when Start set the actual start; neither handler
    compares the two, so the duration is whatever the clock gives. *)
Theorem start_then_end_measures_the_session (clkS clkE : nat -> Z)
    (u v id : nat) (n : option string) (st st1 st2 : State)
    (started' : StartBody) (ended' : EndBody) :
  start clkS u id st = (Ok started', st1) ->
  endSession clkE v id n st1 = (Ok ended', st2) ->
  sbActualStart started' = Some (clkS 1%nat)
  /\ ebActualEnd ended' = Some (clkE 0%nat)
  /\ ebDuration ended' = Some (clkE 0%nat - clkS 1%nat)
  /\ exists s2,
       sessions st2 !! id = Some s2
       /\ status s2 = completed
       /\ actualDuration s2 = Some (clkE 0%nat - clkS 1%nat).
Proof.
  intros Hstart Hend.
  destruct (start_cases clkS u id st)
    as [[Hf _]|(session & Hid & _ & _ & _ & Heq)].
  { rewrite Hstart in Hf. discriminate. }
  rewrite Heq in Hstart. injection Hstart as <- <-.
  pose proof (lookup_saveSession_eq id (started (clkS 1%nat)) st session Hid)
    as Hid1.
  destruct (endSession_cases clkE v id n
              (saveSession id (started (clkS 1%nat)) st))
    as [[Hf _]|(session1 & Hid1' & _ & _ & _ & Heq1)].
  { rewrite Hend in Hf. discriminate. }
  rewrite Hid1 in Hid1'. injection Hid1' as <-.
  rewrite Heq1 in Hend. cbv zeta in Hend. injection Hend as <- <-.
  set (assign := ended (clkE 0%nat) (bool_decide (student session = v))
                   (trim <$> n)).
  assert (Hd : actualDuration (assign (started (clkS 1%nat) session))
               = Some (clkE 0%nat - clkS 1%nat))
    by (apply ended_duration; reflexivity).
  cbn [sbActualStart ebActualEnd ebDuration]. rewrite Hd.
  repeat split.
  exists (assign (started (clkS 1%nat) session)).
  rewrite sessions_with_users.
  split; [apply lookup_saveSession_eq, Hid1|].
  split; [|exact Hd].
  destruct (ended_fields (clkE 0%nat) (bool_decide (student session = v))
              (trim <$> n) (started (clkS 1%nat) session)) as (H & _).
  exact H.
Qed.

Lemma start_then_end_measures_the_session_witness :
  let s :=
    Sample.session 1 2 (utc 2025 1 6 10 0) (utc 2025 1 6 11 0) scheduled
      false in
  let st := Sample.store [s] in
  let clkS := Sample.at_ (utc 2025 1 6 9 50) in
  let clkE := Sample.at_ (utc 2025 1 6 10 40) in
  exists started' st1 ended' st2,
    start clkS 2 0 st = (Ok started', st1)
    /\ endSession clkE 1 0 None st1 = (Ok ended', st2)
    /\ sbActualStart started' = Some (clkS 1%nat)
    /\ ebActualEnd ended' = Some (clkE 0%nat)
    /\ ebDuration ended' = Some (clkE 0%nat - clkS 1%nat)
    /\ exists s2,
         sessions st2 !! 0%nat = Some s2
         /\ status s2 = completed
         /\ actualDuration s2 = Some (clkE 0%nat - clkS 1%nat).
Proof.
  intros s st clkS clkE.
  eexists _, _, _, _. split; [reflexivity|]. split; [reflexivity|].
  eapply (start_then_end_measures_the_session clkS clkE 2 1 0 None st);
    reflexivity.
Defined.

(** ** The statistics over a run *)












(** ** Availability from week to week *)

Lemma epochDay_add_days (n t : Z) : epochDay (add_days n t) = epochDay t + n.
Proof.
  unfold epochDay, add_days. apply Z.div_add. unfold msPerDay. lia.
Qed.

Lemma msOfDay_add_days (n t : Z) : msOfDay (add_days n t) = msOfDay t.
Proof.
  unfold msOfDay, add_days. apply Z.mod_add. unfold msPerDay. lia.
Qed.

Lemma dayOfWeek_add_weeks (k t : Z) : dayOfWeek (add_weeks k t) = dayOfWeek t.
Proof.
  unfold dayOfWeek, add_weeks. rewrite epochDay_add_days.
  replace (epochDay t + 7 * k + 4) with (epochDay t + 4 + k * 7) by lia.
  rewrite Z.mod_add by lia. reflexivity.
Qed.

Lemma formatHHmm_add_days (n t : Z) :
  formatHHmm (add_days n t) = formatHHmm t.
Proof.
  unfold formatHHmm, hours, minutes. rewrite msOfDay_add_days. reflexivity.
Qed.

Lemma checkTutorAvailability_add_weeks (directory : gmap nat User)
    (tutorId : nat) (start end_ k : Z) :
  checkTutorAvailability directory tutorId (add_weeks k start)
    (add_weeks k end_)
  = checkTutorAvailability directory tutorId start end_.
Proof.
  unfold checkTutorAvailability. rewrite dayOfWeek_add_weeks.
  unfold add_weeks. rewrite !formatHHmm_add_days. reflexivity.
Qed.

(** X18.  The availability checker looks at the day of the week and the
    time of day only, so its answer for a window is its answer for the
    same window any whole number of weeks earlier or later.  Hence in a
    weekly or biweekly series every session passes the availability
    check that the first one passes, though only the first is checked. *)
Theorem availability_repeats_weekly :
  (forall (directory : gmap nat User) (tutorId : nat) (start end_ k : Z),
     checkTutorAvailability directory tutorId (add_weeks k start)
       (add_weeks k end_)
     = checkTutorAvailability directory tutorId start end_)
  /\ (forall (directory : gmap nat User) (tutorId : nat) (start end_ : Z)
             (f : Frequency) (n : nat),
        f <> monthly ->
        checkTutorAvailability directory tutorId
          (Nat.iter n (advance (Some f)) start)
          (Nat.iter n (advance (Some f)) start + (end_ - start))
        = checkTutorAvailability directory tutorId start end_).
Proof.
  split; [exact checkTutorAvailability_add_weeks|].
  intros directory tutorId start end_ f n Hf.
  rewrite nthStart_closed_form.
  destruct f; [| |congruence].
  - rewrite <- (checkTutorAvailability_add_weeks directory tutorId start end_
                  (Z.of_nat n)).
    unfold add_weeks, add_days. f_equal; lia.
  - rewrite <- (checkTutorAvailability_add_weeks directory tutorId start end_
                  (2 * Z.of_nat n)).
    unfold add_weeks, add_days. f_equal; lia.
Qed.

Example availability_a_week_later :
  checkTutorAvailability Sample.directory 2 (utc 2025 1 6 10 0)
    (utc 2025 1 6 11 0) = true
  /\ checkTutorAvailability Sample.directory 2 (utc 2025 1 13 10 0)
       (utc 2025 1 13 11 0) = true
  /\ checkTutorAvailability Sample.directory 2 (utc 2025 2 6 10 0)
       (utc 2025 2 6 11 0) = false.
Proof. repeat split; vm_compute; reflexivity. Qed.

(** ** Learning streaks *)

Lemma insertDesc_Permutation (x : Z) (l : list Z) :
  Permutation (insertDesc x l) (x :: l).
Proof.
  induction l as [|y r IH]; simpl; [reflexivity|].
  destruct (_ <=? _); [reflexivity|].
  rewrite IH. apply perm_swap.
Qed.

Lemma sortDesc_Permutation (l : list Z) : Permutation (sortDesc l) l.
Proof.
  induction l as [|x r IH]; simpl; [reflexivity|].
  rewrite insertDesc_Permutation, IH. reflexivity.
Qed.

Lemma insertDesc_sorted (x : Z) (l : list Z) :
  StronglySorted (fun a b => b <= a) l ->
  StronglySorted (fun a b => b <= a) (insertDesc x l).
Proof.
  induction l as [|y r IH]; simpl; intros Hs.
  - repeat constructor.
  - apply StronglySorted_inv in Hs as [Hr Hy].
    destruct (Z.leb_spec y x).
    + constructor; [constructor; assumption|].
      constructor; [assumption|].
      eapply Forall_impl; [exact Hy|]. simpl. intros; lia.
    + constructor; [apply IH, Hr|].
      rewrite insertDesc_Permutation. constructor; [lia | exact Hy].
Qed.

Lemma sortDesc_sorted (l : list Z) :
  StronglySorted (fun a b => b <= a) (sortDesc l).
Proof.
  induction l as [|x r IH]; simpl; [constructor|].
  apply insertDesc_sorted, IH.
Qed.

(** The loop, with [p] the number of sessions gone through: the current
    streak is nought or all of them, and then every gap was within seven
    days. *)
Lemma streakLoop_spec (rest : list Z) :
  forall (last c l t p : Z) (knit : bool),
  1 <= t <= p -> 0 <= l <= p ->
  (if knit then c = p /\ t = p else c = 0) ->
  let '(c', l', t') := streakLoop rest last c l t in
  let p' := p + Z.of_nat (length rest) in
  1 <= t' <= p' /\ 0 <= l' <= p'
  /\ (if knit && closeKnit last rest then c' = p' /\ t' = p' else c' = 0).
Proof.
  induction rest as [|x rest IH]; intros last c l t p knit Ht Hl Hc.
  - simpl. rewrite andb_true_r, Z.add_0_r. auto.
  - cbn [streakLoop closeKnit]. cbv zeta.
    destruct (Z.leb_spec (diffDays last x) 7) as [Hgap|Hgap].
    + specialize (IH x (if 0 <? c then c + 1 else c) l (t + 1) (p + 1) knit).
      destruct (streakLoop rest x (if 0 <? c then c + 1 else c) l (t + 1))
        as [[c' l'] t'].
      cbn [length]. rewrite Nat2Z.inj_succ. cbn [andb].
      replace (p + Z.succ (Z.of_nat (length rest)))
        with (p + 1 + Z.of_nat (length rest)) by lia.
      apply IH; [lia | lia|].
      destruct knit.
      * destruct Hc as [-> ->]. destruct (Z.ltb_spec 0 p); lia.
      * subst c. reflexivity.
    + specialize (IH x 0 (Z.max l t) 1 (p + 1) false).
      destruct (streakLoop rest x 0 (Z.max l t) 1) as [[c' l'] t'].
      cbn [length]. rewrite Nat2Z.inj_succ. rewrite andb_false_r.
      replace (p + Z.succ (Z.of_nat (length rest)))
        with (p + 1 + Z.of_nat (length rest)) by lia.
      apply IH; [lia | lia | reflexivity].
Qed.

(** X19.  The learning streaks of a student.  Without completed sessions
    all is nought.  Otherwise, with n the number of the student's
    completed sessions: the last session is the latest scheduled end
    among them, the longest streak is at least 1 and at most n, and the
    current streak is all or nothing: it is n when the latest end is at
    most seven whole days before now and every end is at most seven
    whole days after the one before it (whole days as moment's [diff]
    counts them, so less than eight days), and 0 in every other case,
    however recent the latest sessions are. *)
Theorem learning_streak_is_all_or_nothing (now : Z) (userId : nat)
    (coll : list Session) :
  let ends :=
    map (fun d => scheduledEnd (snd d)) (find (streakQuery userId) coll) in
  let n := Z.of_nat (length ends) in
  let s := calculateLearningStreaks now userId coll in
  (n = 0 -> s = {| current := 0; longest := 0; lastSession := None |})
  /\ (0 < n ->
      exists first rest,
        sortDesc ends = first :: rest
        /\ lastSession s = Some first
        /\ In first ends /\ (forall e, In e ends -> e <= first)
        /\ 1 <= longest s <= n
        /\ current s
           = (if (diffDays now first <=? 7) && closeKnit first rest then n
              else 0)
        /\ current s <= longest s).
Proof.
  intros ends n s. subst s. unfold calculateLearningStreaks. fold ends.
  pose proof (sortDesc_Permutation ends) as Hperm.
  pose proof (sortDesc_sorted ends) as Hsorted.
  destruct (sortDesc ends) as [|first rest] eqn:Hsort.
  - split; [reflexivity|]. intros Hn. exfalso.
    apply Permutation_length in Hperm. simpl in Hperm. subst n. lia.
  - assert (Hn : n = 1 + Z.of_nat (length rest)).
    { apply Permutation_length in Hperm. simpl in Hperm. subst n. lia. }
    split; [lia|]. intros _. exists first, rest. split; [reflexivity|].
    pose proof (streakLoop_spec rest first
                  (if diffDays now first <=? 7 then 1 else 0) 0 1 1
                  (diffDays now first <=? 7)) as Hloop.
    destruct (streakLoop rest first
                (if diffDays now first <=? 7 then 1 else 0) 0 1)
      as [[c l] t].
    cbv zeta in Hloop. rewrite <- Hn in Hloop.
    destruct Hloop as (Ht & Hl & Hc); [lia | lia | |].
    { destruct (diffDays now first <=? 7); auto. }
    cbn [current longest lastSession].
    split; [reflexivity|]. split.
    { apply list_elem_of_In. rewrite <- Hperm. apply elem_of_cons. auto. }
    split.
    { intros e He. apply list_elem_of_In in He. rewrite <- Hperm in He.
      apply StronglySorted_inv in Hsorted as [_ Hall].
      apply elem_of_cons in He as [->|He]; [lia|].
      rewrite Forall_forall in Hall. apply Hall, He. }
    split; [lia|].
    destruct ((diffDays now first <=? 7) && closeKnit first rest);
      [destruct Hc as [-> ->] | subst c]; split; lia.
Qed.

(** Three sessions a few days apart and one two months before: the
    current streak is 0, the longest is 3. *)
Example a_gap_long_ago_ends_the_current_streak :
  let ended' (t : Z) :=
    Sample.session 1 2 (t - msPerHour) t completed false in
  calculateLearningStreaks (utc 2025 3 15 12 0) 1
    [ ended' (utc 2025 1 10 11 0); ended' (utc 2025 3 14 11 0);
      ended' (utc 2025 3 10 11 0); ended' (utc 2025 3 6 11 0) ]
  = {| current := 0; longest := 3;
       lastSession := Some (utc 2025 3 14 11 0) |}
  /\ calculateLearningStreaks (utc 2025 3 15 12 0) 1
       [ ended' (utc 2025 3 14 11 0); ended' (utc 2025 3 10 11 0);
         ended' (utc 2025 3 6 11 0) ]
     = {| current := 3; longest := 3;
          lastSession := Some (utc 2025 3 14 11 0) |}.
Proof. split; vm_compute; reflexivity. Qed.

(** ** Feedback *)

Lemma existingFeedback_None (sessionId' reviewerId : nat)
    (feedback : list FeedbackRoutes.Feedback) :
  FeedbackRoutes.existingFeedback sessionId' reviewerId feedback = None
  <-> forall f,
        In f feedback ->
        ~ (FeedbackRoutes.session f = sessionId'
           /\ FeedbackRoutes.reviewer f = reviewerId).
Proof.
  unfold FeedbackRoutes.existingFeedback. split.
  - intros Hnone f Hin [Hs Hr].
    pose proof (find_none _ _ Hnone f Hin) as Hf. simpl in Hf.
    rewrite !bool_decide_eq_true_2 in Hf by assumption. discriminate.
  - intros Hall.
    destruct (List.find _ feedback) as [f|] eqn:Hfind; [|reflexivity].
    apply find_some in Hfind as [Hin Hq]. exfalso. apply (Hall f Hin).
    apply andb_true_iff in Hq as [H1 H2].
    apply bool_decide_eq_true in H1, H2. auto.
Qed.

(** The reply and the collection of a submission, check by check. *)
Lemma submit_cases (reviewerId : nat) (req : FeedbackRoutes.SubmitReq)
    (coll : list Session) (feedback : list FeedbackRoutes.Feedback) :
  (succeeded (fst (FeedbackRoutes.submit reviewerId req coll feedback)) = false
   /\ snd (FeedbackRoutes.submit reviewerId req coll feedback) = feedback)
  \/ exists s,
       FeedbackRoutes.validRatings (FeedbackRoutes.reqRatings req) = true
       /\ optionalMax 1000 (FeedbackRoutes.reqComment req) = true
       /\ coll !! FeedbackRoutes.sessionId req = Some s
       /\ status s = completed
       /\ isParticipant reviewerId s = true
       /\ FeedbackRoutes.revieweeId req
          = (if bool_decide (student s = reviewerId) then tutor s
             else student s)
       /\ FeedbackRoutes.existingFeedback (FeedbackRoutes.sessionId req)
            reviewerId feedback = None
       /\ forallb (fun t => bool_decide (t ∈ FeedbackRoutes.tagNames))
            (default [] (FeedbackRoutes.reqTags req)) = true
       /\ FeedbackRoutes.submit reviewerId req coll feedback
          = (let fb :=
               {| FeedbackRoutes.session := FeedbackRoutes.sessionId req;
                  FeedbackRoutes.reviewer := reviewerId;
                  FeedbackRoutes.reviewee := FeedbackRoutes.revieweeId req;
                  FeedbackRoutes.type :=
                    if bool_decide (student s = reviewerId)
                    then FeedbackRoutes.student_to_tutor
                    else FeedbackRoutes.tutor_to_student;
                  FeedbackRoutes.ratings := FeedbackRoutes.reqRatings req;
                  FeedbackRoutes.comment :=
                    trim <$> FeedbackRoutes.reqComment req;
                  FeedbackRoutes.tags :=
                    default [] (FeedbackRoutes.reqTags req);
                  FeedbackRoutes.isPublic :=
                    default true (FeedbackRoutes.reqIsPublic req);
                  FeedbackRoutes.helpfulVotes := 0;
                  FeedbackRoutes.reportedBy := [] |} in
             (Ok fb, feedback ++ [fb])).
Proof.
  unfold FeedbackRoutes.submit.
  destruct (FeedbackRoutes.validRatings _) eqn:Hr; simpl andb; cbv iota;
    [|left; auto].
  destruct (optionalMax 1000 _) eqn:Hc; simpl negb; cbv iota; [|left; auto].
  destruct (coll !! FeedbackRoutes.sessionId req) as [s|]; [|left; auto].
  case_bool_decide as Hst; simpl negb; cbv iota; [|left; auto].
  destruct (isParticipant reviewerId s) eqn:Hp; simpl negb; cbv iota;
    [|left; auto].
  cbv zeta.
  case_bool_decide as Hrev; simpl negb; cbv iota; [|left; auto].
  destruct (FeedbackRoutes.existingFeedback _ _ _) eqn:Hex; [left; auto|].
  cbn [FeedbackRoutes.tags].
  destruct (forallb _ _) eqn:Htags; simpl negb; cbv iota; [|left; auto].
  right. exists s. repeat split; auto.
Qed.

(** X20.  Feedback is accepted exactly when the ratings are within 1 to
    5, the comment, trimmed, has at most 1000 characters, every tag is
    one of the schema, the session exists and is completed, the reviewer
    is its student or its tutor, the reviewee named is the other of the
    two, and the reviewer has not given feedback for that session
    before.  The feedback stored is appended to the collection, public
    unless asked otherwise, with no votes and no reports; it goes from
    student to tutor when the reviewer is the student, from tutor to
    student otherwise.  A refused submission leaves the collection as it
    is. *)
Theorem feedback_is_accepted_iff (reviewerId : nat)
    (req : FeedbackRoutes.SubmitReq) (coll : list Session)
    (feedback : list FeedbackRoutes.Feedback) (s : Session) :
  coll !! FeedbackRoutes.sessionId req = Some s ->
  let result := FeedbackRoutes.submit reviewerId req coll feedback in
  (succeeded (fst result) = true
   <-> FeedbackRoutes.validRatings (FeedbackRoutes.reqRatings req) = true
       /\ optionalMax 1000 (FeedbackRoutes.reqComment req) = true
       /\ Forall (fun t => t ∈ FeedbackRoutes.tagNames)
            (default [] (FeedbackRoutes.reqTags req))
       /\ status s = completed
       /\ ((student s = reviewerId
            /\ FeedbackRoutes.revieweeId req = tutor s)
           \/ (student s <> reviewerId /\ tutor s = reviewerId
               /\ FeedbackRoutes.revieweeId req = student s))
       /\ (forall f,
             In f feedback ->
             ~ (FeedbackRoutes.session f = FeedbackRoutes.sessionId req
                /\ FeedbackRoutes.reviewer f = reviewerId)))
  /\ (succeeded (fst result) = true ->
      exists fb,
        result = (Ok fb, feedback ++ [fb])
        /\ FeedbackRoutes.session fb = FeedbackRoutes.sessionId req
        /\ FeedbackRoutes.reviewer fb = reviewerId
        /\ FeedbackRoutes.reviewee fb = FeedbackRoutes.revieweeId req
        /\ FeedbackRoutes.type fb
           = (if bool_decide (student s = reviewerId)
              then FeedbackRoutes.student_to_tutor
              else FeedbackRoutes.tutor_to_student)
        /\ FeedbackRoutes.isPublic fb
           = default true (FeedbackRoutes.reqIsPublic req)
        /\ FeedbackRoutes.helpfulVotes fb = 0
        /\ FeedbackRoutes.reportedBy fb = [])
  /\ (succeeded (fst result) = false -> snd result = feedback).
Proof.
  intros Hs result. subst result.
  assert (Htags : forall l : list string,
            forallb (fun t => bool_decide (t ∈ FeedbackRoutes.tagNames)) l
            = true
            <-> Forall (fun t => t ∈ FeedbackRoutes.tagNames) l).
  { intros l. rewrite forallb_forall, Forall_forall. split.
    - intros H t Ht. apply list_elem_of_In in Ht.
      exact (bool_decide_eq_true_1 _ (H t Ht)).
    - intros H t Ht. apply list_elem_of_In in Ht.
      exact (bool_decide_eq_true_2 _ (H t Ht)). }
  assert (Hwho : forall x : nat,
            (isParticipant reviewerId s = true
             /\ x = (if bool_decide (student s = reviewerId) then tutor s
                     else student s))
            <-> ((student s = reviewerId /\ x = tutor s)
                 \/ (student s <> reviewerId /\ tutor s = reviewerId
                     /\ x = student s))).
  { intros x. unfold isParticipant.
    rewrite orb_true_iff, !bool_decide_eq_true.
    case_bool_decide; intuition congruence. }
  destruct (submit_cases reviewerId req coll feedback)
    as [[Hf Hsame]|(s' & Hr & Hc & Hs' & Hst & Hp & Hrev & Hex & Ht & Heq)].
  - split; [|split; [congruence | auto]].
    split; [congruence|].
    intros (Hr & Hc & Ht & Hst & Hw & Hex). exfalso.
    apply Htags in Ht. apply Hwho in Hw as [Hp Hrev].
    apply existingFeedback_None in Hex.
    revert Hf. unfold FeedbackRoutes.submit. rewrite Hr, Hc, Hs, Hp.
    rewrite (bool_decide_eq_true_2 _ Hst). simpl negb. cbv iota zeta.
    rewrite (bool_decide_eq_true_2 _ Hrev), Hex. simpl negb. cbv iota.
    cbn [FeedbackRoutes.tags]. rewrite Ht. discriminate.
  - rewrite Hs in Hs'. injection Hs' as <-. rewrite Heq. cbv zeta.
    cbn [fst snd succeeded].
    split; [|split; [|discriminate]].
    + split; [|reflexivity]. intros _.
      repeat (split; [assumption|]).
      split; [apply Htags, Ht|]. split; [exact Hst|].
      split; [apply Hwho; auto | apply existingFeedback_None, Hex].
    + intros _. eexists. split; [reflexivity|]. repeat split.
Qed.

Lemma feedback_is_accepted_iff_witness :
  let s :=
    Sample.session 1 2 (utc 2025 1 6 10 0) (utc 2025 1 6 11 0) completed
      false in
  let coll := [s] in
  let req :=
    {| FeedbackRoutes.sessionId := 0; FeedbackRoutes.revieweeId := 2;
       FeedbackRoutes.reqRatings :=
         {| FeedbackRoutes.overall := 9 # 2;
            FeedbackRoutes.communication := Some (5 # 1);
            FeedbackRoutes.punctuality := None;
            FeedbackRoutes.knowledge := None;
            FeedbackRoutes.patience := None;
            FeedbackRoutes.preparation := None |};
       FeedbackRoutes.reqComment := Some " clear and patient ";
       FeedbackRoutes.reqTags := Some ["helpful"; "patient"]%string;
       FeedbackRoutes.reqIsPublic := None |} in
  let result := FeedbackRoutes.submit 1 req coll [] in
  (succeeded (fst result) = true
   <-> FeedbackRoutes.validRatings (FeedbackRoutes.reqRatings req) = true
       /\ optionalMax 1000 (FeedbackRoutes.reqComment req) = true
       /\ Forall (fun t => t ∈ FeedbackRoutes.tagNames)
            (default [] (FeedbackRoutes.reqTags req))
       /\ status s = completed
       /\ ((student s = 1%nat
            /\ FeedbackRoutes.revieweeId req = tutor s)
           \/ (student s <> 1%nat /\ tutor s = 1%nat
               /\ FeedbackRoutes.revieweeId req = student s))
       /\ (forall f,
             In f [] ->
             ~ (FeedbackRoutes.session f = FeedbackRoutes.sessionId req
                /\ FeedbackRoutes.reviewer f = 1%nat)))
  /\ (succeeded (fst result) = true ->
      exists fb,
        result = (Ok fb, [] ++ [fb])
        /\ FeedbackRoutes.session fb = FeedbackRoutes.sessionId req
        /\ FeedbackRoutes.reviewer fb = 1%nat
        /\ FeedbackRoutes.reviewee fb = FeedbackRoutes.revieweeId req
        /\ FeedbackRoutes.type fb
           = (if bool_decide (student s = 1%nat)
              then FeedbackRoutes.student_to_tutor
              else FeedbackRoutes.tutor_to_student)
        /\ FeedbackRoutes.isPublic fb
           = default true (FeedbackRoutes.reqIsPublic req)
        /\ FeedbackRoutes.helpfulVotes fb = 0
        /\ FeedbackRoutes.reportedBy fb = [])
  /\ (succeeded (fst result) = false -> snd result = []).
Proof.
  intros s coll req result.
  apply (feedback_is_accepted_iff 1 req coll [] s). reflexivity.
Defined.

Example feedback_is_given_once :
  let s :=
    Sample.session 1 2 (utc 2025 1 6 10 0) (utc 2025 1 6 11 0) completed
      false in
  let req (who : nat) :=
    {| FeedbackRoutes.sessionId := 0; FeedbackRoutes.revieweeId := who;
       FeedbackRoutes.reqRatings :=
         {| FeedbackRoutes.overall := 9 # 2;
            FeedbackRoutes.communication := None;
            FeedbackRoutes.punctuality := None;
            FeedbackRoutes.knowledge := None;
            FeedbackRoutes.patience := None;
            FeedbackRoutes.preparation := None |};
       FeedbackRoutes.reqComment := None;
       FeedbackRoutes.reqTags := None;
       FeedbackRoutes.reqIsPublic := None |} in
  let once := snd (FeedbackRoutes.submit 1 (req 2%nat) [s] []) in
  length once = 1%nat
  /\ fst (FeedbackRoutes.submit 1 (req 2%nat) [s] once)
     = BadRequest "Feedback already submitted for this session"
  /\ succeeded (fst (FeedbackRoutes.submit 2 (req 1%nat) [s] once)) = true
  /\ fst (FeedbackRoutes.submit 2 (req 2%nat) [s] once)
     = BadRequest "Invalid reviewee"
  /\ fst (FeedbackRoutes.submit 3 (req 1%nat) [s] once)
     = Forbidden "Access denied".
Proof. repeat split; vm_compute; reflexivity. Qed.

Lemma feedback_lookup_alter
    (g : FeedbackRoutes.Feedback -> FeedbackRoutes.Feedback) (id : nat)
    (feedback : list FeedbackRoutes.Feedback) :
  alter g id feedback !! id = g <$> feedback !! id.
Proof.
  rewrite list_lookup_alter. destruct (decide (id = id)); congruence.
Qed.

(** The collection a vote leaves. *)
Lemma helpful_cases (userId feedbackId : nat)
    (feedback : list FeedbackRoutes.Feedback) :
  (succeeded (fst (FeedbackRoutes.helpful userId feedbackId feedback)) = false
   /\ snd (FeedbackRoutes.helpful userId feedbackId feedback) = feedback)
  \/ exists f,
       feedback !! feedbackId = Some f
       /\ FeedbackRoutes.isPublic f = true
       /\ FeedbackRoutes.reviewer f <> userId
       /\ FeedbackRoutes.helpful userId feedbackId feedback
          = (Ok (FeedbackRoutes.helpfulVotes f + 1),
             alter FeedbackRoutes.voted feedbackId feedback).
Proof.
  unfold FeedbackRoutes.helpful.
  destruct (feedback !! feedbackId) as [f|]; [|left; auto].
  destruct (FeedbackRoutes.isPublic f) eqn:Hp; simpl negb; cbv iota;
    [|left; auto].
  case_bool_decide as Hown; [left; auto|].
  right. exists f. auto.
Qed.

(** The collection a report leaves. *)
Lemma report_cases (now : Z) (userId feedbackId : nat) (reason' : string)
    (feedback : list FeedbackRoutes.Feedback) :
  (succeeded (fst (FeedbackRoutes.report now userId feedbackId reason'
                     feedback)) = false
   /\ snd (FeedbackRoutes.report now userId feedbackId reason' feedback)
      = feedback)
  \/ exists f,
       feedback !! feedbackId = Some f
       /\ lengthBetween 10 500 (trim reason') = true
       /\ ~ In userId (map FeedbackRoutes.user (FeedbackRoutes.reportedBy f))
       /\ FeedbackRoutes.report now userId feedbackId reason' feedback
          = (Ok tt,
             alter (FeedbackRoutes.reported
                      {| FeedbackRoutes.user := userId;
                         FeedbackRoutes.reason := trim reason';
                         FeedbackRoutes.reportedAt := now |})
               feedbackId feedback).
Proof.
  unfold FeedbackRoutes.report. cbv zeta.
  destruct (lengthBetween 10 500 (trim reason')) eqn:Hlen; simpl negb;
    cbv iota; [|left; auto].
  destruct (feedback !! feedbackId) as [f|]; [|left; auto].
  destruct (List.find _ (FeedbackRoutes.reportedBy f)) eqn:Hfind;
    [left; auto|].
  right. exists f. repeat split; auto.
  intros Hin. apply in_map_iff in Hin as (r & Hr & Hin).
  pose proof (find_none _ _ Hfind r Hin) as Hno. simpl in Hno.
  rewrite bool_decide_eq_true_2 in Hno by assumption. discriminate.
Qed.






Example own_and_private_feedback_gets_no_votes :
  let f (public : bool) :=
    {| FeedbackRoutes.session := 0; FeedbackRoutes.reviewer := 1;
       FeedbackRoutes.reviewee := 2;
       FeedbackRoutes.type := FeedbackRoutes.student_to_tutor;
       FeedbackRoutes.ratings :=
         {| FeedbackRoutes.overall := 4 # 1;
            FeedbackRoutes.communication := None;
            FeedbackRoutes.punctuality := None;
            FeedbackRoutes.knowledge := None;
            FeedbackRoutes.patience := None;
            FeedbackRoutes.preparation := None |};
       FeedbackRoutes.comment := None; FeedbackRoutes.tags := [];
       FeedbackRoutes.isPublic := public; FeedbackRoutes.helpfulVotes := 0;
       FeedbackRoutes.reportedBy := [] |} in
  FeedbackRoutes.helpful 1 0 [f true]
  = (BadRequest "Cannot vote on your own feedback", [f true])
  /\ FeedbackRoutes.helpful 2 0 [f false]
     = (Forbidden "Cannot vote on private feedback", [f false])
  /\ FeedbackRoutes.helpful 2 1 [f true]
     = (NotFound "Feedback not found", [f true]).
Proof. repeat split. Qed.

(** The reports on a feedback are kept by every request. *)
Lemma serve_keeps_reports (op : FeedbackRoutes.Request) (userId id : nat)
    (feedback : list FeedbackRoutes.Feedback) :
  (exists f,
     feedback !! id = Some f
     /\ In userId (map FeedbackRoutes.user (FeedbackRoutes.reportedBy f))) ->
  exists f,
    FeedbackRoutes.serve op feedback !! id = Some f
    /\ In userId (map FeedbackRoutes.user (FeedbackRoutes.reportedBy f)).
Proof.
  intros (f & Hf & Hin).
  assert (Halter : forall g i,
            (forall x,
               In userId
                 (map FeedbackRoutes.user (FeedbackRoutes.reportedBy x)) ->
               In userId
                 (map FeedbackRoutes.user (FeedbackRoutes.reportedBy (g x)))) ->
            exists f',
              alter g i feedback !! id = Some f'
              /\ In userId
                   (map FeedbackRoutes.user (FeedbackRoutes.reportedBy f'))).
  { intros g i Hg. destruct (decide (id = i)) as [<-|Hne].
    - exists (g f). rewrite feedback_lookup_alter, Hf. split; [reflexivity|].
      apply Hg, Hin.
    - exists f. rewrite list_lookup_alter_ne by congruence. auto. }
  destruct op as [coll reviewerId req|u i|now u i rsn];
    unfold FeedbackRoutes.serve.
  - destruct (submit_cases reviewerId req coll feedback)
      as [[_ ->]|(s & _ & _ & _ & _ & _ & _ & _ & _ & ->)]; [eauto|].
    cbv zeta. cbn [snd]. exists f. split; [|exact Hin].
    apply lookup_app_l_Some, Hf.
  - destruct (helpful_cases u i feedback) as [[_ ->]|(f' & _ & _ & _ & ->)];
      [eauto|].
    cbn [snd]. apply Halter. intros x Hx. exact Hx.
  - destruct (report_cases now u i rsn feedback)
      as [[_ ->]|(f' & _ & _ & _ & ->)]; [eauto|].
    cbn [snd]. apply Halter. intros x Hx. cbn. rewrite map_app.
    apply in_or_app. left. exact Hx.
Qed.

(** X23.  A user reports a feedback once: after a report of theirs was
    accepted, whatever is submitted, voted on or reported in between,
    a further report of theirs on that feedback is refused and leaves
    the collection as it is; with a reason of 10 to 500 characters the
    refusal is the one of a repeated report. *)
Theorem a_feedback_is_reported_once_per_user (now now' : Z)
    (userId feedbackId : nat) (reason' again : string)
    (ops : list FeedbackRoutes.Request)
    (feedback : list FeedbackRoutes.Feedback) :
  succeeded (fst (FeedbackRoutes.report now userId feedbackId reason'
                    feedback)) = true ->
  let later :=
    FeedbackRoutes.serveAll ops
      (snd (FeedbackRoutes.report now userId feedbackId reason' feedback)) in
  succeeded (fst (FeedbackRoutes.report now' userId feedbackId again later))
  = false
  /\ snd (FeedbackRoutes.report now' userId feedbackId again later) = later
  /\ (lengthBetween 10 500 (trim again) = true ->
      fst (FeedbackRoutes.report now' userId feedbackId again later)
      = BadRequest "You have already reported this feedback").
Proof.
  intros Hok later.
  assert (Hrep : exists f,
            later !! feedbackId = Some f
            /\ In userId
                 (map FeedbackRoutes.user (FeedbackRoutes.reportedBy f))).
  { subst later.
    destruct (report_cases now userId feedbackId reason' feedback)
      as [[Hfail _]|(f & Hf & _ & _ & Heq)]; [congruence|].
    rewrite Heq. cbn [snd].
    set (first := alter _ feedbackId feedback).
    assert (Hfirst : exists f',
              first !! feedbackId = Some f'
              /\ In userId
                   (map FeedbackRoutes.user (FeedbackRoutes.reportedBy f'))).
    { eexists. subst first. rewrite feedback_lookup_alter, Hf.
      split; [reflexivity|]. cbn. rewrite map_app.
      apply in_or_app. right. cbn. auto. }
    clearbody first. clear Heq Hf Hok. revert first Hfirst.
    unfold FeedbackRoutes.serveAll.
    induction ops as [|op ops IH]; intros first Hfirst; [exact Hfirst|].
    cbn. apply IH, serve_keeps_reports, Hfirst. }
  destruct Hrep as (f & Hf & Hin).
  apply in_map_iff in Hin as (r & Hr & Hin).
  assert (Hfind : exists r',
            List.find
              (fun r => bool_decide (FeedbackRoutes.user r = userId))
              (FeedbackRoutes.reportedBy f) = Some r').
  { destruct (List.find _ (FeedbackRoutes.reportedBy f)) as [r'|] eqn:Hnone;
      [eauto|].
    pose proof (find_none _ _ Hnone r Hin) as Hno. simpl in Hno.
    rewrite bool_decide_eq_true_2 in Hno by assumption. discriminate. }
  destruct Hfind as [r' Hfind].
  unfold FeedbackRoutes.report at 1 2 3. cbv zeta.
  destruct (lengthBetween 10 500 (trim again)); simpl negb; cbv iota.
  - rewrite Hf, Hfind. auto.
  - repeat split; auto. discriminate.
Qed.

Lemma a_feedback_is_reported_once_per_user_witness :
  let f :=
    {| FeedbackRoutes.session := 0; FeedbackRoutes.reviewer := 1;
       FeedbackRoutes.reviewee := 2;
       FeedbackRoutes.type := FeedbackRoutes.student_to_tutor;
       FeedbackRoutes.ratings :=
         {| FeedbackRoutes.overall := 1 # 1;
            FeedbackRoutes.communication := None;
            FeedbackRoutes.punctuality := None;
            FeedbackRoutes.knowledge := None;
            FeedbackRoutes.patience := None;
            FeedbackRoutes.preparation := None |};
       FeedbackRoutes.comment := Some "rude"; FeedbackRoutes.tags := [];
       FeedbackRoutes.isPublic := true; FeedbackRoutes.helpfulVotes := 0;
       FeedbackRoutes.reportedBy := [] |} in
  let ops :=
    [FeedbackRoutes.OpHelpful 3 0;
     FeedbackRoutes.OpReport 50 3 0 "this is plainly insulting"] in
  let first := FeedbackRoutes.report 10 2 0 "offensive wording" [f] in
  let later := FeedbackRoutes.serveAll ops (snd first) in
  succeeded (fst first) = true
  /\ succeeded
       (fst (FeedbackRoutes.report 90 2 0 "offensive wording, again" later))
     = false
  /\ snd (FeedbackRoutes.report 90 2 0 "offensive wording, again" later)
     = later
  /\ (lengthBetween 10 500 (trim "offensive wording, again") = true ->
      fst (FeedbackRoutes.report 90 2 0 "offensive wording, again" later)
      = BadRequest "You have already reported this feedback").
Proof.
  intros f ops first later.
  assert (H1 : succeeded (fst first) = true) by (vm_compute; reflexivity).
  split; [exact H1|].
  apply (a_feedback_is_reported_once_per_user 10 90 2 0 "offensive wording"
           "offensive wording, again" ops [f] H1).
Defined.

(** The comment and the reason are measured after trimming, and the
    no-break space is trimmed: a comment of 1001 of them is accepted (and
    stored empty), a reason of nine characters and one of them is too
    short. *)
Example padded_texts_are_measured_trimmed :
  let s :=
    Sample.session 1 2 (utc 2025 1 6 10 0) (utc 2025 1 6 11 0) completed
      false in
  let nbsp := String (ascii_of_nat 160) EmptyString in
  let padding :=
    string_of_list_ascii (replicate 1001 (ascii_of_nat 160)) in
  let req :=
    {| FeedbackRoutes.sessionId := 0; FeedbackRoutes.revieweeId := 2;
       FeedbackRoutes.reqRatings :=
         {| FeedbackRoutes.overall := 4 # 1;
            FeedbackRoutes.communication := None;
            FeedbackRoutes.punctuality := None;
            FeedbackRoutes.knowledge := None;
            FeedbackRoutes.patience := None;
            FeedbackRoutes.preparation := None |};
       FeedbackRoutes.reqComment := Some padding;
       FeedbackRoutes.reqTags := None;
       FeedbackRoutes.reqIsPublic := None |} in
  let stored := snd (FeedbackRoutes.submit 1 req [s] []) in
  FeedbackRoutes.comment <$> stored = [Some EmptyString]
  /\ FeedbackRoutes.report 10 2 0 ("123456789" ++ nbsp) stored
     = (ValidationErrors, stored)
  /\ succeeded
       (fst (FeedbackRoutes.report 10 2 0 ("1234567890" ++ nbsp) stored))
     = true.
Proof. repeat split; vm_compute; reflexivity. Qed.
